(** * Pre-migration validation of an NSX-V backed Org VDC

    A shallow embedding of [src/core/vcd/vcdValidations.py]
    (class [VCDMigrationValidation]) and the properties of its
    orchestration engine: the session guard, the [apiOutput.json]
    accumulator, the task poller, the rollback flags and the driver
    [preMigrationValidation].

    Python objects decoded from the wire ([xmltodict.parse],
    [response.json()], [json.load]) are values of [Py.json]; dynamic
    operations on them (subscript, iteration, [isinstance]) are written
    out with the exception Python raises.  Methods are computations in a
    state-and-exception monad over the object [self], the file
    [apiOutput.json] and the remote system.  The remote system is an
    arbitrary sequence of responses: the n-th request receives the n-th
    response, whatever it asks. *)

From Stdlib Require Import ZArith String Ascii List Lia DecimalString.
From stdpp Require Import gmap strings list fin_maps.

Open Scope string_scope.
Set Warnings "-register-all".

(* ===================================================================== *)
(** ** Python values, strings and exceptions *)
(* ===================================================================== *)

Module Py.

(** What [json.load], [response.json()] and [xmltodict.parse] produce.
    A [JObj] is a dict in insertion order; its keys are distinct. *)
Inductive json : Type :=
| JNull
| JBool (b : bool)
| JNum (n : Z)
| JStr (s : string)
| JArr (items : list json)
| JObj (fields : list (string * json)).

(** The exceptions the embedded code can raise.  All of them derive from
    [Exception], so every [except Exception] clause catches each one.
    [Exception t args] is [Exception(t.format( *args))] with the message
    left unformatted; [Exception "{}" [v]] is [Exception(v)]. *)
Inductive exn : Type :=
| Exception (template : string) (args : list json)
| KeyError (key : string)
| TypeError (msg : string)
| ValueError (msg : string)
| IndexError (msg : string)
| AttributeError (msg : string)
| FileNotFoundError (path : string)
| UnboundLocalError (name : string).

(** What evaluating an expression gives: a value or an exception. *)
Inductive result (A : Type) : Type :=
| Ok (a : A)
| Raise (e : exn).

Arguments Ok {A} a.
Arguments Raise {A} e.

(** *** [str] *)

(** [needle in hay] on two strings. *)
Fixpoint contains (needle hay : string) : bool :=
  String.prefix needle hay ||
  match hay with
  | EmptyString => false
  | String _ rest => contains needle rest
  end.

(** [s.split(sep)] for a one-character separator. *)
Fixpoint split (sep : ascii) (s : string) : list string :=
  match s with
  | EmptyString => [EmptyString]
  | String c rest =>
      if Ascii.eqb c sep then EmptyString :: split sep rest
      else match split sep rest with
           | [] => [String c EmptyString]
           | w :: ws => String c w :: ws
           end
  end.

(** [sep.join(parts)]. *)
Fixpoint join (sep : string) (parts : list string) : string :=
  match parts with
  | [] => EmptyString
  | [p] => p
  | p :: ps => p +:+ sep +:+ join sep ps
  end.

(** [s.split(sep)[-1]]: [split] never returns the empty list. *)
Definition last_field (sep : ascii) (s : string) : string :=
  List.last (split sep s) EmptyString.

Fixpoint rfind_from (c : ascii) (s : string) (i acc : Z) : Z :=
  match s with
  | EmptyString => acc
  | String a rest =>
      rfind_from c rest (i + 1)%Z (if Ascii.eqb a c then i else acc)
  end.

(** [s.rfind(c)]: the highest index of [c], or [-1]. *)
Definition rfind (c : ascii) (s : string) : Z := rfind_from c s 0%Z (-1)%Z.

Definition clamp_index (len i : Z) : Z :=
  if (i <? 0)%Z then Z.max 0 (i + len) else Z.min i len.

(** [s[a:b]], negative indices counted from the end. *)
Definition slice (s : string) (a b : Z) : string :=
  let len := Z.of_nat (String.length s) in
  let lo := clamp_index len a in
  let hi := clamp_index len b in
  String.substring (Z.to_nat lo) (Z.to_nat (hi - lo)) s.

(** [str(n)] for an int. *)
Definition str_of_int (n : Z) : string := NilZero.string_of_int (Z.to_int n).

(** ASCII whitespace as [str.strip] and [int] see it. *)
Definition is_space (c : ascii) : bool :=
  let n := nat_of_ascii c in
  (n =? 32)%nat || ((9 <=? n)%nat && (n <=? 13)%nat) ||
  ((28 <=? n)%nat && (n <=? 31)%nat).

Definition digit_of (c : ascii) : option Z :=
  let n := nat_of_ascii c in
  if ((48 <=? n)%nat && (n <=? 57)%nat)%bool
  then Some (Z.of_nat n - 48)%Z else None.

Fixpoint lstrip (s : string) : string :=
  match s with
  | String c rest => if is_space c then lstrip rest else s
  | EmptyString => EmptyString
  end.

Fixpoint rstrip (s : string) : string :=
  match s with
  | EmptyString => EmptyString
  | String c rest =>
      match rstrip rest with
      | EmptyString => if is_space c then EmptyString else String c EmptyString
      | r => String c r
      end
  end.

(** Digits of a decimal literal; one underscore is allowed between two
    digits. *)
Fixpoint digits (s : string) (acc : Z) (after_digit : bool) : option Z :=
  match s with
  | EmptyString => if after_digit then Some acc else None
  | String c rest =>
      match digit_of c with
      | Some d => digits rest (10 * acc + d)%Z true
      | None =>
          if (Ascii.eqb c "_" && after_digit)%bool
          then digits rest acc false else None
      end
  end.

(** [int(s)] on an ASCII string: surrounding whitespace, an optional
    sign, decimal digits.  Anything else is a [ValueError]. *)
Definition int (s : string) : result Z :=
  let bad := Raise (ValueError ("invalid literal for int() with base 10: " +:+ s)) in
  match lstrip (rstrip s) with
  | String "-" rest =>
      match digits rest 0 false with Some n => Ok (- n)%Z | None => bad end
  | String "+" rest =>
      match digits rest 0 false with Some n => Ok n | None => bad end
  | t => match digits t 0 false with Some n => Ok n | None => bad end
  end.

(** *** Dynamic operations on decoded values *)

Fixpoint assoc (k : string) (kvs : list (string * json)) : option json :=
  match kvs with
  | [] => None
  | (k', v) :: rest => if String.eqb k k' then Some v else assoc k rest
  end.

(** [v[k]] with a string key. *)
Definition getitem (v : json) (k : string) : result json :=
  match v with
  | JObj kvs =>
      match assoc k kvs with
      | Some x => Ok x
      | None => Raise (KeyError k)
      end
  | JStr _ => Raise (TypeError "string indices must be integers")
  | JArr _ => Raise (TypeError "list indices must be integers or slices, not str")
  | _ => Raise (TypeError "object is not subscriptable")
  end.

(** [v[0]]. *)
Definition getfirst (v : json) : result json :=
  match v with
  | JArr (x :: _) => Ok x
  | JArr [] => Raise (IndexError "list index out of range")
  | JStr (String c _) => Ok (JStr (String c EmptyString))
  | JStr EmptyString => Raise (IndexError "string index out of range")
  | JObj _ => Raise (KeyError "0")
  | _ => Raise (TypeError "object is not subscriptable")
  end.

(** What [for x in v] enumerates: the items of a list, the keys of a
    dict, the characters of a string. *)
Definition iter (v : json) : result (list json) :=
  match v with
  | JArr items => Ok items
  | JObj kvs => Ok (map (fun kv => JStr (fst kv)) kvs)
  | JStr s => Ok (map (fun c => JStr (String c EmptyString)) (list_ascii_of_string s))
  | _ => Raise (TypeError "object is not iterable")
  end.

(** [isinstance(v, dict)] and [isinstance(v, list)]. *)
Definition is_dict (v : json) : bool :=
  match v with JObj _ => true | _ => false end.

Definition is_list (v : json) : bool :=
  match v with JArr _ => true | _ => false end.

(** [v == "text"] against a string literal. *)
Definition eq_str (v : json) (text : string) : bool :=
  match v with JStr s => String.eqb s text | _ => false end.

(** Truth value of [v] in a condition. *)
Definition truthy (v : json) : bool :=
  match v with
  | JNull => false
  | JBool b => b
  | JNum n => negb (n =? 0)%Z
  | JStr s => negb (String.eqb s EmptyString)
  | JArr items => match items with [] => false | _ => true end
  | JObj kvs => match kvs with [] => false | _ => true end
  end.

(** [a == b].  Dicts compare regardless of key order; [True == 1]. *)
Fixpoint eqb (a b : json) {struct a} : bool :=
  match a, b with
  | JNull, JNull => true
  | JBool x, JBool y => Bool.eqb x y
  | JBool x, JNum n | JNum n, JBool x => (n =? (if x then 1 else 0))%Z
  | JNum n, JNum m => (n =? m)%Z
  | JStr s, JStr t => String.eqb s t
  | JArr xs, JArr ys =>
      (fix all2 (l : list json) (r : list json) {struct l} : bool :=
         match l, r with
         | [], [] => true
         | x :: l', y :: r' => eqb x y && all2 l' r'
         | _, _ => false
         end) xs ys
  | JObj xs, JObj ys =>
      (length xs =? length ys)%nat &&
      (fix every (l : list (string * json)) {struct l} : bool :=
         match l with
         | [] => true
         | (k, v) :: l' =>
             match assoc k ys with
             | Some v' => eqb v v'
             | None => false
             end && every l'
         end) xs
  | _, _ => false
  end.

(** [needle in v] for a string [needle]. *)
Definition contained (needle : string) (v : json) : result bool :=
  match v with
  | JStr hay => Ok (contains needle hay)
  | JArr items => Ok (existsb (eqb (JStr needle)) items)
  | JObj kvs => Ok (existsb (fun kv => String.eqb needle (fst kv)) kvs)
  | _ => Raise (TypeError "argument is not iterable")
  end.

(** [len(v)]. *)
Definition len (v : json) : result nat :=
  match v with
  | JArr items => Ok (length items)
  | JObj kvs => Ok (length kvs)
  | JStr s => Ok (String.length s)
  | _ => Raise (TypeError "object has no len()")
  end.

(** The receiver of a [str] method such as [split] or [rfind]. *)
Definition as_str (v : json) (attribute : string) : result string :=
  match v with
  | JStr s => Ok s
  | _ => Raise (AttributeError attribute)
  end.

(** [v > n] against an int literal. *)
Definition gt_int (v : json) (n : Z) : result bool :=
  match v with
  | JNum m => Ok (n <? m)%Z
  | JBool b => Ok (n <? (if b then 1 else 0))%Z
  | _ => Raise (TypeError "'>' not supported between these instances")
  end.

(** Sequencing of computations that may raise. *)
Definition and_then {A B} (r : result A) (k : A -> result B) : result B :=
  match r with
  | Ok a => k a
  | Raise e => Raise e
  end.

End Py.

Import Py.

Notation "'let?' x ':=' r 'in' k" := (and_then r (fun x => k))
  (at level 10, x pattern, r at level 100, k at level 200).

(* ===================================================================== *)
(** ** The object, the file and the remote system *)
(* ===================================================================== *)

Inductive verb : Type := GET | POST | PUT | DELETE.

(** The URLs the embedded methods request, named after the
    [vcdConstants] template each one is formatted from.  [Href] is an
    address taken from a payload or passed by the caller. *)
Inductive url : Type :=
| SESSION
| LOGIN_URL
| ORG_VDC_DISABLE (vdcId : string)
| ENABLE_ORG_VDC (vdcId : string)
| ALL_EXTERNAL_NETWORKS
| PROVIDER_VDC_XML (providervdcId : string)
| ORG_VDC_AFFINITY_RULES (vdcId : string)
| ALL_EDGE_GATEWAYS (orgVDCId : string)
| ALL_ORG_VDC_NETWORKS
| ORG_VDC_COMPUTE_POLICY (orgVdcId : string)
| Href (address : string).

(** A [requests] response: status code, decoded body, headers.  The
    decoders ([xmltodict.parse], [response.json()]) are outside the
    embedding: [content] is the value they return. *)
Record response : Type := Response {
  status_code : Z;
  content : json;
  headers : list (string * string)
}.

(** [requests.codes]. *)
Definition ok : Z := 200.
Definition accepted : Z := 202.
Definition no_content : Z := 204.

(** What a method body leaves behind on the wire and on the clock. *)
Inductive event : Type :=
| Request (v : verb) (u : url)
| Sleep (seconds : Z).

(** Everything a method body can reach except the two rollback flags:
    the session attributes of [self] assigned by [vcdLogin], the file
    [apiOutput.json] ([None] while it does not exist), the remote system
    and the trace.  The object has a REST client and headers, that is,
    [vcdLogin] has succeeded on it once; [bearerToken] may be stale. *)
Record io : Type := Io {
  VCD_SESSION_CREATED : bool;
  ipAddress : string;
  bearerToken : string;
  apiOutput : option (gmap string json);
  remote : nat -> response;
  served : nat;
  trace : list event
}.

(** The methods of [VCDMigrationValidation] that [preMigrationValidation]
    calls, with the arguments that tell two call sites apart. *)
Inductive pvdc : Type := NSXVProviderVDC | NSXTProviderVDC.

Inductive method : Type :=
| VcdLogin
| GetOrgUrl
| GetOrgVDCDetails
| ValidateNoTargetOrgVDCExists
| ValidateNoEmptyVappsExistInSourceOrgVDC
| ValidateSourceSuspendedVMsInVapp
| ValidateNoVappNetworksExist
| ValidateOrgVDCFastProvisioned
| GetExternalNetwork (provider : pvdc) (isDummyNetwork : bool)
| ValidateDedicatedExternalNetwork
| GetProviderVDCId (provider : pvdc)
| GetProviderVDCDetails (provider : pvdc)
| ValidateSourceNetworkPools
| ValidateOrgVDCNSXVbacked
| ValidateHardwareVersion
| ValidateTargetProviderVdc
| DisableOrgVDC
| ValidateVMPlacementPolicy
| ValidateStorageProfiles
| ValidateExternalNetworkSubnets
| GetOrgVDCAffinityRules
| EnableOrDisableSourceAffinityRules (enable : bool)
| ValidateSingleEdgeGatewayExistForOrgVDC
| GetOrgVDCNetworks
| ValidateDHCPEnabledonIsolatedVdcNetworks
| ValidateOrgVDCNetworkShared
| ValidateOrgVDCNetworkDirect
| GetEdgeGatewayServices
| ValidateIndependentDisksDoesNotExistsInOrgVDC
| EnableSourceOrgVdc
| CheckTaskStatus.

(** The object [self]: the rollback flags (class attributes, [False]
    until assigned), the rest of the state, and the log of the calls the
    driver has made so far. *)
Record vcd : Type := Vcd {
  ENABLE_SOURCE_ORG_VDC : bool;
  ENABLE_AFFINITY_RULES_IN_SOURCE_VAPP : bool;
  calls : list method;
  world : io
}.

(** *** The monad of method bodies *)

(** Outcome of a call: it returns a value, it raises, or, in the model
    only, a [while] loop was cut off by the bound on its turns. *)
Inductive outcome (A : Type) : Type :=
| Returns (a : A)
| Raises (e : exn)
| OutOfFuel.

Arguments Returns {A} a.
Arguments Raises {A} e.
Arguments OutOfFuel {A}.

Definition SE (S A : Type) : Type := S -> outcome A * S.

Definition ret {S A} (a : A) : SE S A := fun s => (Returns a, s).

Definition raise {S A} (e : exn) : SE S A := fun s => (Raises e, s).

Definition out_of_fuel {S A} : SE S A := fun s => (OutOfFuel, s).

Definition bind {S A B} (m : SE S A) (k : A -> SE S B) : SE S B :=
  fun s =>
    match m s with
    | (Returns a, s') => k a s'
    | (Raises e, s') => (Raises e, s')
    | (OutOfFuel, s') => (OutOfFuel, s')
    end.

(** [try: m] followed by [except Exception: handler; raise]. *)
Definition try_except_reraise {S A} (m : SE S A) (handler : SE S unit) : SE S A :=
  fun s =>
    match m s with
    | (Raises e, s') =>
        match handler s' with
        | (Returns _, s'') => (Raises e, s'')
        | (Raises e', s'') => (Raises e', s'')
        | (OutOfFuel, s'') => (OutOfFuel, s'')
        end
    | other => other
    end.

(** A value already computed, or the exception its computation raised. *)
Definition of_result {S A} (r : result A) : SE S A :=
  fun s => (match r with Ok a => Returns a | Raise e => Raises e end, s).

Declare Scope se_scope.
Delimit Scope se_scope with se.
Notation "'let!' x ':=' c 'in' k" := (bind c (fun x => k))
  (at level 10, x pattern, c at level 100, k at level 200) : se_scope.
Notation "c ';;;' k" := (bind c (fun _ => k))
  (at level 100, k at level 200, right associativity) : se_scope.
Open Scope se_scope.

Definition M (A : Type) : Type := SE vcd A.

(** A body that cannot assign the rollback flags, run on [self]. *)
Definition lift {A} (m : SE io A) : M A :=
  fun w =>
    let (r, i) := m (world w) in
    (r, Vcd (ENABLE_SOURCE_ORG_VDC w) (ENABLE_AFFINITY_RULES_IN_SOURCE_VAPP w)
            (calls w) i).

(** [self.ENABLE_SOURCE_ORG_VDC = True]. *)
Definition set_ENABLE_SOURCE_ORG_VDC : M unit :=
  fun w => (Returns tt, Vcd true (ENABLE_AFFINITY_RULES_IN_SOURCE_VAPP w) (calls w) (world w)).

(** [self.ENABLE_AFFINITY_RULES_IN_SOURCE_VAPP = True]. *)
Definition set_ENABLE_AFFINITY_RULES_IN_SOURCE_VAPP : M unit :=
  fun w => (Returns tt, Vcd (ENABLE_SOURCE_ORG_VDC w) true (calls w) (world w)).

Definition get_ENABLE_SOURCE_ORG_VDC : M bool :=
  fun w => (Returns (ENABLE_SOURCE_ORG_VDC w), w).

Definition get_ENABLE_AFFINITY_RULES_IN_SOURCE_VAPP : M bool :=
  fun w => (Returns (ENABLE_AFFINITY_RULES_IN_SOURCE_VAPP w), w).

(** The driver is about to call [m]. *)
Definition calling (m : method) : M unit :=
  fun w => (Returns tt, Vcd (ENABLE_SOURCE_ORG_VDC w) (ENABLE_AFFINITY_RULES_IN_SOURCE_VAPP w)
                       (calls w ++ [m]) (world w)).

Definition record (e : event) (i : io) : io :=
  Io (VCD_SESSION_CREATED i) (ipAddress i) (bearerToken i) (apiOutput i)
     (remote i) (served i) (trace i ++ [e]).

(** [self.restClientObj.<verb>(url, ...)]: the request is sent and the
    next response of the remote system comes back. *)
Definition rest (v : verb) (u : url) : SE io response :=
  fun i =>
    (Returns (remote i (served i)),
     Io (VCD_SESSION_CREATED i) (ipAddress i) (bearerToken i) (apiOutput i)
        (remote i) (S (served i)) (trace i ++ [Request v u])).

(** [time.sleep(seconds)]. *)
Definition sleep (seconds : Z) : SE io unit :=
  fun i => (Returns tt, record (Sleep seconds) i).

(** [response.headers[name]]. *)
Fixpoint header (hs : list (string * string)) (name : string) : result string :=
  match hs with
  | [] => Raise (KeyError name)
  | (n, v) :: rest => if String.eqb n name then Ok v else header rest name
  end.

(** The session attributes [vcdLogin] assigns on success. *)
Definition store_session (token : string) : SE io unit :=
  fun i =>
    (Returns tt, Io true (ipAddress i) token (apiOutput i) (remote i) (served i) (trace i)).

Definition get_ipAddress : SE io string := fun i => (Returns (ipAddress i), i).

(** [vcdLogin]: one POST to the login URL; a 200 answer yields the new
    bearer token, anything else is an [Exception]. *)
Definition vcdLogin : SE io (string * Z) :=
  let! loginResponse := rest POST LOGIN_URL in
  if (status_code loginResponse =? ok)%Z then
    let! token := of_result (header (headers loginResponse) "X-VMWARE-VCLOUD-ACCESS-TOKEN") in
    store_session ("Bearer " +:+ token) ;;;
    ret ("Bearer " +:+ token, status_code loginResponse)
  else
    let! ip := get_ipAddress in
    raise (Exception "Failed to login to VMware Cloud Director {} with the given credentials"
                     [JStr ip]).

(** The decorator [_isSessionExpired]: [inner] probes the session URL,
    logs in again when the answer is not 200, then runs [func]. *)
Definition _isSessionExpired {A} (func : M A) : M A :=
  let! response := lift (rest GET SESSION) in
  if negb (status_code response =? ok)%Z then
    lift vcdLogin ;;; func
  else func.


(** *** Decoration and [except] clauses

    Every method has the shape
    [try: <block>  except Exception: <assignments>; raise], and some are
    decorated with [_isSessionExpired].  The two tables below are read
    off the source, method by method. *)

Definition decorated (m : method) : bool :=
  match m with
  | ValidateOrgVDCFastProvisioned
  | GetExternalNetwork _ _
  | GetProviderVDCId _
  | ValidateTargetProviderVdc
  | DisableOrgVDC
  | ValidateVMPlacementPolicy
  | ValidateStorageProfiles
  | ValidateExternalNetworkSubnets
  | GetOrgVDCAffinityRules
  | EnableOrDisableSourceAffinityRules _
  | ValidateSingleEdgeGatewayExistForOrgVDC
  | GetOrgVDCNetworks
  | ValidateDHCPEnabledonIsolatedVdcNetworks
  | ValidateOrgVDCNetworkShared
  | ValidateOrgVDCNetworkDirect
  | GetEdgeGatewayServices
  | CheckTaskStatus => true
  | _ => false
  end.

(** The assignments an [except] clause makes before its bare [raise]. *)
Definition except_clause (m : method) : M unit :=
  match m with
  | ValidateVMPlacementPolicy
  | ValidateStorageProfiles
  | ValidateExternalNetworkSubnets
  | GetOrgVDCAffinityRules
  | EnableOrDisableSourceAffinityRules _ =>
      set_ENABLE_SOURCE_ORG_VDC
  | ValidateSingleEdgeGatewayExistForOrgVDC
  | ValidateDHCPEnabledonIsolatedVdcNetworks
  | ValidateOrgVDCNetworkShared
  | ValidateOrgVDCNetworkDirect
  | GetEdgeGatewayServices
  | ValidateIndependentDisksDoesNotExistsInOrgVDC =>
      set_ENABLE_SOURCE_ORG_VDC ;;; set_ENABLE_AFFINITY_RULES_IN_SOURCE_VAPP
  | _ => ret tt
  end.

(** The method [m] whose [try] block is [block]. *)
Definition method_of {A} (m : method) (block : SE io A) : M A :=
  let func := try_except_reraise (lift block) (except_clause m) in
  if decorated m then _isSessionExpired func else func.

(* ===================================================================== *)
(** ** The task poller *)
(* ===================================================================== *)

Section Poller.

(** [vcdConstants.VCD_CREATION_TIMEOUT] and
    [vcdConstants.VCD_CREATION_INTERVAL], in seconds.  [vcdConstants] is
    not part of the sources at hand, so both are parameters.  The clock
    variable [timeout] is a Python float; with whole numbers of seconds
    its additions are exact, and it is an integer here. *)
Variables VCD_CREATION_TIMEOUT VCD_CREATION_INTERVAL : Z.

(** What one turn of the [while] loop does with the response it
    fetched: [Some r] when the method returns [r] in this turn, [None]
    when it goes on to [time.sleep].  [output] is reassigned in every
    turn that can return, so it is local to the turn. *)
Definition inspect (taskName : string) (returnOutput : bool) (response : response)
  : result (option (option string)) :=
  if (status_code response =? ok)%Z then
    let? responseDict := getitem (content response) "Task" in
    let? output :=
      (if returnOutput then
         let? operation := getitem responseDict "@operation" in
         let? text := as_str operation "rfind" in
         Ok (slice text (rfind "(" text + 1) (rfind ")" text))
       else Ok EmptyString) in
    let? operationName := getitem responseDict "@operationName" in
    let? named := contained taskName operationName in
    if named then
      let? status := getitem responseDict "@status" in
      if eq_str status "success" then
        Ok (Some (if returnOutput then Some output else None))
      else if eq_str status "error" then
        let? details := getitem responseDict "Details" in
        Raise (Exception "{}" [details])
      else Ok None
    else Ok None
  else Ok None.

(** One turn of the loop up to the [time.sleep]. *)
Definition poll (taskUrl : url) (taskName : string) (returnOutput : bool)
  : SE io (option (option string)) :=
  let! response := rest GET taskUrl in
  of_result (inspect taskName returnOutput response).

(** The [while timeout < VCD_CREATION_TIMEOUT] loop and the [raise] that
    follows it.  [fuel] bounds the number of turns. *)
Fixpoint wait (fuel : nat) (timeout : Z) (taskUrl : url) (taskName : string)
         (returnOutput : bool) : SE io (option string) :=
  if (timeout <? VCD_CREATION_TIMEOUT)%Z then
    match fuel with
    | O => out_of_fuel
    | S fuel' =>
        let! returned := poll taskUrl taskName returnOutput in
        match returned with
        | Some r => ret r
        | None =>
            sleep VCD_CREATION_INTERVAL ;;;
            wait fuel' (timeout + VCD_CREATION_INTERVAL)%Z taskUrl taskName returnOutput
        end
    end
  else
    raise (Exception "Task {} could not complete in the allocated time." [JStr taskName]).

(** [_checkTaskStatus], decorated.  Removing a [Content-Type] entry from
    [self.headers] does not show in the model, whose requests carry no
    headers. *)
Definition _checkTaskStatus (fuel : nat) (taskUrl : url) (taskName : string)
           (returnOutput : bool) : M (option string) :=
  method_of CheckTaskStatus (wait fuel 0 taskUrl taskName returnOutput).

End Poller.

(* ===================================================================== *)
(** ** The shared document [apiOutput.json] *)
(* ===================================================================== *)

Definition fileName : string := "apiOutput.json".

(** [os.path.exists(fileName)]. *)
Definition path_exists : SE io bool :=
  fun i => (Returns (match apiOutput i with Some _ => true | None => false end), i).

(** [with open(fileName, 'r') as f: data = json.load(f)]. *)
Definition json_load : SE io (gmap string json) :=
  fun i =>
    match apiOutput i with
    | Some data => (Returns data, i)
    | None => (Raises (FileNotFoundError fileName), i)
    end.

(** [with open(fileName, 'w') as f: json.dump(data, f, indent=3)]. *)
Definition json_dump (data : gmap string json) : SE io unit :=
  fun i =>
    (Returns tt, Io (VCD_SESSION_CREATED i) (ipAddress i) (bearerToken i) (Some data)
               (remote i) (served i) (trace i)).

(** [data[k]] on the loaded document. *)
Definition item (data : gmap string json) (k : string) : result json :=
  match data !! k with
  | Some v => Ok v
  | None => Raise (KeyError k)
  end.

(** [not data] on the loaded document. *)
Definition is_empty (data : gmap string json) : bool :=
  match map_to_list data with [] => true | _ => false end.

(** [v.get(k)] and [v.get(k, None)]. *)
Definition dict_get (v : json) (k : string) : result json :=
  match v with
  | JObj kvs => Ok (match assoc k kvs with Some x => x | None => JNull end)
  | _ => Raise (AttributeError "get")
  end.

(** The address given to the REST client.  [requests] refuses a URL that
    is not a string ([MissingSchema], a [ValueError]). *)
Definition as_url (v : json) : result url :=
  match v with
  | JStr s => Ok (Href s)
  | _ => Raise (ValueError "Invalid URL")
  end.

(** [[v] if isinstance(v, dict) else v]. *)
Definition listify_dict (v : json) : json :=
  if is_dict v then JArr [v] else v.

(** [v if isinstance(v, list) else [v]]. *)
Definition listify_non_list (v : json) : json :=
  if is_list v then v else JArr [v].

(** *** [getOrgVDCUrl] *)

(** The [for] loop of [getOrgVDCUrl]: the last record named [orgVDCName]
    decides. *)
Fixpoint find_href (orgVDCName : string) (records : list json) (orgVDCUrl : json)
  : result json :=
  match records with
  | [] => Ok orgVDCUrl
  | response :: rest =>
      let? name := getitem response "@name" in
      if eq_str name orgVDCName then
        let? href := getitem response "@href" in
        find_href orgVDCName rest href
      else find_href orgVDCName rest orgVDCUrl
  end.

Definition getOrgVDCUrl (orgUrl orgVDCName : string) (saveResponse : bool) : SE io json :=
  let! response := rest GET (Href orgUrl) in
  let responseDict := content response in
  if (status_code response =? ok)%Z then
    let! present := path_exists in
    let! data := (if present then json_load else ret ∅) in
    (if (is_empty data && saveResponse)%bool then
       let! adminOrg := of_result (getitem responseDict "AdminOrg") in
       json_dump {[ "Organization" := adminOrg ]}
     else ret tt) ;;;
    let! vdc := of_result (let? adminOrg := getitem responseDict "AdminOrg" in
                           let? vdcs := getitem adminOrg "Vdcs" in
                           getitem vdcs "Vdc") in
    let! records := of_result (iter (listify_dict vdc)) in
    let! orgVDCUrl := of_result (find_href orgVDCName records (JStr EmptyString)) in
    if negb (truthy orgVDCUrl) then
      raise (Exception "Org VDC {} doesnot belong to this organization {}"
                       [JStr orgVDCName; JStr orgUrl])
    else ret orgVDCUrl
  else
    raise (Exception "Failed to retrieve Organization VDC {} url" [JStr orgVDCName]).

(** *** [getOrgVDCDetails] *)

Definition getOrgVDCDetails (orgUrl orgVDCName orgVDCType : string) (saveResponse : bool)
  : SE io json :=
  let! orgVDCUrl := getOrgVDCUrl orgUrl orgVDCName saveResponse in
  let! address := of_result (as_url orgVDCUrl) in
  let! response := rest GET address in
  let responseDict := content response in
  if (status_code response =? ok)%Z then
    (if saveResponse then
       let! data := json_load in
       let! adminVdc := of_result (getitem responseDict "AdminVdc") in
       json_dump (<[ orgVDCType := adminVdc ]> data)
     else ret tt) ;;;
    of_result (let? adminVdc := getitem responseDict "AdminVdc" in getitem adminVdc "@id")
  else
    let! message := of_result (let? error := getitem responseDict "Error" in
                               getitem error "@message") in
    raise (Exception "Failed to retrieve details of Organization VDC {} {}"
                     [JStr orgVDCName; message]).

(** *** [getExternalNetwork] *)

(** The [for] loop of [getExternalNetwork]: [Some id] when a record named
    [networkName] was saved and its id returned. *)
Fixpoint save_network (networkName : string) (isDummyNetwork : bool)
         (records : list json) : SE io (option json) :=
  match records with
  | [] => ret None
  | response :: rest =>
      let! name := of_result (getitem response "name") in
      if eq_str name networkName then
        let! backingType :=
          of_result (let? backings := getitem response "networkBackings" in
                     let? values := getitem backings "values" in
                     let? first := getfirst values in
                     getitem first "backingType") in
        let key := if eq_str backingType "NSXT_TIER0"
                   then "targetExternalNetwork" else "sourceExternalNetwork" in
        let! data := json_load in
        let key := if isDummyNetwork then "dummyExternalNetwork" else key in
        json_dump (<[ key := response ]> data) ;;;
        let! id := of_result (getitem response "id") in
        ret (Some id)
      else save_network networkName isDummyNetwork rest
  end.

Definition getExternalNetwork_try (networkName : string) (isDummyNetwork : bool)
  : SE io json :=
  let! getResponse := rest GET ALL_EXTERNAL_NETWORKS in
  let responseDict := content getResponse in
  let! saved :=
    (if (status_code getResponse =? ok)%Z then
       let! records := of_result (let? values := getitem responseDict "values" in
                                  iter values) in
       save_network networkName isDummyNetwork records
     else ret None) in
  match saved with
  | Some id => ret id
  | None =>
      let! message := of_result (getitem responseDict "message") in
      raise (Exception "Failed to get External network {} details {}"
                       [JStr networkName; message])
  end.

Definition getExternalNetwork (provider : pvdc) (networkName : string)
           (isDummyNetwork : bool) : M json :=
  method_of (GetExternalNetwork provider isDummyNetwork)
            (getExternalNetwork_try networkName isDummyNetwork).

(** *** [getProviderVDCDetails] *)

Definition getProviderVDCDetails (pvdcId : string) (isNSXTbacked : bool) : SE io unit :=
  let providervdcId := last_field ":" pvdcId in
  let! response := rest GET (PROVIDER_VDC_XML providervdcId) in
  let responseDict := content response in
  if (status_code response =? ok)%Z then
    let key := if isNSXTbacked then "targetProviderVDC" else "sourceProviderVDC" in
    let! data := json_load in
    let! providerVdc := of_result (getitem responseDict "ProviderVdc") in
    json_dump (<[ key := providerVdc ]> data) ;;;
    (* the name is formatted into the debug message *)
    let! _ := of_result (getitem providerVdc "@name") in
    ret tt
  else raise (Exception "Failed to get Provider VDC details" []).

(** *** [validateVMPlacementPolicy], lines 411 to 427: the compute
    policies of the source Org VDC are fetched and saved. *)
Definition validateVMPlacementPolicy_fetch (sourceOrgVDCId : string)
  : SE io (gmap string json) :=
  let! data := json_load in
  let orgVdcId := last_field ":" sourceOrgVDCId in
  let! response := rest GET (ORG_VDC_COMPUTE_POLICY orgVdcId) in
  let responseDict := content response in
  if (status_code response =? ok)%Z then
    let! data := json_load in
    let! policies :=
      of_result (let? references := getitem responseDict "VdcComputePolicyReferences" in
                 getitem references "VdcComputePolicyReference") in
    let data := <[ "sourceOrgVDCComputePolicyList" := policies ]> data in
    json_dump data ;;;
    ret data
  else ret data.

(** *** [getOrgVDCAffinityRules] *)

Definition getOrgVDCAffinityRules_try (orgVDCId : string) : SE io unit :=
  let vdcId := last_field ":" orgVDCId in
  let! response := rest GET (ORG_VDC_AFFINITY_RULES vdcId) in
  let responseDict := content response in
  if (status_code response =? ok)%Z then
    let! data := json_load in
    let! rules :=
      of_result (let? affinity := getitem responseDict "VmAffinityRules" in
                 let? present := dict_get affinity "VmAffinityRule" in
                 if truthy present then
                   let? affinity := getitem responseDict "VmAffinityRules" in
                   getitem affinity "VmAffinityRule"
                 else Ok (JObj [])) in
    json_dump (<[ "sourceVMAffinityRules" := rules ]> data)
  else raise (Exception "Failed to retrieve VM Affinity rules of source Org VDC" []).

Definition getOrgVDCAffinityRules (orgVDCId : string) : M unit :=
  method_of GetOrgVDCAffinityRules (getOrgVDCAffinityRules_try orgVDCId).

(** *** [validateSingleEdgeGatewayExistForOrgVDC] *)

(** [getOrgVDCEdgeGateway]: the decoded answer, or [None] when the
    status is not 200. *)
Definition getOrgVDCEdgeGateway (orgVDCId : string) : SE io json :=
  let! response := rest GET (ALL_EDGE_GATEWAYS orgVDCId) in
  if (status_code response =? ok)%Z then ret (content response) else ret JNull.

Definition validateSingleEdgeGatewayExistForOrgVDC_try (orgVDCId : string) : SE io json :=
  let! responseDict := getOrgVDCEdgeGateway orgVDCId in
  let! several := of_result (let? total := getitem responseDict "resultTotal" in
                             gt_int total 1) in
  if several then
    raise (Exception "More than One Edge gateway exist for source Org VDC" [])
  else
    let! data := json_load in
    let! values := of_result (getitem responseDict "values") in
    if negb (truthy values) then
      raise (Exception "Source Edge gateway doesnot exist for that org VDC." [])
    else
      let! gateway := of_result (getfirst values) in
      json_dump (<[ "sourceEdgeGateway" := gateway ]> data) ;;;
      of_result (getitem gateway "id").

Definition validateSingleEdgeGatewayExistForOrgVDC (orgVDCId : string) : M json :=
  method_of ValidateSingleEdgeGatewayExistForOrgVDC
            (validateSingleEdgeGatewayExistForOrgVDC_try orgVDCId).

(** *** [getOrgVDCNetworks] *)

(** [[r for r in records if r['orgVdc']['id'] == orgVDCId]]. *)
Fixpoint networks_of (orgVDCId : string) (records : list json) : result (list json) :=
  match records with
  | [] => Ok []
  | response :: rest =>
      let? orgVdc := getitem response "orgVdc" in
      let? id := getitem orgVdc "id" in
      let? more := networks_of orgVDCId rest in
      Ok (if eq_str id orgVDCId then response :: more else more)
  end.

Definition getOrgVDCNetworks_try (orgVDCId orgVDCNetworkType : string)
           (saveResponse : bool) : SE io json :=
  let! response := rest GET ALL_ORG_VDC_NETWORKS in
  let responseDict := content response in
  let! orgVDCNetworkList :=
    of_result (let? values := getitem responseDict "values" in
               let? records := iter values in
               networks_of orgVDCId records) in
  (if saveResponse then
     let! data := json_load in
     json_dump (<[ orgVDCNetworkType := JArr orgVDCNetworkList ]> data)
   else ret tt) ;;;
  ret (JArr orgVDCNetworkList).

Definition getOrgVDCNetworks (orgVDCId orgVDCNetworkType : string)
           (saveResponse : bool) : M json :=
  method_of GetOrgVDCNetworks (getOrgVDCNetworks_try orgVDCId orgVDCNetworkType saveResponse).

(** *** [getEdgeGatewayServices], lines 798 to 809: the configurations
    fetched from the edge gateway are saved. *)
Definition getEdgeGatewayServices_save
           (dhcpConfigDict firewallConfigDict natConfigDict routingConfigDict
            dnsConfigDict : json) : SE io unit :=
  let! data := json_load in
  let data := <[ "sourceEdgeGatewayDHCP" := dhcpConfigDict ]> data in
  let data := <[ "sourceEdgeGatewayFirewall" := firewallConfigDict ]> data in
  let data := <[ "sourceEdgeGatewayNAT" := natConfigDict ]> data in
  let data := <[ "sourceEdgeGatewayRouting" := routingConfigDict ]> data in
  let data := if truthy dnsConfigDict
              then <[ "sourceEdgeGatewayDNS" := dnsConfigDict ]> data else data in
  json_dump data.

(* ===================================================================== *)
(** ** Checks that read a collection from the document *)
(* ===================================================================== *)

(** *** [validateStorageProfiles] *)

(** The inner [for targetDict in ...] of the list comprehension. *)
Fixpoint names_found_for (sourceDict : json) (targets : list json) : result (list json) :=
  match targets with
  | [] => Ok []
  | targetDict :: rest =>
      let? sourceName := getitem sourceDict "@name" in
      let? targetName := getitem targetDict "@name" in
      if eqb sourceName targetName then
        let? name := getitem sourceDict "@name" in
        let? more := names_found_for sourceDict rest in
        Ok (name :: more)
      else names_found_for sourceDict rest
  end.

(** The outer [for sourceDict in ...]. *)
Fixpoint names_found (sources : list json) (targetPVDCStorageProfile : json)
  : result (list json) :=
  match sources with
  | [] => Ok []
  | sourceDict :: rest =>
      let? targets := iter targetPVDCStorageProfile in
      let? here := names_found_for sourceDict targets in
      let? more := names_found rest targetPVDCStorageProfile in
      Ok (here ++ more)%list
  end.

Definition validateStorageProfiles_try : SE io unit :=
  let! data := json_load in
  let! source :=
    of_result (let? vdc := item data "sourceOrgVDC" in
               let? profiles := getitem vdc "VdcStorageProfiles" in
               getitem profiles "VdcStorageProfile") in
  let sourceOrgVDCStorageProfile := listify_dict source in
  let! target :=
    of_result (let? pvdc := item data "targetProviderVDC" in
               let? profiles := getitem pvdc "StorageProfiles" in
               getitem profiles "ProviderVdcStorageProfile") in
  let targetPVDCStorageProfile := listify_dict target in
  let! storagePoliciesFound :=
    of_result (let? sources := iter sourceOrgVDCStorageProfile in
               names_found sources targetPVDCStorageProfile) in
  let! count := of_result (len sourceOrgVDCStorageProfile) in
  if negb (count =? length storagePoliciesFound)%nat then
    raise (Exception "Storage profiles in Target PVDC should be same as those in Source Org VDC" [])
  else ret tt.

Definition validateStorageProfiles : M unit :=
  method_of ValidateStorageProfiles validateStorageProfiles_try.

(** *** [validateHardwareVersion] *)

(** [[name, currentVersion] = parts]. *)
Definition unpack2 (parts : list string) : result (string * string) :=
  match parts with
  | [name; currentVersion] => Ok (name, currentVersion)
  | [] | [_] => Raise (ValueError "not enough values to unpack (expected 2)")
  | _ => Raise (ValueError "too many values to unpack (expected 2)")
  end.

(** One of the two [for] loops: the highest version seen and the name
    built from it. *)
Fixpoint highest_version (details : list json) (highest : Z) (highestName : string)
  : result (Z * string) :=
  match details with
  | [] => Ok (highest, highestName)
  | each :: rest =>
      let? attribute := getitem each "@name" in
      let? text := as_str attribute "split" in
      let? (name, currentVersion) := unpack2 (split "-" text) in
      let? current := int currentVersion in
      let highest := if (highest <? current)%Z then current else highest in
      highest_version rest highest (join "-" [name; str_of_int highest])
  end.

(** [data[...]['Capabilities']['SupportedHardwareVersions']
    ['SupportedHardwareVersion']], as the [for] statement enumerates it. *)
Definition supported_versions (data : gmap string json) (providerVDC : string)
  : result (list json) :=
  let? pvdc := item data providerVDC in
  let? capabilities := getitem pvdc "Capabilities" in
  let? versions := getitem capabilities "SupportedHardwareVersions" in
  let? version := getitem versions "SupportedHardwareVersion" in
  iter version.

(** The [raise] statement of [validateHardwareVersion] is given a [str];
    Python answers with this [TypeError]. *)
Definition raise_str {S A} (text : string) (args : list json) : SE S A :=
  raise (TypeError "exceptions must derive from BaseException").

Definition validateHardwareVersion : SE io unit :=
  let! present := path_exists in
  let! data := (if present then json_load else raise (UnboundLocalError "data")) in
  let! sourceVersions := of_result (supported_versions data "sourceProviderVDC") in
  let! (highestSourceVersion, highestSourceVersionName) :=
    of_result (highest_version sourceVersions 0 EmptyString) in
  let! targetVersions := of_result (supported_versions data "targetProviderVDC") in
  let! (highestTargetVersion, highestTargetVersionName) :=
    of_result (highest_version targetVersions 0 EmptyString) in
  if (highestTargetVersion <? highestSourceVersion)%Z then
    raise_str ("Hardware version on both Source Provider VDC and Target Provider VDC are not compatible, either both should be same or target PVDC hardware version" +:+
               " should be greater than source PVDC hardware version. Source Provider VDC: {} and Target Provider VDC is: {}")
              [JStr highestSourceVersionName; JStr highestTargetVersionName]
  else ret tt.

(* ===================================================================== *)
(** ** Disabling and re-enabling the source Org VDC *)
(* ===================================================================== *)

(** [data['sourceOrgVDC'][field]]. *)
Definition sourceOrgVDC_field (data : gmap string json) (field : string) : result json :=
  let? sourceOrgVDC := item data "sourceOrgVDC" in
  getitem sourceOrgVDC field.

(** [errorDict['Error']['@message']] of a refused request. *)
Definition error_message (r : response) : result json :=
  let? error := getitem (content r) "Error" in
  getitem error "@message".

Definition disableOrgVDC_try (orgVDCId : json) (isSourceDisable : bool) : SE io unit :=
  let! data := json_load in
  let! isEnabled := of_result (sourceOrgVDC_field data "IsEnabled") in
  let! orgVDCName := of_result (sourceOrgVDC_field data "@name") in
  if isSourceDisable then
    if eq_str isEnabled "false" then ret tt
    else
      let! text := of_result (as_str orgVDCId "split") in
      let vdcId := last_field ":" text in
      let! response := rest POST (ORG_VDC_DISABLE vdcId) in
      if (status_code response =? no_content)%Z then ret tt
      else
        let! message := of_result (error_message response) in
        raise (Exception "Failed to disable Source Org VDC - {}" [message])
  else
    if eq_str isEnabled "false" then
      let! targetOrgVDCName :=
        of_result (let? targetOrgVDC := item data "targetOrgVDC" in
                   getitem targetOrgVDC "@name") in
      let! text := of_result (as_str orgVDCId "split") in
      let vdcId := last_field ":" text in
      let! response := rest POST (ORG_VDC_DISABLE vdcId) in
      if (status_code response =? no_content)%Z then ret tt
      else
        let! message := of_result (error_message response) in
        raise (Exception "Failed to disable Target Org VDC - {}" [message])
    else ret tt.

Definition disableOrgVDC (orgVDCId : json) (isSourceDisable : bool) : M unit :=
  method_of DisableOrgVDC (disableOrgVDC_try orgVDCId isSourceDisable).

Definition enableSourceOrgVdc_try (sourceOrgVdcId : json) : SE io unit :=
  let! data := json_load in
  let! isEnabled := of_result (sourceOrgVDC_field data "IsEnabled") in
  if eq_str isEnabled "true" then
    let! text := of_result (as_str sourceOrgVdcId "split") in
    let sourceOrgVdcId := last_field ":" text in
    let! response := rest POST (ENABLE_ORG_VDC sourceOrgVdcId) in
    if (status_code response =? no_content)%Z then ret tt
    else
      let! message := of_result (error_message response) in
      raise (Exception "Failed to Enable Source Org VDC: {}" [message])
  else ret tt.

Definition enableSourceOrgVdc (sourceOrgVdcId : json) : M unit :=
  method_of EnableSourceOrgVdc (enableSourceOrgVdc_try sourceOrgVdcId).

(* ===================================================================== *)
(** ** The driver [preMigrationValidation] *)
(* ===================================================================== *)

(** The calls of the [try] block, in the order of the source. *)
Definition pipeline : list method :=
  [ VcdLogin;
    GetOrgUrl;
    GetOrgVDCDetails;
    ValidateNoTargetOrgVDCExists;
    ValidateNoEmptyVappsExistInSourceOrgVDC;
    ValidateSourceSuspendedVMsInVapp;
    ValidateNoVappNetworksExist;
    ValidateOrgVDCFastProvisioned;
    GetExternalNetwork NSXVProviderVDC false;
    GetExternalNetwork NSXTProviderVDC false;
    GetExternalNetwork NSXVProviderVDC true;
    ValidateDedicatedExternalNetwork;
    GetProviderVDCId NSXVProviderVDC;
    GetProviderVDCDetails NSXVProviderVDC;
    ValidateSourceNetworkPools;
    ValidateOrgVDCNSXVbacked;
    GetProviderVDCId NSXTProviderVDC;
    GetProviderVDCDetails NSXTProviderVDC;
    ValidateHardwareVersion;
    ValidateTargetProviderVdc;
    DisableOrgVDC;
    ValidateVMPlacementPolicy;
    ValidateStorageProfiles;
    ValidateExternalNetworkSubnets;
    GetOrgVDCAffinityRules;
    EnableOrDisableSourceAffinityRules false;
    ValidateSingleEdgeGatewayExistForOrgVDC;
    GetOrgVDCNetworks;
    ValidateDHCPEnabledonIsolatedVdcNetworks;
    ValidateOrgVDCNetworkShared;
    ValidateOrgVDCNetworkDirect;
    GetEdgeGatewayServices;
    ValidateIndependentDisksDoesNotExistsInOrgVDC ].

(** [sourceOrgVDCId = self.getOrgVDCDetails(...)]: the one local the
    [except] clause of the driver reads. *)
Definition binds_sourceOrgVDCId (m : method) : bool :=
  match m with GetOrgVDCDetails => true | _ => false end.

(** Reading a local variable that may not have been assigned yet. *)
Definition local (name : string) (value : option json) : result json :=
  match value with
  | Some v => Ok v
  | None => Raise (UnboundLocalError name)
  end.

Section Driver.

(** The [try] blocks of the methods the driver calls are parameters: the
    driver fixes their order, their decoration and their [except]
    clauses, not what they check.  A block works on [io], where the
    rollback flags are out of reach: in the source the flags are assigned
    in [except] clauses only. *)
Variable block : method -> SE io json.

(** [self.m(...)] as the driver calls it. *)
Definition call (m : method) : M json :=
  calling m ;;; method_of m (block m).

(** The [try] block of the driver, from the first of [steps] on.  The
    outcome comes with the value of [sourceOrgVDCId] at that point. *)
Fixpoint run_steps (steps : list method) (sourceOrgVDCId : option json) (w : vcd)
  : outcome unit * option json * vcd :=
  match steps with
  | [] => (Returns tt, sourceOrgVDCId, w)
  | m :: rest =>
      match call m w with
      | (Returns v, w') =>
          run_steps rest (if binds_sourceOrgVDCId m then Some v else sourceOrgVDCId) w'
      | (Raises e, w') => (Raises e, sourceOrgVDCId, w')
      | (OutOfFuel, w') => (OutOfFuel, sourceOrgVDCId, w')
      end
  end.

(** [if self.ENABLE_SOURCE_ORG_VDC: self.enableSourceOrgVdc(sourceOrgVDCId)]. *)
Definition rollback_source_org_vdc (sourceOrgVDCId : option json) : M unit :=
  let! flag := get_ENABLE_SOURCE_ORG_VDC in
  if flag then
    let! id := of_result (local "sourceOrgVDCId" sourceOrgVDCId) in
    calling EnableSourceOrgVdc ;;;
    enableSourceOrgVdc id
  else ret tt.

(** [if self.ENABLE_AFFINITY_RULES_IN_SOURCE_VAPP:
       self.enableOrDisableSourceAffinityRules(sourceOrgVDCId, enable=True)]. *)
Definition rollback_affinity_rules (sourceOrgVDCId : option json) : M unit :=
  let! flag := get_ENABLE_AFFINITY_RULES_IN_SOURCE_VAPP in
  if flag then
    let! id := of_result (local "sourceOrgVDCId" sourceOrgVDCId) in
    call (EnableOrDisableSourceAffinityRules true) ;;; ret tt
  else ret tt.

(** The [except Exception as err] clause of the driver; its last
    statement is a bare [raise]. *)
Definition rollback {A} (sourceOrgVDCId : option json) (err : exn) : M A :=
  rollback_source_org_vdc sourceOrgVDCId ;;;
  rollback_affinity_rules sourceOrgVDCId ;;;
  raise err.

(** [preMigrationValidation].  Of the returned tuple the model keeps
    [sourceOrgVDCId]; the other components are results of blocks. *)
Definition preMigrationValidation : M json :=
  fun w =>
    match run_steps pipeline None w with
    | (Returns _, sourceOrgVDCId, w') => of_result (local "sourceOrgVDCId" sourceOrgVDCId) w'
    | (Raises err, sourceOrgVDCId, w') => rollback sourceOrgVDCId err w'
    | (OutOfFuel, _, w') => (OutOfFuel, w')
    end.

End Driver.

(* ===================================================================== *)
(** ** Vocabulary of the properties *)
(* ===================================================================== *)

(** The document as a map: an absent file holds no fact. *)
Definition document (w : vcd) : gmap string json :=
  default ∅ (apiOutput (world w)).

(** [self] right after the probe of [_isSessionExpired] was answered. *)
Definition after_probe (w : vcd) : vcd := snd (lift (rest GET SESSION) w).

(** The answer the next request will get. *)
Definition next_response (i : io) : response := remote i (served i).

(** The answer to the [k]-th request from now. *)
Definition response_in (k : nat) (i : io) : response := remote i (served i + k).

(** A task record whose operation name contains [taskName] and whose
    status is [success]. *)
Definition matching_success (taskName : string) (r : response) : Prop :=
  status_code r = ok /\
  exists task operationName status,
    getitem (content r) "Task" = Ok task /\
    getitem task "@operationName" = Ok operationName /\
    contained taskName operationName = Ok true /\
    getitem task "@status" = Ok status /\
    eq_str status "success" = true.

(** A task record, answered with 200, whose operation name does not
    contain [taskName].  When the output is asked for, the record has the
    text it is cut from. *)
Definition other_task (taskName : string) (returnOutput : bool) (r : response) : Prop :=
  status_code r = ok /\
  exists task operationName,
    getitem (content r) "Task" = Ok task /\
    getitem task "@operationName" = Ok operationName /\
    contained taskName operationName = Ok false /\
    (returnOutput = true ->
     exists text, getitem task "@operation" = Ok (JStr text)).

(** The state after a turn of the polling loop that went on to sleep. *)
Definition slept (interval : Z) (taskUrl : url) (i : io) : io :=
  record (Sleep interval) (snd (rest GET taskUrl i)).

(** The record has the text the output is cut from. *)
Definition has_operation_text (r : response) : Prop :=
  exists task text,
    getitem (content r) "Task" = Ok task /\
    getitem task "@operation" = Ok (JStr text).

(** The error raised when the deadline passes. *)
Definition timed_out (taskName : string) : exn :=
  Exception "Task {} could not complete in the allocated time." [JStr taskName].

(** Turns of the polling loop that fit before the deadline. *)
Definition turns (deadline interval : Z) : nat :=
  Z.to_nat ((deadline + interval - 1) / interval).

(** The document records that the source Org VDC was enabled, or
    disabled, when it was discovered. *)
Definition recorded_IsEnabled (text : string) (i : io) : Prop :=
  exists data v,
    apiOutput i = Some data /\
    sourceOrgVDC_field data "IsEnabled" = Ok v /\
    eq_str v text = true.

(** The compensations the rollback flags ask for, in the order of the
    [except] clause of the driver. *)
Definition compensations (w : vcd) : list method :=
  ((if ENABLE_SOURCE_ORG_VDC w then [EnableSourceOrgVdc] else []) ++
   (if ENABLE_AFFINITY_RULES_IN_SOURCE_VAPP w
    then [EnableOrDisableSourceAffinityRules true] else []))%list.

(** A flag that is set stays set. *)
Definition flags_kept (w w' : vcd) : Prop :=
  (ENABLE_SOURCE_ORG_VDC w = true -> ENABLE_SOURCE_ORG_VDC w' = true) /\
  (ENABLE_AFFINITY_RULES_IN_SOURCE_VAPP w = true ->
   ENABLE_AFFINITY_RULES_IN_SOURCE_VAPP w' = true).

(** [m] assigns neither a rollback flag nor the call log. *)
Definition keeps_self {A} (m : M A) : Prop :=
  forall w,
    ENABLE_SOURCE_ORG_VDC (snd (m w)) = ENABLE_SOURCE_ORG_VDC w /\
    ENABLE_AFFINITY_RULES_IN_SOURCE_VAPP (snd (m w)) = ENABLE_AFFINITY_RULES_IN_SOURCE_VAPP w /\
    calls (snd (m w)) = calls w.

(** No [except] clause of the methods called before [sourceOrgVDCId] is
    assigned sets a flag. *)
Definition silent (m : method) : bool :=
  match m with
  | ValidateVMPlacementPolicy
  | ValidateStorageProfiles
  | ValidateExternalNetworkSubnets
  | GetOrgVDCAffinityRules
  | EnableOrDisableSourceAffinityRules _
  | ValidateSingleEdgeGatewayExistForOrgVDC
  | ValidateDHCPEnabledonIsolatedVdcNetworks
  | ValidateOrgVDCNetworkShared
  | ValidateOrgVDCNetworkDirect
  | GetEdgeGatewayServices
  | ValidateIndependentDisksDoesNotExistsInOrgVDC => false
  | _ => true
  end.

Fixpoint quiet_until_bound (steps : list method) : bool :=
  match steps with
  | [] => true
  | m :: rest =>
      silent m && (binds_sourceOrgVDCId m || quiet_until_bound rest)
  end.

(** The facts [facts] written one after the other into [data]. *)
Definition merged (data : gmap string json) (facts : list (string * json))
  : gmap string json :=
  fold_left (fun d kv => <[ fst kv := snd kv ]> d) facts data.

(** The places of the source that write [apiOutput.json]. *)
Inductive writer : Type :=
| Write_getOrgVDCUrl (orgUrl orgVDCName : string) (saveResponse : bool)
| Write_getOrgVDCDetails (orgUrl orgVDCName orgVDCType : string) (saveResponse : bool)
| Write_getExternalNetwork (provider : pvdc) (networkName : string) (isDummyNetwork : bool)
| Write_getProviderVDCDetails (pvdcId : string) (isNSXTbacked : bool)
| Write_validateVMPlacementPolicy (sourceOrgVDCId : string)
| Write_getOrgVDCAffinityRules (orgVDCId : string)
| Write_validateSingleEdgeGatewayExistForOrgVDC (orgVDCId : string)
| Write_getOrgVDCNetworks (orgVDCId orgVDCNetworkType : string) (saveResponse : bool)
| Write_getEdgeGatewayServices (dhcp firewall nat routing dns : json).

Definition discard {S A} (m : SE S A) : SE S unit := m ;;; ret tt.

Definition run_writer (s : writer) : M unit :=
  match s with
  | Write_getOrgVDCUrl orgUrl orgVDCName saveResponse =>
      lift (discard (getOrgVDCUrl orgUrl orgVDCName saveResponse))
  | Write_getOrgVDCDetails orgUrl orgVDCName orgVDCType saveResponse =>
      lift (discard (getOrgVDCDetails orgUrl orgVDCName orgVDCType saveResponse))
  | Write_getExternalNetwork provider networkName isDummyNetwork =>
      discard (getExternalNetwork provider networkName isDummyNetwork)
  | Write_getProviderVDCDetails pvdcId isNSXTbacked =>
      lift (getProviderVDCDetails pvdcId isNSXTbacked)
  | Write_validateVMPlacementPolicy sourceOrgVDCId =>
      method_of ValidateVMPlacementPolicy
                (discard (validateVMPlacementPolicy_fetch sourceOrgVDCId))
  | Write_getOrgVDCAffinityRules orgVDCId =>
      getOrgVDCAffinityRules orgVDCId
  | Write_validateSingleEdgeGatewayExistForOrgVDC orgVDCId =>
      discard (validateSingleEdgeGatewayExistForOrgVDC orgVDCId)
  | Write_getOrgVDCNetworks orgVDCId orgVDCNetworkType saveResponse =>
      discard (getOrgVDCNetworks orgVDCId orgVDCNetworkType saveResponse)
  | Write_getEdgeGatewayServices dhcp firewall nat routing dns =>
      method_of GetEdgeGatewayServices
                (getEdgeGatewayServices_save dhcp firewall nat routing dns)
  end.

(** *** Sample worlds *)

(** A remote system that refuses every request. *)
Definition refusing : nat -> response := fun _ => Response 401 JNull [].

(** An object whose session has expired and cannot be renewed. *)
Definition expired_session : vcd :=
  Vcd false false [] (Io true "10.0.0.1" "Bearer stale" None refusing 0 []).

(** A remote system that answers with the responses of [l], then with
    empty 200 answers. *)
Definition answering (l : list response) : nat -> response :=
  fun n => nth n l (Response 200 JNull []).

(** A task record as the task URL returns it. *)
Definition task_record (operationName status : string) : response :=
  Response 200
    (JObj [("Task", JObj [("@operation", JStr "Updated affinity rule (a1) of vdc (7f3)");
                          ("@operationName", JStr operationName);
                          ("@status", JStr status);
                          ("Details", JStr "rejected")])])
    [].

Definition fresh_io (answers : nat -> response) : io :=
  Io true "10.0.0.1" "Bearer token" None answers 0 [].

(** A freshly logged-in object facing the given remote system. *)
Definition fresh (answers : nat -> response) : vcd :=
  Vcd false false [] (fresh_io answers).

(** The session probe answered with 200. *)
Definition session_ok : response := Response 200 JNull [].

(** The guard's probe passes, then the task URL answers as [slow_task]
    below. *)
Definition guarded_slow_task : nat -> response :=
  answering [session_ok;
             task_record "vdcEnable" "success";
             task_record "vappUpdateVmAffinityRule" "running";
             task_record "vappUpdateVmAffinityRule" "running";
             task_record "vappUpdateVmAffinityRule" "success"].

(** The task is taken up after a record of another operation and a
    running record. *)
Definition slow_task : nat -> response :=
  answering [task_record "vdcEnable" "success";
             task_record "vappUpdateVmAffinityRule" "running";
             task_record "vappUpdateVmAffinityRule" "running";
             task_record "vappUpdateVmAffinityRule" "success"].

(** The task never leaves the running state. *)
Definition stuck_task : nat -> response :=
  fun _ => task_record "vappUpdateVmAffinityRule" "running".

(** What [getOrgVDCDetails] saved about an enabled source Org VDC. *)
Definition discovered_enabled : gmap string json :=
  {[ "sourceOrgVDC" := JObj [("@name", JStr "vdc-a"); ("IsEnabled", JStr "true")] ]}.

(** What it saved about a source Org VDC that was already disabled. *)
Definition discovered_disabled : gmap string json :=
  {[ "sourceOrgVDC" := JObj [("@name", JStr "vdc-a"); ("IsEnabled", JStr "false")] ]}.

Definition two_edge_gateways : exn :=
  Exception "More than One Edge gateway exist for source Org VDC" [].

Definition shared_network : exn :=
  Exception "Org VDC Network {} is a shared network. No shared networks should exist."
            [JStr "net-1"].

(** Blocks of a run in which the source Org VDC has two edge gateways:
    every check passes until [validateSingleEdgeGatewayExistForOrgVDC]. *)
Definition blocks_two_edge_gateways (m : method) : SE io json :=
  match m with
  | GetOrgVDCDetails => json_dump discovered_enabled ;;; ret (JStr "urn:vcloud:vdc:42")
  | ValidateSingleEdgeGatewayExistForOrgVDC => raise two_edge_gateways
  | _ => ret JNull
  end.

(** Blocks of a run that finds a shared Org VDC network. *)
Definition blocks_shared_network (m : method) : SE io json :=
  match m with
  | GetOrgVDCDetails => json_dump discovered_enabled ;;; ret (JStr "urn:vcloud:vdc:42")
  | ValidateOrgVDCNetworkShared => raise shared_network
  | _ => ret JNull
  end.

(** The remote system refuses a request with this answer. *)
Definition forbidden : response :=
  Response 403 (JObj [("Error", JObj [("@message", JStr "Access is forbidden")])]) [].

(** The first [n] requests (the probes of the guard) are answered with
    200, the next one (the re-enabling POST) is refused. *)
Definition probes_then_forbidden (n : nat) : nat -> response :=
  answering (repeat session_ok n ++ [forbidden]).

(** The first [n] requests are answered with 200, the next one with 204. *)
Definition probes_then_no_content (n : nat) : nat -> response :=
  answering (repeat session_ok n ++ [Response 204 JNull []]).

(** A document that already holds two facts. *)
Definition two_facts : gmap string json :=
  <[ "sourceOrgVDC" := JObj [("@name", JStr "vdc-a"); ("IsEnabled", JStr "true")] ]>
    {[ "Organization" := JObj [("@name", JStr "org-a")] ]}.

(** The provider VDC as the remote system describes it. *)
Definition provider_vdc_answer : response :=
  Response 200 (JObj [("ProviderVdc", JObj [("@name", JStr "pvdc-t"); ("IsEnabled", JStr "true")])]) [].

Definition with_file (data : gmap string json) (answers : nat -> response) : vcd :=
  Vcd false false [] (Io true "10.0.0.1" "Bearer token" (Some data) answers 0 []).

(** An object with the file [data] whose remote system is never asked. *)
Definition with_document (data : gmap string json) : io :=
  Io true "10.0.0.1" "Bearer token" (Some data) (fun _ => session_ok) 0 [].

(** One supported hardware version, as [xmltodict] decodes the element. *)
Definition hardware_version (name : string) : json := JObj [("@name", JStr name)].

(** The part of a provider VDC that [validateHardwareVersion] reads:
    [versions] is the value under [SupportedHardwareVersion]. *)
Definition provider_vdc (versions : json) : json :=
  JObj [("Capabilities",
         JObj [("SupportedHardwareVersions",
                JObj [("SupportedHardwareVersion", versions)])])].

Definition provider_vdcs (source target : json) : gmap string json :=
  <[ "sourceProviderVDC" := provider_vdc source ]>
    {[ "targetProviderVDC" := provider_vdc target ]}.

(** The part of the document that [validateStorageProfiles] reads. *)
Definition storage_profiles (source target : json) : gmap string json :=
  <[ "sourceOrgVDC" := JObj [("VdcStorageProfiles", JObj [("VdcStorageProfile", source)])] ]>
    {[ "targetProviderVDC" :=
         JObj [("StorageProfiles", JObj [("ProviderVdcStorageProfile", target)])] ]}.

(** The answer of the organization URL: [vdc] is the value under [Vdc]. *)
Definition organization_answer (vdc : json) : response :=
  Response 200 (JObj [("AdminOrg", JObj [("Vdcs", JObj [("Vdc", vdc)])])]) [].

(** The file of [i] as a map. *)
Definition doc_of (i : io) : gmap string json := default ∅ (apiOutput i).

(** [d'] is [d] with some facts written under keys of [keys]. *)
Definition extends (keys : list string) (d d' : gmap string json) : Prop :=
  exists facts,
    Forall (fun kv => fst kv ∈ keys) facts /\ d' = merged d facts.

(* ===================================================================== *)
(** ** Checks that only read the document *)
(* ===================================================================== *)

(** *** [validateOrgVDCFastProvisioned]: the [try] block of the
    decorated method *)

Definition validateOrgVDCFastProvisioned_try : SE io unit :=
  let! data := json_load in
  let! uses := of_result (sourceOrgVDC_field data "UsesFastProvisioning") in
  if eq_str uses "true" then
    raise (Exception "Fast Provisioning enabled on source Org VDC. Will not migrate fast provisioned org vdc" [])
  else ret tt.

(** *** [validateTargetProviderVdc]: the [try] block of the decorated
    method *)

Definition validateTargetProviderVdc_try : SE io unit :=
  let! data := json_load in
  let! isEnabled := of_result (let? pvdc := item data "targetProviderVDC" in
                               getitem pvdc "IsEnabled") in
  if negb (eq_str isEnabled "true") then
    raise (Exception "Target Provider VDC is not enabled" [])
  else ret tt.

(** *** [validateOrgVDCNSXVbacked]

    A static method.  The name of the Org VDC is formatted into the
    debug message of the passing branch as well as into the error. *)
Definition validateOrgVDCNSXVbacked (sourceProviderVDCId : json) (isNSXTbacked : bool)
  : SE io unit :=
  let! data := json_load in
  let! providerVDCId :=
    of_result (let? reference := sourceOrgVDC_field data "ProviderVdcReference" in
               getitem reference "@id") in
  if (eqb providerVDCId sourceProviderVDCId && negb isNSXTbacked)%bool then
    let! _ := of_result (sourceOrgVDC_field data "@name") in
    ret tt
  else
    let! name := of_result (sourceOrgVDC_field data "@name") in
    raise (Exception "Source Org VDC {} is not NSX-V backed." [name]).

(** *** [validateNoTargetOrgVDCExists] *)

(** The [for] loop: the first Org VDC named [target] ends it. *)
Fixpoint no_vdc_named (target sourceOrgVDCName : string) (orgVDCsList : list json)
  : result unit :=
  match orgVDCsList with
  | [] => Ok tt
  | orgVDC :: rest =>
      let? name := getitem orgVDC "@name" in
      if eq_str name target then
        Raise (Exception "Target Org VDC '{}-t' already exists" [JStr sourceOrgVDCName])
      else no_vdc_named target sourceOrgVDCName rest
  end.

Definition validateNoTargetOrgVDCExists (sourceOrgVDCName : string) : SE io unit :=
  let! data := json_load in
  let! vdc := of_result (let? organization := item data "Organization" in
                         let? vdcs := getitem organization "Vdcs" in
                         getitem vdcs "Vdc") in
  let! orgVDCsList := of_result (iter (listify_non_list vdc)) in
  of_result (no_vdc_named (sourceOrgVDCName +:+ "-t") sourceOrgVDCName orgVDCsList).

(** *** [validateOrgVDCNetworkShared] and [validateOrgVDCNetworkDirect] *)

Fixpoint no_shared_network (networks : list json) : result unit :=
  match networks with
  | [] => Ok tt
  | orgVdcNetwork :: rest =>
      let? shared := getitem orgVdcNetwork "shared" in
      if truthy shared then
        let? name := getitem orgVdcNetwork "name" in
        Raise (Exception "Org VDC Network {} is a shared network. No shared networks should exist."
                         [name])
      else no_shared_network rest
  end.

Definition validateOrgVDCNetworkShared_try (orgVdcNetworkList : json) : SE io unit :=
  let! networks := of_result (iter orgVdcNetworkList) in
  of_result (no_shared_network networks).

Definition validateOrgVDCNetworkShared (orgVdcNetworkList : json) : M unit :=
  method_of ValidateOrgVDCNetworkShared (validateOrgVDCNetworkShared_try orgVdcNetworkList).

Fixpoint no_direct_network (networks : list json) : result unit :=
  match networks with
  | [] => Ok tt
  | orgVdcNetwork :: rest =>
      let? networkType := getitem orgVdcNetwork "networkType" in
      if eq_str networkType "DIRECT" then
        let? name := getitem orgVdcNetwork "name" in
        Raise (Exception "Direct network {} exist in source Org VDC. Direct networks cant be migrated to target Org VDC"
                         [name])
      else no_direct_network rest
  end.

Definition validateOrgVDCNetworkDirect_try (orgVdcNetworkList : json) : SE io unit :=
  let! networks := of_result (iter orgVdcNetworkList) in
  of_result (no_direct_network networks).

Definition validateOrgVDCNetworkDirect (orgVdcNetworkList : json) : M unit :=
  method_of ValidateOrgVDCNetworkDirect (validateOrgVDCNetworkDirect_try orgVdcNetworkList).

(* ===================================================================== *)
(** ** Checks and lookups that ask the remote system *)
(* ===================================================================== *)

(** [v is not None]. *)
Definition is_not_None (v : json) : bool :=
  match v with JNull => false | _ => true end.

Section RemoteChecks.

(** URLs and type names formatted from [vcdConstants], which is not part
    of the sources at hand: each one is a parameter, applied to the
    values the source formats into it. *)
Variable XML_ADMIN_API_URL : url.
Variable EDGE_GATEWAY_NAT_CONFIG : string -> url.
Variable EDGE_GATEWAY_IPSEC_CONFIG : string -> url.
Variable EDGE_GATEWAY_SSLVPN_CONFIG : string -> url.
Variable EDGE_GATEWAY_L2VPN_CONFIG : string -> url.
Variable EDGE_GATEWAY_LOADBALANCER_CONFIG : string -> url.
Variable EDGE_GATEWAY_ROUTING_CONFIG : string -> url.
Variable VDC_COMPUTE_POLICIES : url.
Variable VDC_COMPUTE_POLICIES_PAGE : Z -> url.
Variable ORG_VDC_BY_ID : string -> url.
Variable DHCP_ENABLED_FOR_ORG_VDC_NETWORK_BY_ID : json -> url.
Variable TYPE_VAPP : string.
Variable INDEPENDENT_DISKS_EXIST_IN_ORG_VDC_TYPE : string.

(** *** [getOrgUrl] *)

(** The [for] loop of [getOrgUrl]: the first record named [orgName]
    decides. *)
Fixpoint first_href (orgName : string) (records : list json) : result (option json) :=
  match records with
  | [] => Ok None
  | record :: rest =>
      let? name := getitem record "@name" in
      if eq_str name orgName then
        let? orgUrl := getitem record "@href" in
        Ok (Some orgUrl)
      else first_href orgName rest
  end.

Definition getOrgUrl (orgName : string) : SE io json :=
  let! response := rest GET XML_ADMIN_API_URL in
  let responseDict := content response in
  let! found :=
    (if (status_code response =? ok)%Z then
       of_result (let? vcloud := getitem responseDict "VCloud" in
                  let? references := getitem vcloud "OrganizationReferences" in
                  let? reference := getitem references "OrganizationReference" in
                  let? records := iter (listify_dict reference) in
                  first_href orgName records)
     else ret None) in
  match found with
  | Some orgUrl => ret orgUrl
  | None => raise (Exception "Failed to retrieve Organization {} url" [JStr orgName])
  end.

(** *** The services of the source edge gateway

    The methods that fetch a service configuration are decorated with
    [_isSessionExpired] and their [except] clause is a bare [raise]; the
    definitions below are their [try] blocks, which run once the guard
    has probed the session. *)

(** *** [getEdgeGatewayNatConfig] *)

(** The condition of the [if] in the loop over the NAT rules:
    [action == "dnat" and "-" in translatedAddress or
     "/" in translatedAddress], which Python reads as
    [(... and ...) or ...]. *)
Definition nat_rule_rejected (natrule : json) : result bool :=
  let? action := getitem natrule "action" in
  let? ranged :=
    (if eq_str action "dnat" then
       let? translated := getitem natrule "translatedAddress" in
       contained "-" translated
     else Ok false) in
  if ranged then Ok true
  else
    let? translated := getitem natrule "translatedAddress" in
    contained "/" translated.

Fixpoint check_nat_rules (natrules : list json) : result unit :=
  match natrules with
  | [] => Ok tt
  | natrule :: rest =>
      let? rejected := nat_rule_rejected natrule in
      if rejected then
        let? ruleId := getitem natrule "ruleId" in
        Raise (Exception "Range of IPs or network found in this DNAT rule {} and range cannot be used in target edge gateway"
                         [ruleId])
      else check_nat_rules rest
  end.

Definition getEdgeGatewayNatConfig_try (edgeGatewayId : string) : SE io json :=
  let! response := rest GET (EDGE_GATEWAY_NAT_CONFIG edgeGatewayId) in
  if (status_code response =? ok)%Z then
    let responseDict := content response in
    let! nat := of_result (getitem responseDict "nat") in
    let! nat64Rules := of_result (getitem nat "nat64Rules") in
    if is_not_None nat64Rules then
      raise (Exception "Nat64 rule is configured in source but not supported in Target" [])
    else
      let! natRules := of_result (getitem nat "natRules") in
      if is_not_None natRules then
        let! natRule := of_result (getitem natRules "natRule") in
        let! natrules := of_result (iter (listify_non_list natRule)) in
        of_result (check_nat_rules natrules) ;;;
        ret nat
      else ret JNull
  else
    raise (Exception "Failed to retrieve the NAT Configurations of Source Edge Gateway" []).

(** *** [getEdgeGatewayIpsecConfig] *)

Fixpoint check_ipsec_sites (sites : list json) : result unit :=
  match sites with
  | [] => Ok tt
  | eachsourceIPsecSite :: rest =>
      let? sessionType := getitem eachsourceIPsecSite "ipsecSessionType" in
      if negb (eq_str sessionType "policybasedsession") then
        Raise (Exception "Source IPSEC rule is having routebased session type which is not supported" [])
      else
        let? encryption := getitem eachsourceIPsecSite "encryptionAlgorithm" in
        if negb (eq_str encryption "aes256") then
          let? encryption := getitem eachsourceIPsecSite "encryptionAlgorithm" in
          Raise (Exception "Source IPSEC rule is configured with unsupported encryption algorithm {}"
                           [encryption])
        else
          let? authentication := getitem eachsourceIPsecSite "authenticationMode" in
          if negb (eq_str authentication "psk") then
            Raise (Exception "Authentication mode as Certificate is not supported in target edge gateway" [])
          else
            let? digest := getitem eachsourceIPsecSite "digestAlgorithm" in
            if negb (eq_str digest "sha1") then
              let? digest := getitem eachsourceIPsecSite "digestAlgorithm" in
              Raise (Exception "The specified digest algorithm {} is not supported in target edge gateway"
                               [digest])
            else check_ipsec_sites rest
  end.

Definition getEdgeGatewayIpsecConfig_try (edgeGatewayId : string) : SE io json :=
  let! response := rest GET (EDGE_GATEWAY_IPSEC_CONFIG edgeGatewayId) in
  if (status_code response =? ok)%Z then
    let responseDict := content response in
    let! ipsec := of_result (getitem responseDict "ipsec") in
    let! sites := of_result (getitem ipsec "sites") in
    if is_not_None sites then
      let! site := of_result (getitem sites "site") in
      let! sourceIPsecSite := of_result (iter (listify_non_list site)) in
      of_result (check_ipsec_sites sourceIPsecSite) ;;;
      ret ipsec
    else ret JNull
  else
    raise (Exception "Failed to retrieve the IPSEC Configurations of Source Edge Gateway " []).

(** *** [getEdgeGatewaySSLVPNConfig], [getEdgeGatewayL2VPNConfig],
    [getEdgeGatewayLoadBalancerConfig]

    The three methods differ in the URL, in the element they read and in
    the message; none of them has a branch for an answer other than 200. *)
Definition service_enabled (section : string) (r : response) : result bool :=
  let? config := getitem (content r) section in
  let? enabled := getitem config "enabled" in
  Ok (eq_str enabled "true").

Definition getEdgeGatewaySSLVPNConfig_try (edgeGatewayId : string) : SE io unit :=
  let! response := rest GET (EDGE_GATEWAY_SSLVPN_CONFIG edgeGatewayId) in
  if (status_code response =? ok)%Z then
    let! enabled := of_result (service_enabled "sslvpnConfig" response) in
    if enabled then
      raise (Exception "SSLVPN service is configured in the Source but not supported in the Target" [])
    else ret tt
  else ret tt.

Definition getEdgeGatewayL2VPNConfig_try (edgeGatewayId : string) : SE io unit :=
  let! response := rest GET (EDGE_GATEWAY_L2VPN_CONFIG edgeGatewayId) in
  if (status_code response =? ok)%Z then
    let! enabled := of_result (service_enabled "l2Vpn" response) in
    if enabled then
      raise (Exception "L2VPN service is configured in the Source but not supported in the Target" [])
    else ret tt
  else ret tt.

Definition getEdgeGatewayLoadBalancerConfig_try (edgeGatewayId : string) : SE io unit :=
  let! response := rest GET (EDGE_GATEWAY_LOADBALANCER_CONFIG edgeGatewayId) in
  if (status_code response =? ok)%Z then
    let! enabled := of_result (service_enabled "loadBalancer" response) in
    if enabled then
      raise (Exception "Load Balancer service is configured in the Source but not supported in the Target" [])
    else ret tt
  else ret tt.

(** *** [getEdgeGatewayRoutingConfig] *)

Definition getEdgeGatewayRoutingConfig_try (edgeGatewayId : string) : SE io json :=
  let! response := rest GET (EDGE_GATEWAY_ROUTING_CONFIG edgeGatewayId) in
  if (status_code response =? ok)%Z then
    let responseDict := content response in
    let! enabled := of_result (let? routing := getitem responseDict "routing" in
                               let? ospf := getitem routing "ospf" in
                               getitem ospf "enabled") in
    if eq_str enabled "true" then
      raise (Exception "OSPF routing protocal is configured in the Source but not supported in the Target" [])
    else of_result (getitem responseDict "routing")
  else ret JNull.

(** *** [getOrgVDCComputePolicies] *)

(** The [while resultTotal > 0 and pageSizeCount < resultTotal] loop and
    the [return] after it.  [fuel] bounds the number of turns. *)
Fixpoint compute_policy_pages (fuel : nat) (resultTotal : json) (pageNo pageSizeCount : Z)
         (resultList : list json) : SE io json :=
  let! more := of_result (let? positive := gt_int resultTotal 0 in
                          if positive then gt_int resultTotal pageSizeCount else Ok false) in
  if more then
    match fuel with
    | O => out_of_fuel
    | S fuel' =>
        let! response := rest GET (VDC_COMPUTE_POLICIES_PAGE pageNo) in
        if (status_code response =? ok)%Z then
          let! values := of_result (getitem (content response) "values") in
          let! items := of_result (iter values) in
          let! count := of_result (len values) in
          compute_policy_pages fuel' resultTotal (pageNo + 1)%Z
                               (pageSizeCount + Z.of_nat count)%Z (resultList ++ items)
        else compute_policy_pages fuel' resultTotal pageNo pageSizeCount resultList
    end
  else ret (JArr resultList).

Definition getOrgVDCComputePolicies (fuel : nat) : SE io json :=
  let! response := rest GET VDC_COMPUTE_POLICIES in
  let! resultTotal :=
    (if (status_code response =? ok)%Z then
       let! total := of_result (getitem (content response) "resultTotal") in
       ret (Some total)
     else ret None) in
  let! resultTotal := of_result (local "resultTotal" resultTotal) in
  compute_policy_pages fuel resultTotal 1 0 [].

(** *** The vApps of the source Org VDC

    [validateNoEmptyVappsExistInSourceOrgVDC],
    [validateSourceSuspendedVMsInVapp] and [validateNoVappNetworksExist]
    start with the same statements: [None] stands for their early
    [return] when the Org VDC has no resource entity. *)

(** [[e for e in entities if e['@type'] == vcdConstants.TYPE_VAPP]]. *)
Fixpoint vapps_of (entities : list json) : result (list json) :=
  match entities with
  | [] => Ok []
  | vAppEntity :: rest =>
      let? type := getitem vAppEntity "@type" in
      let? more := vapps_of rest in
      Ok (if eq_str type TYPE_VAPP then vAppEntity :: more else more)
  end.

Definition source_vapps (data : gmap string json) : result (option (list json)) :=
  let? entities := (let? vdc := item data "sourceOrgVDC" in
                    dict_get vdc "ResourceEntities") in
  if negb (truthy entities) then Ok None
  else
    let? entity := (let? vdc := item data "sourceOrgVDC" in
                    let? resources := getitem vdc "ResourceEntities" in
                    getitem resources "ResourceEntity") in
    let? sourceOrgVDCEntityList := iter (listify_non_list entity) in
    let? sourceVappsList := vapps_of sourceOrgVDCEntityList in
    Ok (Some sourceVappsList).

(** [responseDict['VApp'].get('Children')] of the answer for one vApp. *)
Definition vapp_children (r : response) : result json :=
  let? vapp := getitem (content r) "VApp" in
  dict_get vapp "Children".

(** The [for] loop of [validateNoEmptyVappsExistInSourceOrgVDC]. *)
Fixpoint no_empty_vapp (sourceVappsList : list json) : SE io unit :=
  match sourceVappsList with
  | [] => ret tt
  | vApp :: others =>
      let! href := of_result (getitem vApp "@href") in
      let! address := of_result (as_url href) in
      let! vAppResponse := rest GET address in
      let! children := of_result (vapp_children vAppResponse) in
      if negb (truthy children) then
        let! name := of_result (getitem vApp "@name") in
        raise (Exception "Empty Source vApp '{}' exists in Source Org VDC as they can't be migrated using move Vapp api"
                         [name])
      else no_empty_vapp others
  end.

Definition validateNoEmptyVappsExistInSourceOrgVDC : SE io unit :=
  let! data := json_load in
  let! vapps := of_result (source_vapps data) in
  match vapps with
  | None => ret tt
  | Some sourceVappsList => no_empty_vapp sourceVappsList
  end.

Fixpoint no_suspended_vm (vmList : list json) : result unit :=
  match vmList with
  | [] => Ok tt
  | vm :: rest =>
      let? status := getitem vm "@status" in
      if eq_str status "3" then
        Raise (Exception "VM is in suspended state, can't migrate" [])
      else no_suspended_vm rest
  end.

(** The [for] loop of [validateSourceSuspendedVMsInVapp]; the name of a
    vApp without children is formatted into a debug message. *)
Fixpoint no_suspended_vapp (sourceVappsList : list json) : SE io unit :=
  match sourceVappsList with
  | [] => ret tt
  | vApp :: others =>
      let! href := of_result (getitem vApp "@href") in
      let! address := of_result (as_url href) in
      let! vAppResponse := rest GET address in
      let! children := of_result (vapp_children vAppResponse) in
      if negb (truthy children) then
        let! _ := of_result (getitem vApp "@name") in
        no_suspended_vapp others
      else
        let! vm := of_result (let? vapp := getitem (content vAppResponse) "VApp" in
                              let? children := getitem vapp "Children" in
                              getitem children "Vm") in
        let! vmList := of_result (iter (listify_non_list vm)) in
        of_result (no_suspended_vm vmList) ;;;
        no_suspended_vapp others
  end.

Definition validateSourceSuspendedVMsInVapp : SE io unit :=
  let! data := json_load in
  let! vapps := of_result (source_vapps data) in
  match vapps with
  | None => ret tt
  | Some sourceVappsList => no_suspended_vapp sourceVappsList
  end.

(** *** [validateIndependentDisksDoesNotExistsInOrgVDC] *)

Definition independent_disks_exist : exn :=
  Exception "Independent Disks Exist In Source Org VDC." [].

Fixpoint no_independent_disk (entities : list json) : result unit :=
  match entities with
  | [] => Ok tt
  | eachResourceEntity :: rest =>
      let? type := getitem eachResourceEntity "@type" in
      if eq_str type INDEPENDENT_DISKS_EXIST_IN_ORG_VDC_TYPE
      then Raise independent_disks_exist
      else no_independent_disk rest
  end.

Definition validateIndependentDisksDoesNotExistsInOrgVDC_try (orgVDCId : json)
  : SE io unit :=
  let! text := of_result (as_str orgVDCId "split") in
  let orgVDCId := last_field ":" text in
  let! response := rest GET (ORG_VDC_BY_ID orgVDCId) in
  let responseDict := content response in
  let! entities := of_result (let? adminVdc := getitem responseDict "AdminVdc" in
                              dict_get adminVdc "ResourceEntities") in
  if truthy entities then
    let! entity := of_result (let? adminVdc := getitem responseDict "AdminVdc" in
                              let? resources := getitem adminVdc "ResourceEntities" in
                              getitem resources "ResourceEntity") in
    if is_list entity then
      let! items := of_result (iter entity) in
      of_result (no_independent_disk items)
    else
      let! type := of_result (getitem entity "@type") in
      if eq_str type INDEPENDENT_DISKS_EXIST_IN_ORG_VDC_TYPE
      then raise independent_disks_exist
      else ret tt
  else ret tt.

Definition validateIndependentDisksDoesNotExistsInOrgVDC (orgVDCId : json) : M unit :=
  method_of ValidateIndependentDisksDoesNotExistsInOrgVDC
            (validateIndependentDisksDoesNotExistsInOrgVDC_try orgVDCId).

(** *** [validateDHCPEnabledonIsolatedVdcNetworks] *)

(** The [for] loop: the remote system is asked about a network only
    when its type is [ISOLATED]. *)
Fixpoint no_dhcp_on_isolated (orgVdcNetworkList : list json) : SE io unit :=
  match orgVdcNetworkList with
  | [] => ret tt
  | orgVdcNetwork :: others =>
      let! networkType := of_result (getitem orgVdcNetwork "networkType") in
      if eq_str networkType "ISOLATED" then
        let! id := of_result (getitem orgVdcNetwork "id") in
        let! response := rest GET (DHCP_ENABLED_FOR_ORG_VDC_NETWORK_BY_ID id) in
        let! enabled := of_result (getitem (content response) "enabled") in
        if truthy enabled then
          let! name := of_result (getitem orgVdcNetwork "name") in
          raise (Exception "DHCP is enabled on source Isolated Org VDC Network - {}" [name])
        else no_dhcp_on_isolated others
      else no_dhcp_on_isolated others
  end.

Definition validateDHCPEnabledonIsolatedVdcNetworks_try (orgVdcNetworkList : json)
  : SE io unit :=
  let! networks := of_result (iter orgVdcNetworkList) in
  no_dhcp_on_isolated networks.

Definition validateDHCPEnabledonIsolatedVdcNetworks (orgVdcNetworkList : json) : M unit :=
  method_of ValidateDHCPEnabledonIsolatedVdcNetworks
            (validateDHCPEnabledonIsolatedVdcNetworks_try orgVdcNetworkList).

End RemoteChecks.

(* ===================================================================== *)
(** ** Vocabulary of the further properties *)
(* ===================================================================== *)

(** [record[key]] is the string [text]. *)
Definition named (key text : string) (record : json) : Prop :=
  exists v, getitem record key = Ok v /\ eq_str v text = true.

(** [record[key]] exists and is not the string [text]. *)
Definition named_otherwise (key text : string) (record : json) : Prop :=
  exists v, getitem record key = Ok v /\ eq_str v text = false.

(** A record that [getOrgVDCUrl] can pass over or take its URL from. *)
Definition href_if_named (text : string) (record : json) : Prop :=
  named_otherwise "@name" text record \/
  (named "@name" text record /\ exists href, getitem record "@href" = Ok href).

(** The checks whose [try] block reads the document and nothing else. *)
Inductive reader : Type :=
| Read_validateOrgVDCFastProvisioned
| Read_validateTargetProviderVdc
| Read_validateOrgVDCNSXVbacked (sourceProviderVDCId : json) (isNSXTbacked : bool)
| Read_validateNoTargetOrgVDCExists (sourceOrgVDCName : string)
| Read_validateStorageProfiles
| Read_validateHardwareVersion
| Read_validateOrgVDCNetworkShared (orgVdcNetworkList : json)
| Read_validateOrgVDCNetworkDirect (orgVdcNetworkList : json).

Definition run_reader (r : reader) : SE io unit :=
  match r with
  | Read_validateOrgVDCFastProvisioned => validateOrgVDCFastProvisioned_try
  | Read_validateTargetProviderVdc => validateTargetProviderVdc_try
  | Read_validateOrgVDCNSXVbacked sourceProviderVDCId isNSXTbacked =>
      validateOrgVDCNSXVbacked sourceProviderVDCId isNSXTbacked
  | Read_validateNoTargetOrgVDCExists sourceOrgVDCName =>
      validateNoTargetOrgVDCExists sourceOrgVDCName
  | Read_validateStorageProfiles => validateStorageProfiles_try
  | Read_validateHardwareVersion => validateHardwareVersion
  | Read_validateOrgVDCNetworkShared orgVdcNetworkList =>
      validateOrgVDCNetworkShared_try orgVdcNetworkList
  | Read_validateOrgVDCNetworkDirect orgVdcNetworkList =>
      validateOrgVDCNetworkDirect_try orgVdcNetworkList
  end.

(** The requests sent between two states. *)
Definition requests_since (i i' : io) : list event :=
  drop (length (trace i)) (trace i').

(** The names of a list of records, when each record has a string under
    [@name]. *)
Definition names_are (records : list json) (names : list string) : Prop :=
  Forall2 (fun record name => getitem record "@name" = Ok (JStr name)) records names.

(** How many target profiles carry the name of some source profile,
    counted once per pair. *)
Definition matching_pairs (sourceNames targetNames : list string) : nat :=
  list_sum (map (count_occ string_dec targetNames) sourceNames).

(** The record names the hardware version [version], as in [vmx-14]. *)
Definition version_is (detail : json) (version : Z) : Prop :=
  exists text name currentVersion,
    getitem detail "@name" = Ok (JStr text) /\
    split "-" text = [name; currentVersion] /\
    int currentVersion = Ok version.

(** The highest of the versions, and 0 when none is positive. *)
Definition highest (versions : list Z) : Z := fold_left Z.max versions 0%Z.

(** A NAT rule that the loop of [getEdgeGatewayNatConfig] passes over:
    no [/] in the translated address, and no [-] when the action is
    [dnat]. *)
Definition accepted_nat_rule (natrule : json) : Prop :=
  exists action translated,
    getitem natrule "action" = Ok action /\
    getitem natrule "translatedAddress" = Ok translated /\
    contained "/" translated = Ok false /\
    (eq_str action "dnat" = true -> contained "-" translated = Ok false).

(** An IPsec site with the one combination of settings that
    [getEdgeGatewayIpsecConfig] lets through. *)
Definition supported_ipsec_site (site : json) : Prop :=
  named "ipsecSessionType" "policybasedsession" site /\
  named "encryptionAlgorithm" "aes256" site /\
  named "authenticationMode" "psk" site /\
  named "digestAlgorithm" "sha1" site.

(** The URL of a service configuration of an edge gateway, for the
    samples. *)
Definition edge_url (service edgeGatewayId : string) : url :=
  Href ("https://10.0.0.1/network/edges/" +:+ edgeGatewayId +:+ "/" +:+ service).

(** The NAT configuration with the rules [natRule]. *)
Definition nat_config (natRule : json) : json :=
  JObj [("nat64Rules", JNull); ("natRules", JObj [("natRule", natRule)])].

(** The requests for [n] pages from page [pageNo] on. *)
Fixpoint page_requests (page : Z -> url) (pageNo : Z) (n : nat) : list event :=
  match n with
  | O => []
  | S n' => Request GET (page pageNo) :: page_requests page (pageNo + 1)%Z n'
  end.

(** The answer for a vApp lists children. *)
Definition has_children (r : response) : Prop :=
  exists children, vapp_children r = Ok children /\ truthy children = true.

(** The records have these URLs under [@href]. *)
Definition hrefs_are (records : list json) (hrefs : list string) : Prop :=
  Forall2 (fun record href => getitem record "@href" = Ok (JStr href)) records hrefs.

(** One GET for each of the URLs, in order. *)
Definition gets (hrefs : list string) : list event :=
  map (fun href => Request GET (Href href)) hrefs.

(** What [validateSourceSuspendedVMsInVapp] accepts as the answer for
    the vApp [vApp]: no children and a name for the log, or children of
    which no VM has the status 3. *)
Definition no_suspended_vm_in (vApp : json) (r : response) : Prop :=
  exists children,
    vapp_children r = Ok children /\
    if truthy children then
      exists vm vmList,
        getitem children "Vm" = Ok vm /\
        listify_non_list vm = JArr vmList /\
        Forall (named_otherwise "@status" "3") vmList
    else exists name, getitem vApp "@name" = Ok name.

(** *** Sample answers *)

Definition policies_total (resultTotal : Z) : response :=
  Response 200 (JObj [("resultTotal", JNum resultTotal)]) [].

Definition policies_page (values : list json) : response :=
  Response 200 (JObj [("values", JArr values)]) [].

Definition unavailable : response := Response 503 JNull [].

(** Three policies are announced, then no page can be fetched. *)
Definition pages_unavailable : nat -> response :=
  fun n => match n with O => policies_total 3 | _ => unavailable end.

Definition policy (name : string) : json := JObj [("name", JStr name)].

(** Three policies served in pages of two. *)
Definition three_policies_in_two_pages : nat -> response :=
  answering [policies_total 3;
             policies_page [policy "small"; policy "medium"];
             policies_page [policy "large"]].

Definition policies_url : url := Href "https://10.0.0.1/cloudapi/1.0.0/vdcComputePolicies".

Definition policies_page_url (pageNo : Z) : url :=
  Href ("https://10.0.0.1/cloudapi/1.0.0/vdcComputePolicies?page=" +:+ str_of_int pageNo
        +:+ "&pageSize=25").

(** A resource entity of the source Org VDC. *)
Definition entity (type name href : string) : json :=
  JObj [("@type", JStr type); ("@name", JStr name); ("@href", JStr href)].

(** The answer for a vApp with the VMs [vms], or without children. *)
Definition vapp_answer (vms : option json) : response :=
  Response 200
    (JObj [("VApp", JObj (match vms with
                          | Some vm => [("Children", JObj [("Vm", vm)])]
                          | None => []
                          end))]) [].

Definition vm (status : string) : json := JObj [("@status", JStr status)].

Definition type_vapp : string := "application/vnd.vmware.vcloud.vApp+xml".

(** A source Org VDC with two vApps and a media item. *)
Definition two_vapps : gmap string json :=
  {[ "sourceOrgVDC" :=
       JObj [("ResourceEntities",
              JObj [("ResourceEntity",
                     JArr [entity type_vapp "web" "https://10.0.0.1/api/vApp/vapp-1";
                           entity "application/vnd.vmware.vcloud.media+xml" "iso"
                                  "https://10.0.0.1/api/media/7";
                           entity type_vapp "db" "https://10.0.0.1/api/vApp/vapp-2"])])] ]}.

(** Blocks of a run in which every check passes. *)
Definition blocks_passing (m : method) : SE io json :=
  match m with
  | GetOrgVDCDetails => json_dump discovered_enabled ;;; ret (JStr "urn:vcloud:vdc:42")
  | _ => ret JNull
  end.

(** Blocks of a run in which the list of the Org VDC networks cannot be
    read, after the source Org VDC was disabled. *)
Definition blocks_networks_unreadable (m : method) : SE io json :=
  match m with
  | GetOrgVDCDetails => json_dump discovered_enabled ;;; ret (JStr "urn:vcloud:vdc:42")
  | GetOrgVDCNetworks => raise (KeyError "values")
  | _ => ret JNull
  end.

(** A task record, answered with 200, whose operation name contains
    [taskName] and whose status is [error], with the details [details]. *)
Definition matching_error (taskName : string) (details : json) (r : response) : Prop :=
  status_code r = ok /\
  exists task operationName status,
    getitem (content r) "Task" = Ok task /\
    getitem task "@operationName" = Ok operationName /\
    contained taskName operationName = Ok true /\
    getitem task "@status" = Ok status /\
    eq_str status "success" = false /\
    eq_str status "error" = true /\
    getitem task "Details" = Ok details.

(** The key under which [getExternalNetwork] saves a network. *)
Definition external_network_key (isDummyNetwork : bool) (backingType : json) : string :=
  if isDummyNetwork then "dummyExternalNetwork"
  else if eq_str backingType "NSXT_TIER0" then "targetExternalNetwork"
       else "sourceExternalNetwork".

(** The answer for the Org VDC: [entity] is the value under
    [ResourceEntity]. *)
Definition admin_vdc_answer (entity : json) : response :=
  Response 200
    (JObj [("AdminVdc", JObj [("ResourceEntities", JObj [("ResourceEntity", entity)])])]) [].

(** The session has expired and the login is answered with the token
    [fresh-token]. *)
Definition login_renewed : nat -> response :=
  answering [Response 401 JNull [];
             Response 200 JNull [("X-VMWARE-VCLOUD-ACCESS-TOKEN", "fresh-token")]].

(** The task fails after two running records. *)
Definition failing_task : nat -> response :=
  answering [task_record "vappUpdateVmAffinityRule" "running";
             task_record "vappUpdateVmAffinityRule" "running";
             task_record "vappUpdateVmAffinityRule" "error"].

(** The external networks of the remote system. *)
Definition external_network (name backingType id : string) : json :=
  JObj [("name", JStr name);
        ("networkBackings", JObj [("values", JArr [JObj [("backingType", JStr backingType)]])]);
        ("id", JStr id)].

(** [response['orgVdc']['id'] == orgVDCId] on a record that has the id. *)
Definition belongs_to (orgVDCId : string) (record : json) : bool :=
  match (let? orgVdc := getitem record "orgVdc" in getitem orgVdc "id") with
  | Ok id => eq_str id orgVDCId
  | Raise _ => false
  end.

(** The record names the Org VDC it belongs to. *)
Definition has_org_vdc_id (record : json) : Prop :=
  exists orgVdc id, getitem record "orgVdc" = Ok orgVdc /\ getitem orgVdc "id" = Ok id.

(** An Org VDC network of the Org VDC [orgVdcId]. *)
Definition org_vdc_network (name orgVdcId : string) (shared : bool) (networkType : string)
  : json :=
  JObj [("name", JStr name); ("orgVdc", JObj [("id", JStr orgVdcId)]);
        ("shared", JBool shared); ("networkType", JStr networkType)].

(** [orgVdcNetwork['networkType'] == 'ISOLATED'] on a record that has a
    type. *)
Definition is_isolated (orgVdcNetwork : json) : bool :=
  match getitem orgVdcNetwork "networkType" with
  | Ok networkType => eq_str networkType "ISOLATED"
  | Raise _ => false
  end.

(** The records have these values under [id]. *)
Definition ids_are (records ids : list json) : Prop :=
  Forall2 (fun record id => getitem record "id" = Ok id) records ids.

(** The answer says that DHCP is not enabled on the network. *)
Definition dhcp_disabled (r : response) : Prop :=
  exists enabled, getitem (content r) "enabled" = Ok enabled /\ truthy enabled = false.

(** The URL of the DHCP settings of an Org VDC network, for the samples. *)
Definition dhcp_url (id : json) : url :=
  match id with
  | JStr text => Href ("https://10.0.0.1/cloudapi/1.0.0/orgVdcNetworks/" +:+ text +:+ "/dhcp")
  | _ => Href "https://10.0.0.1/cloudapi/1.0.0/orgVdcNetworks/dhcp"
  end.

Definition isolated_network (name id : string) : json :=
  JObj [("name", JStr name); ("id", JStr id); ("networkType", JStr "ISOLATED")].

Definition routed_network (name id : string) : json :=
  JObj [("name", JStr name); ("id", JStr id); ("networkType", JStr "NAT_ROUTED")].

Definition dhcp_answer (enabled : bool) : response :=
  Response 200 (JObj [("enabled", JBool enabled)]) [].

(* ===================================================================== *)
(** ** Words for the session guard and for the writers of the file *)
(* ===================================================================== *)

(** [self] when the decorator has done its part: after the probe, and
    after the login when the probe was not answered with 200. *)
Definition guard_leaves (w : vcd) : vcd :=
  if (status_code (next_response (world w)) =? ok)%Z then after_probe w
  else snd (lift vcdLogin (after_probe w)).

(** The decorator gets to the wrapped operation: the probe is answered
    with 200, or the login returns. *)
Definition guard_passes (w : vcd) : Prop :=
  status_code (next_response (world w)) = ok \/
  exists session, fst (vcdLogin (world (after_probe w))) = Returns session.

(** The value of an expression, [None] standing for one that raises. *)
Definition value_of (r : result json) : json :=
  match r with Ok v => v | Raise _ => JNull end.

(** The elements of a list value, none when it is not a list. *)
Definition records_of (r : result json) : list json :=
  match (let? v := r in iter v) with Ok records => records | Raise _ => [] end.

(** The first record that has [text] under [key]. *)
Fixpoint first_with (key text : string) (records : list json) : option json :=
  match records with
  | [] => None
  | record :: others =>
      match getitem record key with
      | Ok v => if eq_str v text then Some record else first_with key text others
      | Raise _ => first_with key text others
      end
  end.

(** The backing type of an external network. *)
Definition backing_type (record : json) : json :=
  value_of (let? backings := getitem record "networkBackings" in
            let? values := getitem backings "values" in
            let? first := getfirst values in
            getitem first "backingType").

(** Whether the writer is a decorated method. *)
Definition guarded (s : writer) : bool :=
  match s with
  | Write_getOrgVDCUrl _ _ _ => false
  | Write_getOrgVDCDetails _ _ _ _ => false
  | Write_getProviderVDCDetails _ _ => false
  | _ => true
  end.

(** The state in which the statements of the writer start: for a
    decorated method, the one the decorator leaves. *)
Definition writer_start (s : writer) (w : vcd) : io :=
  if guarded s then world (guard_leaves w) else world w.

(** The organization, stored by [getOrgVDCUrl] when the file holds
    nothing yet and the caller asks to save. *)
Definition organization_fact (saveResponse : bool) (i : io) : list (string * json) :=
  if (is_empty (doc_of i) && saveResponse)%bool
  then [("Organization", value_of (getitem (content (next_response i)) "AdminOrg"))]
  else [].

(** The facts a call of the writer is to store, key and value, in the
    order of the assignments: they are read off the arguments of the
    call, the file as it was and the answers to the requests of the call
    (the first answer is [next_response i], the second [response_in 1 i]),
    [i] being the state in which the statements of the writer start. *)
Definition facts_from (s : writer) (i : io) : list (string * json) :=
  match s with
  | Write_getOrgVDCUrl _ _ saveResponse => organization_fact saveResponse i
  | Write_getOrgVDCDetails _ _ orgVDCType saveResponse =>
      organization_fact saveResponse i ++
      (if saveResponse
       then [(orgVDCType, value_of (getitem (content (response_in 1 i)) "AdminVdc"))]
       else [])
  | Write_getExternalNetwork _ networkName isDummyNetwork =>
      match first_with "name" networkName
                       (records_of (getitem (content (next_response i)) "values")) with
      | Some record => [(external_network_key isDummyNetwork (backing_type record), record)]
      | None => []
      end
  | Write_getProviderVDCDetails _ isNSXTbacked =>
      [(if isNSXTbacked then "targetProviderVDC" else "sourceProviderVDC",
        value_of (getitem (content (next_response i)) "ProviderVdc"))]
  | Write_validateVMPlacementPolicy _ =>
      if (status_code (next_response i) =? ok)%Z
      then [("sourceOrgVDCComputePolicyList",
             value_of (let? references :=
                         getitem (content (next_response i)) "VdcComputePolicyReferences" in
                       getitem references "VdcComputePolicyReference"))]
      else []
  | Write_getOrgVDCAffinityRules _ =>
      let affinity := value_of (getitem (content (next_response i)) "VmAffinityRules") in
      [("sourceVMAffinityRules",
        if truthy (value_of (dict_get affinity "VmAffinityRule"))
        then value_of (getitem affinity "VmAffinityRule")
        else JObj [])]
  | Write_validateSingleEdgeGatewayExistForOrgVDC _ =>
      [("sourceEdgeGateway",
        value_of (let? values := getitem (content (next_response i)) "values" in
                  getfirst values))]
  | Write_getOrgVDCNetworks orgVDCId orgVDCNetworkType saveResponse =>
      if saveResponse
      then [(orgVDCNetworkType,
             JArr (List.filter (belongs_to orgVDCId)
                               (records_of (getitem (content (next_response i)) "values"))))]
      else []
  | Write_getEdgeGatewayServices dhcp firewall nat routing dns =>
      [("sourceEdgeGatewayDHCP", dhcp); ("sourceEdgeGatewayFirewall", firewall);
       ("sourceEdgeGatewayNAT", nat); ("sourceEdgeGatewayRouting", routing)] ++
      (if truthy dns then [("sourceEdgeGatewayDNS", dns)] else [])
  end.

(** The facts the call of the writer on [w] is to store. *)
Definition stores (s : writer) (w : vcd) : list (string * json) :=
  facts_from s (writer_start s w).

(** The block stores the facts [facts i] when it returns from [i], and
    whatever it does it leaves every other key of the file as it was. *)
Definition block_stores {A} (facts : io -> list (string * json)) (block : SE io A) : Prop :=
  forall i,
    (forall a, fst (block i) = Returns a ->
               doc_of (snd (block i)) = merged (doc_of i) (facts i)) /\
    extends (map fst (facts i)) (doc_of i) (doc_of (snd (block i))).

(* ===================================================================== *)
(** * Properties *)
(* ===================================================================== *)

(** ** Python strings and values, on examples *)

Example split_version : split "-" "vmx-14" = ["vmx"; "14"].
Proof. reflexivity. Qed.

Example last_field_urn : last_field ":" "urn:vcloud:vdc:42" = "42".
Proof. reflexivity. Qed.

Example int_padded : int " +1_4 " = Ok 14%Z.
Proof. reflexivity. Qed.

Example int_rejects_double_underscore :
  int "1__4" = Raise (ValueError "invalid literal for int() with base 10: 1__4").
Proof. reflexivity. Qed.

Example slice_last_parentheses :
  let s := "Updated rule (a) of vdc (7f3)" in
  slice s (rfind "(" s + 1) (rfind ")" s) = "7f3".
Proof. reflexivity. Qed.

Example eqb_ignores_key_order :
  eqb (JObj [("a", JNum 1); ("b", JStr "x")]) (JObj [("b", JStr "x"); ("a", JBool true)])
  = true.
Proof. reflexivity. Qed.

(** ** What the building blocks leave untouched *)

Lemma lift_keeps_self {A} (m : SE io A) : keeps_self (lift m).
Proof.
  intros w. unfold lift. destruct (m (world w)) as [r i]. simpl. auto.
Qed.

Lemma lift_world {A} (m : SE io A) (w : vcd) :
  world (snd (lift m w)) = snd (m (world w)) /\ fst (lift m w) = fst (m (world w)).
Proof.
  unfold lift. destruct (m (world w)) as [r i]. simpl. auto.
Qed.

Lemma bind_keeps_self {A B} (m : M A) (k : A -> M B) :
  keeps_self m -> (forall a, keeps_self (k a)) -> keeps_self (bind m k).
Proof.
  intros Hm Hk w. unfold bind. specialize (Hm w).
  destruct (m w) as [[a | e |] w1]; simpl in *; auto.
  specialize (Hk a w1). destruct Hk as (H1 & H2 & H3). destruct Hm as (G1 & G2 & G3).
  rewrite H1, H2, H3. auto.
Qed.

Lemma guard_keeps_self {A} (func : M A) :
  keeps_self func -> keeps_self (_isSessionExpired func).
Proof.
  intros Hf. unfold _isSessionExpired.
  apply bind_keeps_self; [apply lift_keeps_self |].
  intros r. destruct (negb _); [| exact Hf].
  apply bind_keeps_self; [apply lift_keeps_self | intros _; exact Hf].
Qed.

(** ** The session guard *)

Lemma after_probe_spec (w : vcd) :
  lift (rest GET SESSION) w = (Returns (next_response (world w)), after_probe w) /\
  trace (world (after_probe w)) = (trace (world w) ++ [Request GET SESSION])%list /\
  served (world (after_probe w)) = S (served (world w)) /\
  remote (world (after_probe w)) = remote (world w) /\
  apiOutput (world (after_probe w)) = apiOutput (world w) /\
  ENABLE_SOURCE_ORG_VDC (after_probe w) = ENABLE_SOURCE_ORG_VDC w /\
  ENABLE_AFFINITY_RULES_IN_SOURCE_VAPP (after_probe w) = ENABLE_AFFINITY_RULES_IN_SOURCE_VAPP w /\
  calls (after_probe w) = calls w.
Proof. unfold after_probe, lift, rest, next_response. simpl. repeat split. Qed.

(** [vcdLogin] sends exactly one request and does not touch the file. *)
Lemma vcdLogin_effect (i : io) :
  trace (snd (vcdLogin i)) = (trace i ++ [Request POST LOGIN_URL])%list /\
  served (snd (vcdLogin i)) = S (served i) /\
  remote (snd (vcdLogin i)) = remote i /\
  apiOutput (snd (vcdLogin i)) = apiOutput i.
Proof.
  unfold vcdLogin, bind, rest, of_result, store_session, get_ipAddress, ret, raise. simpl.
  destruct (status_code (remote i (served i)) =? ok)%Z; simpl; [| auto].
  destruct (header _ _); simpl; auto.
Qed.

Lemma vcdLogin_returns (i : io) : fst (vcdLogin i) <> OutOfFuel.
Proof.
  unfold vcdLogin, bind, rest, of_result, store_session, get_ipAddress, ret, raise.
  cbn. destruct (status_code (remote i (served i)) =? ok)%Z; cbn; [| discriminate].
  destruct (header _ _); cbn; discriminate.
Qed.

(** The three ways a guarded call can go, with the state [w'] the guard
    leaves behind. *)
Lemma guard_cases {A} (func : M A) (w : vcd) :
  let probe := next_response (world w) in
  exists w' : vcd,
    trace (world w') =
      (trace (world w) ++
       Request GET SESSION ::
         (if (status_code probe =? ok)%Z then [] else [Request POST LOGIN_URL]))%list /\
    ENABLE_SOURCE_ORG_VDC w' = ENABLE_SOURCE_ORG_VDC w /\
    ENABLE_AFFINITY_RULES_IN_SOURCE_VAPP w' = ENABLE_AFFINITY_RULES_IN_SOURCE_VAPP w /\
    calls w' = calls w /\
    apiOutput (world w') = apiOutput (world w) /\
    remote (world w') = remote (world w) /\
    (served (world w) < served (world w'))%nat /\
    (_isSessionExpired func w = func w' \/
     (status_code probe <> ok /\
      exists e, fst (vcdLogin (world (after_probe w))) = Raises e /\
                _isSessionExpired func w = (Raises e, w'))).
Proof.
  intros probe.
  destruct (after_probe_spec w) as (Hrun & Htr & Hsv & Hrem & Hdoc & Hf1 & Hf2 & Hc).
  unfold _isSessionExpired, bind. rewrite Hrun. fold probe.
  destruct (status_code probe =? ok)%Z eqn:Hok; simpl.
  - exists (after_probe w). rewrite Htr, Hsv. repeat split; auto.
  - destruct (lift_keeps_self vcdLogin (after_probe w)) as (G1 & G2 & G3).
    destruct (lift_world vcdLogin (after_probe w)) as (Gw & Gr).
    destruct (vcdLogin_effect (world (after_probe w))) as (Lt & Ls & Lr & Ld).
    exists (snd (lift vcdLogin (after_probe w))).
    rewrite Gw, Lt, Ls, Htr, Ld, Lr, Hdoc, Hrem, Hsv, G1, G2, G3, Hf1, Hf2, Hc.
    rewrite <- app_assoc. simpl.
    repeat split; auto.
    destruct (lift vcdLogin (after_probe w)) as [[v | e |] w1] eqn:Hl; simpl in *.
    + left. reflexivity.
    + right. split.
      * intros Heq. rewrite Heq in Hok. discriminate.
      * exists e. split; [symmetry; exact Gr | reflexivity].
    + exfalso. apply (vcdLogin_returns (world (after_probe w))). symmetry. exact Gr.
Qed.

(** What the decorator leaves behind: the probe is sent, the login is
    sent when the probe was not answered with 200, and nothing else of
    [self] or of the file changes. *)
Lemma guard_leaves_spec (w : vcd) :
  let probe := next_response (world w) in
  let w' := guard_leaves w in
  trace (world w') =
    (trace (world w) ++
     Request GET SESSION ::
       (if (status_code probe =? ok)%Z then [] else [Request POST LOGIN_URL]))%list /\
  ENABLE_SOURCE_ORG_VDC w' = ENABLE_SOURCE_ORG_VDC w /\
  ENABLE_AFFINITY_RULES_IN_SOURCE_VAPP w' = ENABLE_AFFINITY_RULES_IN_SOURCE_VAPP w /\
  calls w' = calls w /\
  apiOutput (world w') = apiOutput (world w) /\
  remote (world w') = remote (world w) /\
  served (world w') =
    (served (world w) + (if (status_code probe =? ok)%Z then 1 else 2))%nat.
Proof.
  intros probe w'. subst probe w'. unfold guard_leaves.
  destruct (after_probe_spec w) as (_ & Htr & Hsv & Hrem & Hdoc & Hf1 & Hf2 & Hc).
  destruct (status_code (next_response (world w)) =? ok)%Z.
  - rewrite Htr, Hsv. repeat split; auto. lia.
  - destruct (lift_keeps_self vcdLogin (after_probe w)) as (G1 & G2 & G3).
    destruct (lift_world vcdLogin (after_probe w)) as (Gw & _).
    destruct (vcdLogin_effect (world (after_probe w))) as (Lt & Ls & Lr & Ld).
    rewrite Gw, Lt, Ls, Htr, Ld, Lr, Hdoc, Hrem, Hsv, G1, G2, G3, Hf1, Hf2, Hc.
    rewrite <- app_assoc. simpl. repeat split; auto. lia.
Qed.

(** How a guarded call goes, by the answer to the probe and the outcome
    of the login. *)
Lemma guard_run {A} (func : M A) (w : vcd) :
  let probe := next_response (world w) in
  let login := fst (vcdLogin (world (after_probe w))) in
  (status_code probe = ok -> _isSessionExpired func w = func (guard_leaves w)) /\
  (status_code probe <> ok ->
   forall session, login = Returns session ->
                   _isSessionExpired func w = func (guard_leaves w)) /\
  (status_code probe <> ok ->
   forall e, login = Raises e -> _isSessionExpired func w = (Raises e, guard_leaves w)).
Proof.
  intros probe login. subst probe login.
  destruct (after_probe_spec w) as (Hrun & _).
  destruct (lift_world vcdLogin (after_probe w)) as (_ & Gr).
  rewrite <- Gr. clear Gr.
  unfold _isSessionExpired, bind, guard_leaves. rewrite Hrun.
  destruct (Z.eqb_spec (status_code (next_response (world w))) ok) as [Hok | Hno]; simpl.
  - split; [reflexivity |]. split; intros Hne; contradiction.
  - split; [intros Hok; contradiction |].
    destruct (lift vcdLogin (after_probe w)) as [[v | e |] w1]; simpl;
      split; intros _ x Hx; try discriminate Hx; try reflexivity.
    injection Hx as ->. reflexivity.
Qed.

Lemma guard_passes_run {A} (func : M A) (w : vcd) :
  guard_passes w -> _isSessionExpired func w = func (guard_leaves w).
Proof.
  destruct (guard_run func w) as (Hok & Hlogin & _).
  intros [Hpass | (session & Hpass)]; [exact (Hok Hpass) |].
  destruct (Z.eq_dec (status_code (next_response (world w))) ok) as [Heq | Hne].
  - exact (Hok Heq).
  - exact (Hlogin Hne session Hpass).
Qed.

(** C3, as the code has it.  Each call of a decorated method first sends
    the probe; the login request is sent if and only if the probe was
    not answered with 200, and nothing else of [self] changes: that is
    the state [guard_leaves w].  When the probe is answered with 200, or
    the login returns, the outcome of the call is that of the wrapped
    operation run once from that state.  When the login raises, its
    exception is the outcome, and the state is the one the login left:
    the wrapped operation is not run.  The login always ends. *)
Theorem session_guard_probe_login_call {A} (func : M A) (w : vcd) :
  let probe := next_response (world w) in
  let login := fst (vcdLogin (world (after_probe w))) in
  let w' := guard_leaves w in
  trace (world w') =
    (trace (world w) ++
     Request GET SESSION ::
       (if (status_code probe =? ok)%Z then [] else [Request POST LOGIN_URL]))%list /\
  ENABLE_SOURCE_ORG_VDC w' = ENABLE_SOURCE_ORG_VDC w /\
  ENABLE_AFFINITY_RULES_IN_SOURCE_VAPP w' = ENABLE_AFFINITY_RULES_IN_SOURCE_VAPP w /\
  calls w' = calls w /\
  apiOutput (world w') = apiOutput (world w) /\
  (status_code probe = ok -> _isSessionExpired func w = func w') /\
  (status_code probe <> ok ->
   forall session, login = Returns session -> _isSessionExpired func w = func w') /\
  (status_code probe <> ok ->
   forall e, login = Raises e -> _isSessionExpired func w = (Raises e, w')) /\
  login <> OutOfFuel.
Proof.
  intros probe login w'.
  destruct (guard_leaves_spec w) as (H1 & H2 & H3 & H4 & H5 & _).
  destruct (guard_run func w) as (G1 & G2 & G3).
  repeat split; try assumption.
  apply vcdLogin_returns.
Qed.

(** C3 as stated fails: the probe reports a non-success status, the
    login is attempted and refused, and the wrapped operation is not
    invoked at all. *)
Lemma session_guard_login_refused_operation_not_invoked :
  let run := _isSessionExpired (calling ValidateTargetProviderVdc) expired_session in
  status_code (next_response (world expired_session)) <> ok /\
  fst run = Raises (Exception "Failed to login to VMware Cloud Director {} with the given credentials"
                             [JStr "10.0.0.1"]) /\
  trace (world (snd run)) = [Request GET SESSION; Request POST LOGIN_URL] /\
  calls (snd run) = [].
Proof. vm_compute. repeat split. discriminate. Qed.

(** ** The task poller *)

Section PollerProperties.

Variables T I : Z.

Local Abbreviation wait := (wait T I).
Local Abbreviation slept := (slept I).

Lemma slept_spec (taskUrl : url) (i : io) :
  served (slept taskUrl i) = S (served i) /\ remote (slept taskUrl i) = remote i.
Proof. unfold slept, record, rest. simpl. auto. Qed.

Lemma response_in_slept (taskUrl : url) (i : io) (k : nat) :
  response_in k (slept taskUrl i) = response_in (S k) i.
Proof.
  unfold response_in. destruct (slept_spec taskUrl i) as [Hs Hr].
  rewrite Hs, Hr. f_equal. lia.
Qed.

(** One turn of the loop, by the record it fetched. *)
Lemma wait_turn (fuel : nat) (timeout : Z) (taskUrl : url) (taskName : string)
      (returnOutput : bool) (i : io) :
  wait (S fuel) timeout taskUrl taskName returnOutput i =
  if (timeout <? T)%Z then
    match inspect taskName returnOutput (next_response i) with
    | Ok (Some r) => (Returns r, snd (rest GET taskUrl i))
    | Ok None => wait fuel (timeout + I)%Z taskUrl taskName returnOutput (slept taskUrl i)
    | Raise e => (Raises e, snd (rest GET taskUrl i))
    end
  else (Raises (timed_out taskName), i).
Proof.
  simpl. destruct (timeout <? T)%Z; [| reflexivity].
  unfold bind, poll, rest, of_result, next_response, slept, sleep. simpl.
  destruct (inspect taskName returnOutput (remote i (served i))) as [[r |] | e];
    reflexivity.
Qed.

Lemma wait_past_deadline (fuel : nat) (timeout : Z) (taskUrl : url) (taskName : string)
      (returnOutput : bool) (i : io) :
  (T <= timeout)%Z ->
  wait fuel timeout taskUrl taskName returnOutput i = (Raises (timed_out taskName), i).
Proof.
  intros H. destruct fuel; simpl;
    destruct (Z.ltb_spec timeout T); try lia; reflexivity.
Qed.

(** A turn returns only on a matching record with status [success]. *)
Lemma inspect_returns (taskName : string) (returnOutput : bool) (r : response)
      (out : option string) :
  inspect taskName returnOutput r = Ok (Some out) -> matching_success taskName r.
Proof.
  unfold inspect, matching_success.
  destruct (Z.eqb_spec (status_code r) ok) as [Hok | Hok]; [| discriminate].
  destruct (getitem (content r) "Task") as [task |] eqn:Htask; simpl; [| discriminate].
  destruct (if returnOutput then _ else _) as [output |]; simpl; [| discriminate].
  destruct (getitem task "@operationName") as [opn |] eqn:Hopn; simpl; [| discriminate].
  destruct (contained taskName opn) as [[|] |] eqn:Hin; simpl; try discriminate.
  destruct (getitem task "@status") as [st |] eqn:Hst; simpl; [| discriminate].
  destruct (eq_str st "success") eqn:Hs.
  - intros _. split; [exact Hok |]. exists task, opn, st. auto.
  - destruct (eq_str st "error"); [| discriminate].
    destruct (getitem task "Details"); discriminate.
Qed.

(** A matching record with status [success] makes the turn return. *)
Lemma matching_success_returns (taskName : string) (returnOutput : bool) (r : response) :
  matching_success taskName r ->
  (returnOutput = true -> has_operation_text r) ->
  exists out, inspect taskName returnOutput r = Ok (Some out).
Proof.
  intros (Hok & task & opn & st & Htask & Hopn & Hin & Hst & Hs) Hout.
  unfold inspect. rewrite Hok, Z.eqb_refl, Htask. simpl.
  destruct returnOutput.
  - destruct (Hout eq_refl) as (task' & text & Htask' & Hop).
    rewrite Htask in Htask'. injection Htask' as <-.
    rewrite Hop. simpl. rewrite Hopn. simpl. rewrite Hin, Hst. simpl. rewrite Hs.
    eexists. reflexivity.
  - simpl. rewrite Hopn. simpl. rewrite Hin, Hst. simpl. rewrite Hs.
    eexists. reflexivity.
Qed.

(** A record of another operation is passed over. *)
Lemma other_task_passed_over (taskName : string) (returnOutput : bool) (r : response) :
  other_task taskName returnOutput r -> inspect taskName returnOutput r = Ok None.
Proof.
  intros (Hok & task & opn & Htask & Hopn & Hin & Hout).
  unfold inspect. rewrite Hok, Z.eqb_refl, Htask. simpl.
  destruct returnOutput.
  - destruct (Hout eq_refl) as (text & Hop). rewrite Hop. simpl.
    rewrite Hopn. simpl. rewrite Hin. reflexivity.
  - simpl. rewrite Hopn. simpl. rewrite Hin. reflexivity.
Qed.

(** The loop returns a value only after it fetched a matching record
    with status [success]. *)
Lemma wait_returns (fuel : nat) :
  forall (timeout : Z) (taskUrl : url) (taskName : string) (returnOutput : bool)
         (i : io) (out : option string),
    fst (wait fuel timeout taskUrl taskName returnOutput i) = Returns out ->
    exists k, (k < fuel)%nat /\
              matching_success taskName (response_in k i) /\
              served (snd (wait fuel timeout taskUrl taskName returnOutput i))
              = S (served i + k).
Proof.
  induction fuel as [| fuel IH]; intros timeout taskUrl taskName returnOutput i out.
  - simpl. destruct (timeout <? T)%Z; discriminate.
  - rewrite wait_turn. destruct (timeout <? T)%Z; [| discriminate].
    destruct (inspect taskName returnOutput (next_response i)) as [[r |] | e] eqn:Hi.
    + intros _. exists 0%nat. split; [lia |]. split.
      * unfold response_in. rewrite Nat.add_0_r. eapply inspect_returns. exact Hi.
      * simpl. lia.
    + intros H. destruct (IH _ _ _ _ _ _ H) as (k & Hk & Hm & Hs).
      exists (S k). split; [lia |]. split.
      * rewrite <- (response_in_slept taskUrl). exact Hm.
      * rewrite Hs. destruct (slept_spec taskUrl i) as [-> _]. lia.
    + discriminate.
Qed.

(** With a positive interval the loop needs at most [turns T I] turns. *)
Lemma turns_cover : (0 < I)%Z -> (T <= Z.of_nat (turns T I) * I)%Z.
Proof.
  intros HI. unfold turns.
  destruct (Z.le_gt_cases T 0) as [HT | HT].
  - assert (0 <= Z.of_nat (Z.to_nat ((T + I - 1) / I)) * I)%Z by nia. lia.
  - assert (Hq : (0 <= (T + I - 1) / I)%Z) by (apply Z.div_pos; lia).
    rewrite Z2Nat.id by exact Hq.
    pose proof (Z.div_mod (T + I - 1) I ltac:(lia)) as Hdm.
    pose proof (Z.mod_pos_bound (T + I - 1) I HI) as Hb.
    nia.
Qed.

Lemma before_deadline_lt_turns (k : nat) :
  (0 < I)%Z -> (Z.of_nat k * I < T)%Z -> (k < turns T I)%nat.
Proof.
  intros HI Hk. unfold turns.
  assert (HT : (0 < T)%Z) by nia.
  assert (Hq : (0 <= (T + I - 1) / I)%Z) by (apply Z.div_pos; lia).
  apply Nat2Z.inj_lt. rewrite Z2Nat.id by exact Hq.
  pose proof (Z.div_mod (T + I - 1) I ltac:(lia)) as Hdm.
  pose proof (Z.mod_pos_bound (T + I - 1) I HI) as Hb.
  nia.
Qed.

Lemma wait_total (fuel : nat) :
  (0 < I)%Z ->
  forall (timeout : Z) (taskUrl : url) (taskName : string) (returnOutput : bool) (i : io),
    (T - timeout <= Z.of_nat fuel * I)%Z ->
    fst (wait fuel timeout taskUrl taskName returnOutput i) <> OutOfFuel.
Proof.
  intros HI. induction fuel as [| fuel IH]; intros timeout taskUrl taskName returnOutput i Hf.
  - rewrite wait_past_deadline by lia. discriminate.
  - rewrite wait_turn. destruct (timeout <? T)%Z; [| discriminate].
    destruct (inspect taskName returnOutput (next_response i)) as [[r |] | e];
      try discriminate.
    apply IH. lia.
Qed.

Lemma wait_times_out (fuel : nat) :
  (0 < I)%Z ->
  forall (timeout : Z) (taskUrl : url) (taskName : string) (returnOutput : bool) (i : io),
    (T - timeout <= Z.of_nat fuel * I)%Z ->
    (forall k, (timeout + Z.of_nat k * I < T)%Z ->
               inspect taskName returnOutput (response_in k i) = Ok None) ->
    fst (wait fuel timeout taskUrl taskName returnOutput i) = Raises (timed_out taskName).
Proof.
  intros HI. induction fuel as [| fuel IH];
    intros timeout taskUrl taskName returnOutput i Hf Hpending.
  - rewrite wait_past_deadline by lia. reflexivity.
  - rewrite wait_turn. destruct (Z.ltb_spec timeout T) as [Hlt | Hge]; [| reflexivity].
    assert (H0 : inspect taskName returnOutput (next_response i) = Ok None).
    { specialize (Hpending 0%nat). unfold response_in in Hpending.
      rewrite Nat.add_0_r in Hpending. apply Hpending. simpl. lia. }
    rewrite H0. apply IH; [lia |].
    intros k Hk. rewrite response_in_slept. apply Hpending. lia.
Qed.

Lemma wait_succeeds (k : nat) :
  (0 < I)%Z ->
  forall (fuel : nat) (timeout : Z) (taskUrl : url) (taskName : string)
         (returnOutput : bool) (i : io) (out : option string),
    (k < fuel)%nat ->
    (timeout + Z.of_nat k * I < T)%Z ->
    (forall j, (j < k)%nat -> inspect taskName returnOutput (response_in j i) = Ok None) ->
    inspect taskName returnOutput (response_in k i) = Ok (Some out) ->
    fst (wait fuel timeout taskUrl taskName returnOutput i) = Returns out.
Proof.
  intros HI. induction k as [| k IH];
    intros fuel timeout taskUrl taskName returnOutput i out Hfuel Hk Hbefore Hat;
    (destruct fuel as [| fuel]; [lia |]); rewrite wait_turn;
    (destruct (Z.ltb_spec timeout T) as [Hlt | Hge]; [| nia]).
  - unfold response_in in Hat. rewrite Nat.add_0_r in Hat. fold (next_response i) in Hat.
    rewrite Hat. reflexivity.
  - assert (H0 : inspect taskName returnOutput (next_response i) = Ok None).
    { specialize (Hbefore 0%nat ltac:(lia)). unfold response_in in Hbefore.
      rewrite Nat.add_0_r in Hbefore. exact Hbefore. }
    rewrite H0. apply IH.
    + lia.
    + lia.
    + intros j Hj. rewrite response_in_slept. apply Hbefore. lia.
    + rewrite response_in_slept. exact Hat.
Qed.

Lemma try_except_plain {S A} (m : SE S A) (s : S) :
  try_except_reraise m (ret tt) s = m s.
Proof.
  unfold try_except_reraise, ret. destruct (m s) as [[a | e |] s']; reflexivity.
Qed.

(** [_checkTaskStatus] is the guard followed by the loop. *)
Lemma checkTaskStatus_cases (fuel : nat) (taskUrl : url) (taskName : string)
      (returnOutput : bool) (w : vcd) :
  exists w', remote (world w') = remote (world w) /\
    (served (world w) < served (world w'))%nat /\
    (_checkTaskStatus T I fuel taskUrl taskName returnOutput w =
       lift (wait fuel 0 taskUrl taskName returnOutput) w' \/
     exists e, _checkTaskStatus T I fuel taskUrl taskName returnOutput w = (Raises e, w')).
Proof.
  unfold _checkTaskStatus, method_of. simpl.
  destruct (guard_cases
              (try_except_reraise (lift (wait fuel 0 taskUrl taskName returnOutput)) (ret tt)) w)
    as (w' & _ & _ & _ & _ & _ & Hrem & Hsv & [Hrun | (_ & e & _ & Hrun)]).
  - exists w'. split; [exact Hrem |]. split; [exact Hsv |].
    left. rewrite Hrun. apply try_except_plain.
  - exists w'. split; [exact Hrem |]. split; [exact Hsv |].
    right. exists e. exact Hrun.
Qed.

(** C4.  [_checkTaskStatus] returns a value only if the last record it
    fetched, after the probe of its guard, was answered with 200, carries
    an operation name that contains the expected task name, and has
    status [success].  A record of another operation ends nothing: after
    it the loop sleeps and goes on with the next turn. *)
Theorem checkTaskStatus_completes_on_matching_success_only
        (fuel : nat) (timeout : Z) (taskUrl : url) (taskName : string)
        (returnOutput : bool) (w : vcd) :
  (forall out,
      fst (_checkTaskStatus T I fuel taskUrl taskName returnOutput w) = Returns out ->
      let last :=
        pred (served (world (snd (_checkTaskStatus T I fuel taskUrl taskName returnOutput w)))) in
      (served (world w) < last)%nat /\
      matching_success taskName (remote (world w) last)) /\
  ((timeout < T)%Z ->
   other_task taskName returnOutput (next_response (world w)) ->
   wait (S fuel) timeout taskUrl taskName returnOutput (world w) =
   wait fuel (timeout + I) taskUrl taskName returnOutput (slept taskUrl (world w))).
Proof.
  split.
  - intros out Hout.
    destruct (checkTaskStatus_cases fuel taskUrl taskName returnOutput w)
      as (w' & Hrem & Hsv & [Hrun | (e & Hrun)]); rewrite Hrun in Hout |- *;
      [| discriminate].
    destruct (lift_world (wait fuel 0 taskUrl taskName returnOutput) w') as [Hsnd Hfst].
    rewrite Hfst in Hout. rewrite Hsnd.
    destruct (wait_returns fuel _ _ _ _ _ _ Hout) as (k & _ & Hm & Hlast).
    rewrite Hlast. cbn [pred]. split; [lia |]. rewrite <- Hrem. exact Hm.
  - intros Hlt Hother. rewrite wait_turn.
    destruct (Z.ltb_spec timeout T) as [_ | Hge]; [| lia].
    rewrite (other_task_passed_over _ _ _ Hother). reflexivity.
Qed.

(** Each turn sends one request: [n] turns that cover what is left of
    the deadline bound the requests of the loop. *)
Lemma wait_requests_bound (fuel : nat) :
  (0 < I)%Z ->
  forall (n : nat) (timeout : Z) (taskUrl : url) (taskName : string)
         (returnOutput : bool) (i : io),
    (T - timeout <= Z.of_nat n * I)%Z ->
    (served (snd (wait fuel timeout taskUrl taskName returnOutput i)) <= served i + n)%nat.
Proof.
  intros HI. induction fuel as [| fuel IH];
    intros n timeout taskUrl taskName returnOutput i Hn.
  - simpl. destruct (timeout <? T)%Z; simpl; lia.
  - rewrite wait_turn. destruct (Z.ltb_spec timeout T) as [Hlt | Hge]; [| simpl; lia].
    destruct n as [| n]; [lia |].
    destruct (inspect taskName returnOutput (next_response i)) as [[r |] | e];
      try (simpl; lia).
    specialize (IH n (timeout + I)%Z taskUrl taskName returnOutput (slept taskUrl i)
                   ltac:(lia)).
    destruct (slept_spec taskUrl i) as [Hs _]. rewrite Hs in IH. lia.
Qed.

(** [_checkTaskStatus] when its decorator gets to the loop. *)
Lemma checkTaskStatus_guard_passes (fuel : nat) (taskUrl : url) (taskName : string)
      (returnOutput : bool) (w : vcd) :
  guard_passes w ->
  _checkTaskStatus T I fuel taskUrl taskName returnOutput w =
  lift (wait fuel 0 taskUrl taskName returnOutput) (guard_leaves w).
Proof.
  intros Hpass. unfold _checkTaskStatus, method_of. simpl.
  rewrite (guard_passes_run _ w Hpass). apply try_except_plain.
Qed.

(** The decorator gets to the loop or ends with the exception of the
    login. *)
Lemma guard_passes_or_raises (w : vcd) :
  guard_passes w \/
  (status_code (next_response (world w)) <> ok /\
   exists e, fst (vcdLogin (world (after_probe w))) = Raises e).
Proof.
  destruct (Z.eq_dec (status_code (next_response (world w))) ok) as [Hok | Hno].
  - left. left. exact Hok.
  - pose proof (vcdLogin_returns (world (after_probe w))) as Hends.
    destruct (fst (vcdLogin (world (after_probe w)))) as [session | e |] eqn:Hlogin.
    + left. right. exists session. exact Hlogin.
    + right. split; [exact Hno |]. exists e. reflexivity.
    + contradiction.
Qed.

(** C5.  With a positive interval, [turns T I] turns are enough for
    [_checkTaskStatus] to end, whatever the remote system answers, and
    it ends after at most [turns T I] requests of its loop.  The records
    of the loop are the answers that follow the requests of the
    decorator.  When the decorator gets to the loop and every record
    fetched before the deadline leaves the loop waiting, the method
    raises the timeout error, which names the task.  When the first
    record that does not is a matching success fetched before the
    deadline, the method returns. *)
Theorem checkTaskStatus_ends_by_the_deadline
        (fuel : nat) (taskUrl : url) (taskName : string) (returnOutput : bool) (w : vcd) :
  (0 < I)%Z ->
  (turns T I <= fuel)%nat ->
  let run := _checkTaskStatus T I fuel taskUrl taskName returnOutput w in
  let polled := fun k : nat => response_in k (world (guard_leaves w)) in
  fst run <> OutOfFuel /\
  (served (world (snd run)) <= served (world (guard_leaves w)) + turns T I)%nat /\
  (guard_passes w ->
   (forall k, (Z.of_nat k * I < T)%Z ->
              inspect taskName returnOutput (polled k) = Ok None) ->
   fst run = Raises (timed_out taskName)) /\
  (guard_passes w ->
   forall k,
     (Z.of_nat k * I < T)%Z ->
     (forall j, (j < k)%nat -> inspect taskName returnOutput (polled j) = Ok None) ->
     matching_success taskName (polled k) ->
     (returnOutput = true -> has_operation_text (polled k)) ->
     exists out, fst run = Returns out).
Proof.
  intros HI Hfuel run polled. subst run polled.
  assert (Hturns : (T - 0 <= Z.of_nat (turns T I) * I)%Z).
  { pose proof (turns_cover HI). lia. }
  assert (Hcover : (T - 0 <= Z.of_nat fuel * I)%Z).
  { pose proof (turns_cover HI). nia. }
  destruct (lift_world (wait fuel 0 taskUrl taskName returnOutput) (guard_leaves w))
    as [Hsnd Hfst].
  split; [| split; [| split]].
  - destruct (guard_passes_or_raises w) as [Hpass | (Hno & e & Hlogin)].
    + rewrite (checkTaskStatus_guard_passes _ _ _ _ _ Hpass), Hfst.
      apply wait_total; assumption.
    + unfold _checkTaskStatus, method_of. simpl.
      destruct (guard_run
                  (try_except_reraise (lift (wait fuel 0 taskUrl taskName returnOutput))
                                      (ret tt)) w) as (_ & _ & Hraise).
      rewrite (Hraise Hno e Hlogin). discriminate.
  - destruct (guard_passes_or_raises w) as [Hpass | (Hno & e & Hlogin)].
    + rewrite (checkTaskStatus_guard_passes _ _ _ _ _ Hpass), Hsnd.
      apply wait_requests_bound; assumption.
    + unfold _checkTaskStatus, method_of. simpl.
      destruct (guard_run
                  (try_except_reraise (lift (wait fuel 0 taskUrl taskName returnOutput))
                                      (ret tt)) w) as (_ & _ & Hraise).
      rewrite (Hraise Hno e Hlogin). simpl. lia.
  - intros Hpass Hpending.
    rewrite (checkTaskStatus_guard_passes _ _ _ _ _ Hpass), Hfst.
    apply wait_times_out; [exact HI | exact Hcover |].
    intros k Hk. apply Hpending. lia.
  - intros Hpass k Hk Hbefore Hm Htext.
    destruct (matching_success_returns taskName returnOutput _ Hm Htext) as (out & Hout).
    exists out. pose proof (before_deadline_lt_turns k HI Hk) as Hturn.
    rewrite (checkTaskStatus_guard_passes _ _ _ _ _ Hpass), Hfst.
    apply (wait_succeeds k HI); try assumption; lia.
Qed.

End PollerProperties.

(** One record of another operation, two running records, then success:
    the poller returns, and the success record is the one it found. *)
Lemma checkTaskStatus_slow_task_completes :
  matching_success "vappUpdateVmAffinityRule" (guarded_slow_task 4) /\
  wait 30 5 6 0 (Href "task/7f3") "vappUpdateVmAffinityRule" false (fresh_io slow_task) =
  wait 30 5 5 5 (Href "task/7f3") "vappUpdateVmAffinityRule" false
       (slept 5 (Href "task/7f3") (fresh_io slow_task)).
Proof.
  split.
  - apply (proj1 (checkTaskStatus_completes_on_matching_success_only
                    30 5 6 0 (Href "task/7f3") "vappUpdateVmAffinityRule" false
                    (fresh guarded_slow_task))
                 None).
    reflexivity.
  - apply (proj2 (checkTaskStatus_completes_on_matching_success_only
                    30 5 5 0 (Href "task/7f3") "vappUpdateVmAffinityRule" false
                    (fresh slow_task))).
    + reflexivity.
    + split; [reflexivity |].
      eexists _, _. repeat split; try reflexivity. discriminate.
Defined.

(** With a deadline of 30 seconds and an interval of 5, six turns are
    enough.  The session probe is answered with 200 in both runs.  A
    task that stays running makes the method raise the timeout error
    after six records; a task that succeeds at the fourth record makes
    it return. *)
Lemma checkTaskStatus_deadline_30_interval_5 :
  let stuck := _checkTaskStatus 30 5 6 (Href "task/7f3") "vappUpdateVmAffinityRule" false
                 (fresh stuck_task) in
  let slow := _checkTaskStatus 30 5 6 (Href "task/7f3") "vappUpdateVmAffinityRule" false
                (fresh guarded_slow_task) in
  (0 < 5)%Z /\ (turns 30 5 <= 6)%nat /\
  guard_passes (fresh stuck_task) /\
  fst stuck = Raises (timed_out "vappUpdateVmAffinityRule") /\
  (served (world (snd stuck)) <= 1 + 6)%nat /\
  guard_passes (fresh guarded_slow_task) /\
  (exists out, fst slow = Returns out).
Proof.
  intros stuck slow.
  assert (H5 : (0 < 5)%Z) by lia.
  assert (H6 : (turns 30 5 <= 6)%nat) by (vm_compute; lia).
  assert (Hstuck : guard_passes (fresh stuck_task)) by (left; reflexivity).
  assert (Hslow : guard_passes (fresh guarded_slow_task)) by (left; reflexivity).
  destruct (checkTaskStatus_ends_by_the_deadline
              30 5 6 (Href "task/7f3") "vappUpdateVmAffinityRule" false
              (fresh stuck_task) H5 H6)
    as (_ & Hbound & Htimeout & _).
  destruct (checkTaskStatus_ends_by_the_deadline
              30 5 6 (Href "task/7f3") "vappUpdateVmAffinityRule" false
              (fresh guarded_slow_task) H5 H6)
    as (_ & _ & _ & Hsuccess).
  split; [exact H5 |]. split; [exact H6 |]. split; [exact Hstuck |].
  split; [| split; [exact Hbound | split; [exact Hslow |]]].
  - apply Htimeout; [exact Hstuck |]. intros k _. reflexivity.
  - apply (Hsuccess Hslow 3%nat).
    + lia.
    + intros j Hj. destruct j as [| [| [| j]]]; try lia; reflexivity.
    + split; [reflexivity |].
      eexists _, _, _. repeat split; reflexivity.
    + discriminate.
Defined.

(** ** The rollback flags and the driver *)

Lemma flags_kept_refl (w : vcd) : flags_kept w w.
Proof. split; auto. Qed.

Lemma flags_kept_trans (a b c : vcd) : flags_kept a b -> flags_kept b c -> flags_kept a c.
Proof. intros [H1 H2] [G1 G2]. split; auto. Qed.

Lemma keeps_self_flags_kept {A} (m : M A) (w : vcd) : keeps_self m -> flags_kept w (snd (m w)).
Proof. intros H. destruct (H w) as (H1 & H2 & _). split; congruence. Qed.

(** An [except] clause only sets flags; the silent ones do nothing. *)
Lemma except_clause_spec (m : method) (w : vcd) :
  exists w',
    except_clause m w = (Returns tt, w') /\
    calls w' = calls w /\ world w' = world w /\ flags_kept w w' /\
    (silent m = true -> w' = w).
Proof.
  destruct m; simpl;
    unfold ret, bind, set_ENABLE_SOURCE_ORG_VDC, set_ENABLE_AFFINITY_RULES_IN_SOURCE_VAPP;
    simpl; eexists; (split; [reflexivity |]); simpl;
    repeat split; auto; try discriminate.
Qed.

(** The function under the decorator: the block, then the clause when
    the block raised. *)
Lemma try_block_spec {A} (m : method) (block : SE io A) (w : vcd) :
  let run := try_except_reraise (lift block) (except_clause m) w in
  calls (snd run) = calls w /\
  flags_kept w (snd run) /\
  world (snd run) = snd (block (world w)) /\
  (silent m = true ->
   ENABLE_SOURCE_ORG_VDC (snd run) = ENABLE_SOURCE_ORG_VDC w /\
   ENABLE_AFFINITY_RULES_IN_SOURCE_VAPP (snd run) = ENABLE_AFFINITY_RULES_IN_SOURCE_VAPP w).
Proof.
  intros run. subst run. unfold try_except_reraise.
  destruct (lift_keeps_self block w) as (H1 & H2 & H3).
  destruct (lift_world block w) as (Hw & _).
  destruct (lift block w) as [[a | e |] w1]; simpl in *.
  - repeat split; auto; congruence.
  - destruct (except_clause_spec m w1) as (w2 & Hrun & Hc & Hwo & [K1 K2] & Hs).
    rewrite Hrun. simpl. repeat split.
    + congruence.
    + intros F. apply K1. congruence.
    + intros F. apply K2. congruence.
    + congruence.
    + rewrite (Hs H). congruence.
    + rewrite (Hs H). congruence.
  - repeat split; auto; congruence.
Qed.

(** A method, decorated or not: it never resets a flag, never touches
    the call log, and sets no flag when its clause is silent. *)
Lemma method_of_spec {A} (m : method) (block : SE io A) (w : vcd) :
  let run := method_of m block w in
  calls (snd run) = calls w /\
  flags_kept w (snd run) /\
  (silent m = true ->
   ENABLE_SOURCE_ORG_VDC (snd run) = ENABLE_SOURCE_ORG_VDC w /\
   ENABLE_AFFINITY_RULES_IN_SOURCE_VAPP (snd run) = ENABLE_AFFINITY_RULES_IN_SOURCE_VAPP w).
Proof.
  intros run. subst run. unfold method_of.
  destruct (decorated m).
  - destruct (guard_cases (try_except_reraise (lift block) (except_clause m)) w)
      as (w' & _ & F1 & F2 & Hc & _ & _ & _ & [Hrun | (_ & e & _ & Hrun)]); rewrite Hrun.
    + destruct (try_block_spec m block w') as (G1 & [G2 G3] & _ & G4).
      repeat split; try congruence.
      * intros F. apply G2. congruence.
      * intros F. apply G3. congruence.
      * destruct (G4 H). congruence.
      * destruct (G4 H). congruence.
    + simpl. repeat split; congruence.
  - destruct (try_block_spec m block w) as (G1 & G2 & _ & G4). auto.
Qed.

(** [enableSourceOrgVdc] is its block: no decorator, a silent clause. *)
Lemma enableSourceOrgVdc_unfold (id : json) (w : vcd) :
  enableSourceOrgVdc id w = lift (enableSourceOrgVdc_try id) w.
Proof. unfold enableSourceOrgVdc, method_of. simpl. apply try_except_plain. Qed.

Section DriverProperties.

Variable block : method -> SE io json.

Lemma call_spec (m : method) (w : vcd) :
  let run := call block m w in
  calls (snd run) = (calls w ++ [m])%list /\
  flags_kept w (snd run) /\
  (silent m = true ->
   ENABLE_SOURCE_ORG_VDC (snd run) = ENABLE_SOURCE_ORG_VDC w /\
   ENABLE_AFFINITY_RULES_IN_SOURCE_VAPP (snd run) = ENABLE_AFFINITY_RULES_IN_SOURCE_VAPP w).
Proof.
  intros run. subst run. unfold call, bind, calling. simpl.
  set (w1 := Vcd _ _ _ _).
  destruct (method_of_spec m (block m) w1) as (H1 & H2 & H3).
  repeat split.
  - rewrite H1. reflexivity.
  - apply H2.
  - apply H2.
  - apply (H3 H).
  - apply (H3 H).
Qed.

Lemma run_steps_flags_kept (steps : list method) :
  forall id w, flags_kept w (snd (run_steps block steps id w)).
Proof.
  induction steps as [| m rest IH]; intros id w; simpl.
  - apply flags_kept_refl.
  - destruct (call_spec m w) as (_ & Hk & _).
    destruct (call block m w) as [[v | e |] w1]; simpl in *; auto.
    eapply flags_kept_trans; [exact Hk | apply IH].
Qed.

(** As long as [sourceOrgVDCId] is unassigned no flag is set, when the
    run starts with both flags unset. *)
Lemma run_steps_bound (steps : list method) :
  forall id w r id' wf,
    run_steps block steps id w = (r, id', wf) ->
    (id = None ->
     quiet_until_bound steps = true /\
     ENABLE_SOURCE_ORG_VDC w = false /\
     ENABLE_AFFINITY_RULES_IN_SOURCE_VAPP w = false) ->
    (id' = None ->
     ENABLE_SOURCE_ORG_VDC wf = false /\
     ENABLE_AFFINITY_RULES_IN_SOURCE_VAPP wf = false) /\
    (id <> None -> id' <> None).
Proof.
  induction steps as [| m rest IH]; intros id w r id' wf Hrun Hinv; simpl in Hrun.
  - injection Hrun as <- <- <-. split; [| auto].
    intros Hn. destruct (Hinv Hn) as (_ & H1 & H2). auto.
  - destruct (call_spec m w) as (_ & _ & Hsilent).
    destruct (call block m w) as [[v | e |] w1] eqn:Hcall; simpl in *.
    + destruct (IH _ _ _ _ _ Hrun) as [IH1 IH2].
      * intros Hn. destruct id as [x |].
        { destruct (binds_sourceOrgVDCId m); discriminate. }
        destruct (Hinv eq_refl) as (Hq & F1 & F2).
        apply andb_prop in Hq. destruct Hq as [Hs Hq].
        destruct (binds_sourceOrgVDCId m); [discriminate |]. simpl in Hq.
        destruct (Hsilent Hs). repeat split; congruence.
      * split; [exact IH1 |].
        intros Hid. apply IH2. destruct (binds_sourceOrgVDCId m); [discriminate | exact Hid].
    + injection Hrun as <- <- <-. split; [| auto].
      intros Hn. destruct (Hinv Hn) as (Hq & F1 & F2).
      apply andb_prop in Hq. destruct Hq as [Hs _].
      destruct (Hsilent Hs). split; congruence.
    + injection Hrun as <- <- <-. split; [| auto].
      intros Hn. destruct (Hinv Hn) as (Hq & F1 & F2).
      apply andb_prop in Hq. destruct Hq as [Hs _].
      destruct (Hsilent Hs). split; congruence.
Qed.

(** The first compensation, by cases. *)
Lemma rollback_source_org_vdc_spec (id : option json) (wf : vcd) :
  let run := rollback_source_org_vdc id wf in
  ENABLE_AFFINITY_RULES_IN_SOURCE_VAPP (snd run) = ENABLE_AFFINITY_RULES_IN_SOURCE_VAPP wf /\
  ENABLE_SOURCE_ORG_VDC (snd run) = ENABLE_SOURCE_ORG_VDC wf /\
  match ENABLE_SOURCE_ORG_VDC wf, id with
  | false, _ => run = (Returns tt, wf)
  | true, None => run = (Raises (UnboundLocalError "sourceOrgVDCId"), wf)
  | true, Some v => calls (snd run) = (calls wf ++ [EnableSourceOrgVdc])%list
  end.
Proof.
  intros run. subst run.
  unfold rollback_source_org_vdc, bind, get_ENABLE_SOURCE_ORG_VDC. simpl.
  destruct (ENABLE_SOURCE_ORG_VDC wf) eqn:Hflag; [| unfold ret; simpl; auto].
  destruct id as [v |]; unfold of_result, local; simpl; [| auto].
  unfold calling. simpl. set (w1 := Vcd _ _ _ _).
  destruct (method_of_spec EnableSourceOrgVdc (enableSourceOrgVdc_try v) w1)
    as (H1 & _ & H3).
  destruct (H3 eq_refl) as [H4 H5]. fold (enableSourceOrgVdc v) in *.
  rewrite H4, H5, H1. subst w1. simpl. auto.
Qed.

(** The second compensation, by cases. *)
Lemma rollback_affinity_rules_spec (id : option json) (w1 : vcd) :
  let run := rollback_affinity_rules block id w1 in
  match ENABLE_AFFINITY_RULES_IN_SOURCE_VAPP w1, id with
  | false, _ => run = (Returns tt, w1)
  | true, None => run = (Raises (UnboundLocalError "sourceOrgVDCId"), w1)
  | true, Some v =>
      calls (snd run) = (calls w1 ++ [EnableOrDisableSourceAffinityRules true])%list
  end.
Proof.
  intros run. subst run.
  unfold rollback_affinity_rules, bind, get_ENABLE_AFFINITY_RULES_IN_SOURCE_VAPP. simpl.
  destruct (ENABLE_AFFINITY_RULES_IN_SOURCE_VAPP w1) eqn:Hflag; [| reflexivity].
  destruct id as [v |]; unfold of_result, local; simpl; [| reflexivity].
  destruct (call_spec (EnableOrDisableSourceAffinityRules true) w1) as (H1 & _).
  destruct (call block (EnableOrDisableSourceAffinityRules true) w1) as [[a | e |] w2];
    simpl in *; exact H1.
Qed.

Lemma rollback_unfold {A} (id : option json) (err : exn) (wf : vcd) :
  @rollback block A id err wf =
  match rollback_source_org_vdc id wf with
  | (Returns _, w1) =>
      match rollback_affinity_rules block id w1 with
      | (Returns _, w2) => (Raises err, w2)
      | (Raises e, w2) => (Raises e, w2)
      | (OutOfFuel, w2) => (OutOfFuel, w2)
      end
  | (Raises e, w1) => (Raises e, w1)
  | (OutOfFuel, w1) => (OutOfFuel, w1)
  end.
Proof.
  unfold rollback, bind, raise.
  destruct (rollback_source_org_vdc id wf) as [[u | e |] w1]; reflexivity.
Qed.

Lemma rollback_flags_kept {A} (id : option json) (err : exn) (wf : vcd) :
  flags_kept wf (snd (@rollback block A id err wf)).
Proof.
  rewrite rollback_unfold.
  destruct (rollback_source_org_vdc_spec id wf) as (H1 & H2 & _).
  assert (K1 : flags_kept wf (snd (rollback_source_org_vdc id wf))) by (split; congruence).
  assert (K2 : forall w1, flags_kept w1 (snd (rollback_affinity_rules block id w1))).
  { intros w1. unfold rollback_affinity_rules, bind, get_ENABLE_AFFINITY_RULES_IN_SOURCE_VAPP.
    simpl. destruct (ENABLE_AFFINITY_RULES_IN_SOURCE_VAPP w1) eqn:E;
      [| apply flags_kept_refl].
    destruct id as [v |]; unfold of_result, local; simpl; [| apply flags_kept_refl].
    destruct (call_spec (EnableOrDisableSourceAffinityRules true) w1) as (_ & Hk & _).
    destruct (call block (EnableOrDisableSourceAffinityRules true) w1) as [[a | e |] w2];
      simpl in *; exact Hk. }
  destruct (rollback_source_org_vdc id wf) as [[u | e |] w1]; simpl in *; auto.
  specialize (K2 w1).
  destruct (rollback_affinity_rules block id w1) as [[u' | e |] w2]; simpl in *;
    eapply flags_kept_trans; eauto.
Qed.

Lemma preMigrationValidation_unfold (w : vcd) :
  preMigrationValidation block w =
  match run_steps block pipeline None w with
  | (Returns _, id, w') => of_result (local "sourceOrgVDCId" id) w'
  | (Raises err, id, w') => rollback block id err w'
  | (OutOfFuel, _, w') => (OutOfFuel, w')
  end.
Proof. reflexivity. Qed.

End DriverProperties.

(** C6.  The two rollback flags are write-once-true.  Whatever the
    blocks of the checks do, a flag that is set is still set after any
    method (its decorator, its block and its [except] clause), after any
    call of the driver, after any part of its [try] block, after the
    rollback and after the whole of [preMigrationValidation]. *)
Theorem rollback_flags_are_write_once (block : method -> SE io json) :
  (forall (A : Type) (m : method) (body : SE io A) (w : vcd),
      flags_kept w (snd (method_of m body w))) /\
  (forall (m : method) (w : vcd), flags_kept w (snd (call block m w))) /\
  (forall (steps : list method) (id : option json) (w : vcd),
      flags_kept w (snd (run_steps block steps id w))) /\
  (forall (id : option json) (err : exn) (w : vcd),
      flags_kept w (snd (@rollback block json id err w))) /\
  (forall w : vcd, flags_kept w (snd (preMigrationValidation block w))).
Proof.
  split; [| split; [| split; [| split]]].
  - intros A m body w. apply (method_of_spec m body w).
  - intros m w. apply (call_spec block m w).
  - intros steps id w. apply run_steps_flags_kept.
  - intros id err w. apply rollback_flags_kept.
  - intros w. rewrite preMigrationValidation_unfold.
    pose proof (run_steps_flags_kept block pipeline None w) as Hsteps.
    destruct (run_steps block pipeline None w) as [[[u | err |] id] wf]; simpl in *.
    + exact Hsteps.
    + eapply flags_kept_trans; [exact Hsteps | apply rollback_flags_kept].
    + exact Hsteps.
Qed.

(** C1, as the code has it.  In a run that starts with both flags unset
    and fails, the compensations called by the [except] clause are an
    initial part of the list the flags ask for at the time of the
    failure: [enableSourceOrgVdc] first, the re-enabling of the affinity
    rules second, each at most once and none whose flag is unset.  The
    whole list is called when the first [if] statement of the clause
    completes without raising.  When [enableSourceOrgVdc] raises, it is
    the only compensation called: the re-enabling of the affinity rules
    is not invoked, whatever its flag. *)
Theorem rollback_calls_flagged_compensations_in_order
        (block : method -> SE io json) (w : vcd)
        (err : exn) (id : option json) (wf : vcd) :
  ENABLE_SOURCE_ORG_VDC w = false ->
  ENABLE_AFFINITY_RULES_IN_SOURCE_VAPP w = false ->
  run_steps block pipeline None w = (Raises err, id, wf) ->
  exists done : list method,
    calls (snd (preMigrationValidation block w)) = (calls wf ++ done)%list /\
    done `prefix_of` compensations wf /\
    (fst (rollback_source_org_vdc id wf) = Returns tt -> done = compensations wf) /\
    (forall e, fst (rollback_source_org_vdc id wf) = Raises e ->
               done = [EnableSourceOrgVdc]).
Proof.
  intros Hs0 Ha0 Hrun.
  destruct (run_steps_bound block pipeline None w _ _ _ Hrun) as [Hbound _].
  { intros _. repeat split; auto. }
  rewrite preMigrationValidation_unfold, Hrun, rollback_unfold.
  clear Hrun Hs0 Ha0.
  destruct (rollback_source_org_vdc_spec id wf) as (A1 & A2 & A3).
  unfold compensations.
  destruct (ENABLE_SOURCE_ORG_VDC wf) eqn:Hsrc.
  - destruct id as [v |]; [| destruct (Hbound eq_refl); congruence].
    destruct (rollback_source_org_vdc (Some v) wf) as [[u | e |] w1]; simpl in *.
    + pose proof (rollback_affinity_rules_spec block (Some v) w1) as B.
      rewrite A1 in B. simpl in B.
      destruct (ENABLE_AFFINITY_RULES_IN_SOURCE_VAPP wf).
      * exists [EnableSourceOrgVdc; EnableOrDisableSourceAffinityRules true].
        split; [| split; [reflexivity | split; [reflexivity | discriminate]]].
        destruct (rollback_affinity_rules block (Some v) w1) as [[u' | e |] w2];
          simpl in *; rewrite B, A3, <- app_assoc; reflexivity.
      * exists [EnableSourceOrgVdc]. rewrite B. simpl.
        split; [exact A3 | split; [reflexivity | split; [reflexivity | discriminate]]].
    + exists [EnableSourceOrgVdc]. split; [exact A3 |].
      split; [eexists; reflexivity | split; [discriminate | reflexivity]].
    + exists [EnableSourceOrgVdc]. split; [exact A3 |].
      split; [eexists; reflexivity | split; discriminate].
  - rewrite A3. simpl.
    pose proof (rollback_affinity_rules_spec block id wf) as B. simpl in B.
    destruct (ENABLE_AFFINITY_RULES_IN_SOURCE_VAPP wf) eqn:Haff.
    + destruct id as [v |]; [| destruct (Hbound eq_refl); congruence].
      exists [EnableOrDisableSourceAffinityRules true].
      split; [| split; [reflexivity | split; [reflexivity | discriminate]]].
      destruct (rollback_affinity_rules block (Some v) wf) as [[u' | e |] w2];
        simpl in *; exact B.
    + exists []. rewrite B. simpl. rewrite app_nil_r.
      split; [reflexivity | split; [reflexivity | split; [reflexivity | discriminate]]].
Qed.

(** C1 as stated fails.  The source Org VDC has two edge gateways, so
    both flags are set when the run fails; the remote system refuses the
    re-enabling request, [enableSourceOrgVdc] raises, and the affinity
    rules, whose flag is set, are not re-enabled: that compensation is
    never called. *)
Lemma rollback_affinity_rules_skipped_after_failed_enable :
  match run_steps blocks_two_edge_gateways pipeline None (fresh (probes_then_forbidden 14)) with
  | (Raises err, _, wf) =>
      err = two_edge_gateways /\
      compensations wf = [EnableSourceOrgVdc; EnableOrDisableSourceAffinityRules true] /\
      calls (snd (preMigrationValidation blocks_two_edge_gateways
                    (fresh (probes_then_forbidden 14))))
      = (calls wf ++ [EnableSourceOrgVdc])%list
  | _ => False
  end.
Proof. vm_compute. repeat split. Qed.

(** The same run against a remote system that accepts the re-enabling
    request: both compensations are called, in order. *)
Lemma rollback_two_edge_gateways_compensated :
  let w := fresh (probes_then_no_content 14) in
  let run := run_steps blocks_two_edge_gateways pipeline None w in
  ENABLE_SOURCE_ORG_VDC w = false /\
  ENABLE_AFFINITY_RULES_IN_SOURCE_VAPP w = false /\
  fst (fst run) = Raises two_edge_gateways /\
  fst (rollback_source_org_vdc (snd (fst run)) (snd run)) = Returns tt /\
  calls (snd (preMigrationValidation blocks_two_edge_gateways w))
  = (calls (snd run) ++ [EnableSourceOrgVdc; EnableOrDisableSourceAffinityRules true])%list.
Proof.
  intros w run.
  assert (Hrun : run_steps blocks_two_edge_gateways pipeline None w
                 = (Raises two_edge_gateways, snd (fst run), snd run))
    by (vm_compute; reflexivity).
  assert (Hfirst : fst (rollback_source_org_vdc (snd (fst run)) (snd run)) = Returns tt)
    by (vm_compute; reflexivity).
  destruct (rollback_calls_flagged_compensations_in_order
              blocks_two_edge_gateways w two_edge_gateways (snd (fst run)) (snd run)
              eq_refl eq_refl Hrun) as (done & Hcalls & _ & Hall & _).
  split; [reflexivity |]. split; [reflexivity |].
  split; [vm_compute; reflexivity |]. split; [exact Hfirst |].
  rewrite Hcalls, (Hall Hfirst). vm_compute. reflexivity.
Defined.

(** C2, as the code has it.  A run that failed never returns a value.
    When both [if] statements of the [except] clause complete, the
    driver re-raises the error that triggered the rollback.  An
    exception raised by a compensation is not caught: it reaches the
    caller in place of the triggering error, and when it comes from
    [enableSourceOrgVdc] no further call is made, so the affinity rules
    are not re-enabled. *)
Theorem rollback_reraises_unless_a_compensation_raises
        (block : method -> SE io json) (w : vcd)
        (err : exn) (id : option json) (wf : vcd) :
  run_steps block pipeline None w = (Raises err, id, wf) ->
  let first := rollback_source_org_vdc id wf in
  let second := rollback_affinity_rules block id (snd first) in
  let final := preMigrationValidation block w in
  (forall v, fst final <> Returns v) /\
  (fst first = Returns tt -> fst second = Returns tt -> fst final = Raises err) /\
  (forall e, fst first = Raises e ->
             fst final = Raises e /\ calls (snd final) = calls (snd first)) /\
  (forall e, fst first = Returns tt -> fst second = Raises e -> fst final = Raises e).
Proof.
  intros Hrun first second final. subst first second final.
  rewrite preMigrationValidation_unfold, Hrun, rollback_unfold.
  destruct (rollback_source_org_vdc id wf) as [[u | e1 |] w1]; simpl.
  - destruct (rollback_affinity_rules block id w1) as [[u' | e2 |] w2]; simpl;
      repeat split; try discriminate; try congruence.
  - repeat split; try discriminate; try congruence.
  - repeat split; try discriminate; try congruence.
Qed.

(** C2 as stated fails.  The run finds a shared network; the remote
    system refuses the re-enabling request; the caller receives the
    error of [enableSourceOrgVdc], not the error about the shared
    network, and the re-enabling of the affinity rules, whose flag is
    set, is not attempted. *)
Lemma rollback_failure_replaces_original_error :
  let w := fresh (probes_then_forbidden 17) in
  let run := run_steps blocks_shared_network pipeline None w in
  let final := preMigrationValidation blocks_shared_network w in
  fst (fst run) = Raises shared_network /\
  ENABLE_AFFINITY_RULES_IN_SOURCE_VAPP (snd run) = true /\
  fst final = Raises (Exception "Failed to Enable Source Org VDC: {}"
                                [JStr "Access is forbidden"]) /\
  fst final <> Raises shared_network /\
  ~ In (EnableOrDisableSourceAffinityRules true) (calls (snd final)).
Proof.
  vm_compute. repeat split; try discriminate.
  intros H. repeat (destruct H as [H | H]; [discriminate |]). exact H.
Qed.

(** The same run against a remote system that accepts the re-enabling
    request: the caller receives the error about the shared network. *)
Lemma rollback_shared_network_reraised :
  let w := fresh (probes_then_no_content 17) in
  let run := run_steps blocks_shared_network pipeline None w in
  fst (fst run) = Raises shared_network /\
  fst (preMigrationValidation blocks_shared_network w) = Raises shared_network.
Proof.
  intros w run.
  assert (Hrun : run_steps blocks_shared_network pipeline None w
                 = (Raises shared_network, snd (fst run), snd run))
    by (vm_compute; reflexivity).
  destruct (rollback_reraises_unless_a_compensation_raises
              blocks_shared_network w shared_network (snd (fst run)) (snd run) Hrun)
    as (_ & Hboth & _).
  split; [vm_compute; reflexivity |].
  apply Hboth; vm_compute; reflexivity.
Defined.

(** ** The shared document *)

Lemma merged_app (d : gmap string json) (f1 f2 : list (string * json)) :
  merged d (f1 ++ f2) = merged (merged d f1) f2.
Proof. unfold merged. apply fold_left_app. Qed.

Lemma extends_refl (keys : list string) (d : gmap string json) : extends keys d d.
Proof. exists []. split; [constructor | reflexivity]. Qed.

Lemma extends_trans (keys : list string) (a b c : gmap string json) :
  extends keys a b -> extends keys b c -> extends keys a c.
Proof.
  intros (f1 & H1 & ->) (f2 & H2 & ->). exists (f1 ++ f2)%list.
  split; [apply Forall_app; auto | symmetry; apply merged_app].
Qed.

Lemma extends_insert (keys : list string) (d : gmap string json) (k : string) (v : json) :
  k ∈ keys -> extends keys d (<[ k := v ]> d).
Proof.
  intros Hk. exists [(k, v)]. split; [| reflexivity].
  constructor; [exact Hk | constructor].
Qed.

Lemma extends_mono (keys keys' : list string) (d d' : gmap string json) :
  (forall k, k ∈ keys -> k ∈ keys') -> extends keys d d' -> extends keys' d d'.
Proof.
  intros Hsub (facts & Hf & ->). exists facts. split; [| reflexivity].
  eapply Forall_impl; [exact Hf |]. intros kv. apply Hsub.
Qed.

(** Facts written under other keys leave a key as it was. *)
Lemma merged_frame (facts : list (string * json)) :
  forall (keys : list string) (d : gmap string json) (k : string),
    Forall (fun kv => fst kv ∈ keys) facts -> k ∉ keys ->
    merged d facts !! k = d !! k.
Proof.
  induction facts as [| [k' v] rest IH]; intros keys d k Hf Hk; [reflexivity |].
  inversion Hf as [| ? ? Hhead Htail]; subst. simpl in *.
  change (merged (<[ k' := v ]> d) rest !! k = d !! k).
  rewrite (IH keys _ k Htail Hk). apply lookup_insert_ne.
  intros ->. contradiction.
Qed.

Lemma is_empty_spec (data : gmap string json) : is_empty data = true -> data = ∅.
Proof.
  unfold is_empty. destruct (map_to_list data) eqn:H; [| discriminate].
  intros _. apply map_to_list_empty_iff. exact H.
Qed.

(** Steps through a block: every [match] on an outcome is split. *)
Ltac split_matches :=
  repeat match goal with
         | |- context [match ?x with _ => _ end] =>
             lazymatch x with
             | context [match _ with _ => _ end] => fail
             | _ => destruct x eqn:?
             end
         end.

Ltac unfold_block :=
  unfold bind, ret, raise, of_result, rest, discard, json_load, json_dump, path_exists,
    and_then, item in *; cbn [fst snd apiOutput doc_of default] in *.

(** What a [match] on the file of a known state tells. *)
Ltac read_file :=
  repeat match goal with
         | H : apiOutput (Io _ _ _ _ _ _ _) = _ |- _ =>
             cbn [apiOutput] in H;
             first [discriminate H | injection H as <- | injection H as -> ]
         end.

(** The file is as it was. *)
Ltac unchanged :=
  cbn [fst snd apiOutput doc_of];
  repeat match goal with
         | H : apiOutput _ = _ |- _ => rewrite H
         end;
  cbn [default from_option]; apply extends_refl.

(** The file is as it was, but for one fact under a key of the list. *)
Ltac inserted :=
  cbn [fst snd apiOutput doc_of];
  repeat match goal with
         | H : apiOutput _ = _ |- _ => rewrite H
         end;
  cbn [default from_option]; apply extends_insert; set_solver.

(** What a block stores: the facts it is to store when it returns, and
    nothing under another key whatever it does. *)

Lemma extends_merged (facts : list (string * json)) (d : gmap string json) :
  extends (map fst facts) d (merged d facts).
Proof.
  exists facts. split; [| reflexivity].
  apply Forall_forall. intros [k v] Hin. cbn [fst].
  apply list_elem_of_In. apply list_elem_of_In in Hin.
  apply (in_map fst) in Hin. exact Hin.
Qed.

(** Facts stored one after the other. *)
Lemma stores_after {A} (R : A -> Prop) (d0 d1 d2 : gmap string json)
      (first second : list (string * json)) :
  d1 = merged d0 first ->
  (forall a, R a -> d2 = merged d1 second) /\ extends (map fst second) d1 d2 ->
  (forall a, R a -> d2 = merged d0 (first ++ second)) /\
  extends (map fst (first ++ second)) d0 d2.
Proof.
  intros -> [Hret Hext]. split.
  - intros a Ha. rewrite merged_app. exact (Hret a Ha).
  - rewrite map_app. eapply extends_trans.
    + eapply extends_mono; [| apply extends_merged].
      intros k Hk. apply elem_of_app. left. exact Hk.
    + eapply extends_mono; [| exact Hext].
      intros k Hk. apply elem_of_app. right. exact Hk.
Qed.

(** Every fact of a list with distinct keys is in the document the list
    was merged into. *)
Lemma merged_lookup (facts : list (string * json)) :
  forall (d : gmap string json) (k : string) (v : json),
    NoDup (map fst facts) -> (k, v) ∈ facts -> merged d facts !! k = Some v.
Proof.
  induction facts as [| [k' v'] others IH]; intros d k v Hdistinct Hin.
  - inversion Hin.
  - cbn [map fst] in Hdistinct. apply NoDup_cons in Hdistinct as [Hfresh Hdistinct].
    change (merged (<[ k' := v' ]> d) others !! k = Some v).
    apply elem_of_cons in Hin as [Hhead | Hin].
    + injection Hhead as -> ->.
      destruct (extends_merged others (<[ k' := v' ]> d)) as (facts & Hkeys & Heq).
      rewrite Heq. rewrite (merged_frame facts (map fst others) _ k' Hkeys Hfresh).
      apply lookup_insert_eq.
    + apply IH; assumption.
Qed.

(** A block that starts with another one. *)
Lemma bind_run {S A B} (m : SE S A) (k : A -> SE S B) (s : S) :
  bind m k s =
  match m s with
  | (Returns a, s1) => k a s1
  | (Raises e, s1) => (Raises e, s1)
  | (OutOfFuel, s1) => (OutOfFuel, s1)
  end.
Proof. unfold bind. destruct (m s) as [[a | e |] s1]; reflexivity. Qed.

(** The file is as it was, and the block did not return. *)
Ltac not_stored :=
  split; [intros ? Hreturns; discriminate Hreturns | unchanged].

(** What the file is known to hold. *)
Ltac known_file :=
  cbn [fst snd apiOutput doc_of];
  repeat match goal with
         | H : apiOutput _ = _ |- _ => rewrite H
         end;
  cbn [default from_option].

(** The file is as it was, and this is what the block is to leave. *)
Ltac nothing_stored :=
  split; [intros ? Hreturns; try discriminate Hreturns; known_file; reflexivity
         | unchanged].

(** The block wrote one fact, the one it is to store. *)
Ltac stored :=
  split; [intros ? Hreturns; try discriminate Hreturns; known_file; reflexivity
         | inserted].

Lemma getOrgVDCUrl_stores (orgUrl orgVDCName : string) (saveResponse : bool) :
  block_stores (organization_fact saveResponse) (getOrgVDCUrl orgUrl orgVDCName saveResponse).
Proof.
  intros i. unfold getOrgVDCUrl, organization_fact, next_response, doc_of.
  destruct (apiOutput i) as [data |] eqn:Hfile.
  - unfold_block. rewrite Hfile. cbn.
    destruct (status_code (remote i (served i)) =? ok)%Z; cbn; [| not_stored].
    destruct (is_empty data) eqn:Hempty; cbn.
    + destruct saveResponse; cbn.
      * destruct (getitem (content (remote i (served i))) "AdminOrg") as [adminOrg |];
          cbn; [| not_stored].
        rewrite (is_empty_spec data Hempty), <- insert_empty.
        split_matches; cbn; stored.
      * split_matches; cbn; nothing_stored.
    + split_matches; cbn; nothing_stored.
  - unfold_block. rewrite Hfile. cbn.
    destruct (status_code (remote i (served i)) =? ok)%Z; cbn; [| not_stored].
    assert (Hempty : is_empty (∅ : gmap string json) = true) by reflexivity.
    rewrite Hempty. cbn.
    destruct saveResponse; cbn.
    + destruct (getitem (content (remote i (served i))) "AdminOrg") as [adminOrg |];
        cbn; [| not_stored].
      rewrite <- insert_empty.
      split_matches; cbn; stored.
    + split_matches; cbn; nothing_stored.
Qed.

(** [getOrgVDCUrl] sends one request. *)
Lemma getOrgVDCUrl_request (orgUrl orgVDCName : string) (saveResponse : bool) (i : io) :
  remote (snd (getOrgVDCUrl orgUrl orgVDCName saveResponse i)) = remote i /\
  served (snd (getOrgVDCUrl orgUrl orgVDCName saveResponse i)) = S (served i).
Proof.
  unfold getOrgVDCUrl. unfold_block.
  split_matches; cbn; split; reflexivity.
Qed.

Lemma getOrgVDCDetails_stores (orgUrl orgVDCName orgVDCType : string) (saveResponse : bool) :
  block_stores (facts_from (Write_getOrgVDCDetails orgUrl orgVDCName orgVDCType saveResponse))
               (getOrgVDCDetails orgUrl orgVDCName orgVDCType saveResponse).
Proof.
  intros i. cbn [facts_from]. unfold getOrgVDCDetails.
  destruct (getOrgVDCUrl_stores orgUrl orgVDCName saveResponse i) as [Hret Hext].
  destruct (getOrgVDCUrl_request orgUrl orgVDCName saveResponse i) as [Hrem Hsv].
  rewrite bind_run.
  destruct (getOrgVDCUrl orgUrl orgVDCName saveResponse i) as [[orgVDCUrl | e |] i1];
    cbn [fst snd] in *.
  - specialize (Hret orgVDCUrl eq_refl). clear Hext.
    unfold response_in. rewrite <- Hrem, Nat.add_1_r, <- Hsv. clear Hrem Hsv.
    apply stores_after with (d1 := doc_of i1); [exact Hret |]. clear Hret.
    unfold doc_of. unfold_block.
    destruct (as_url orgVDCUrl); cbn; [| not_stored].
    destruct (status_code (remote i1 (served i1)) =? ok)%Z; cbn.
    + destruct saveResponse; cbn.
      * destruct (apiOutput i1) as [data |] eqn:Hfile; cbn; [| not_stored].
        destruct (getitem (content (remote i1 (served i1))) "AdminVdc") as [adminVdc |];
          cbn; [| not_stored].
        split_matches; cbn; stored.
      * split_matches; cbn; nothing_stored.
    + split_matches; cbn; not_stored.
  - split; [intros a Ha; discriminate Ha |].
    rewrite map_app. eapply extends_mono; [| exact Hext].
    intros k Hk. apply elem_of_app. left. exact Hk.
  - split; [intros a Ha; discriminate Ha |].
    rewrite map_app. eapply extends_mono; [| exact Hext].
    intros k Hk. apply elem_of_app. left. exact Hk.
Qed.

Lemma save_network_stores (networkName : string) (isDummyNetwork : bool)
      (records : list json) :
  block_stores
    (fun _ => match first_with "name" networkName records with
              | Some record =>
                  [(external_network_key isDummyNetwork (backing_type record), record)]
              | None => []
              end)
    (save_network networkName isDummyNetwork records).
Proof.
  induction records as [| response others IH]; intros i; cbn [save_network first_with].
  - unfold ret. nothing_stored.
  - unfold doc_of, backing_type, external_network_key. unfold_block.
    destruct (getitem response "name") as [name |]; cbn; [| not_stored].
    destruct (eq_str name networkName); [| apply IH].
    destruct (getitem response "networkBackings") as [backings |]; cbn;
      [| not_stored].
    destruct (getitem backings "values") as [values |]; cbn; [| not_stored].
    destruct (getfirst values) as [first |]; cbn; [| not_stored].
    destruct (getitem first "backingType") as [backingType |]; cbn; [| not_stored].
    destruct (apiOutput i) as [data |] eqn:Hfile; cbn; [| not_stored].
    destruct isDummyNetwork, (eq_str backingType "NSXT_TIER0");
      destruct (getitem response "id"); cbn; stored.
Qed.

Lemma getExternalNetwork_try_stores (provider : pvdc) (networkName : string)
      (isDummyNetwork : bool) :
  block_stores (facts_from (Write_getExternalNetwork provider networkName isDummyNetwork))
               (getExternalNetwork_try networkName isDummyNetwork).
Proof.
  intros i. cbn [facts_from]. unfold getExternalNetwork_try, next_response, records_of.
  rewrite bind_run. unfold rest at 1 2 3.
  set (i1 := Io _ _ _ _ _ _ _).
  assert (Hsame : doc_of i1 = doc_of i) by reflexivity. rewrite <- Hsame. clear Hsame.
  set (r := remote i (served i)). clearbody i1 r.
  rewrite bind_run.
  destruct (status_code r =? ok)%Z.
  - rewrite bind_run. unfold of_result.
    destruct (let? values := getitem (content r) "values" in iter values) as [records |];
      cbv beta iota; [| not_stored].
    destruct (save_network_stores networkName isDummyNetwork records i1) as [Hret Hext].
    destruct (save_network networkName isDummyNetwork records i1) as [[[id |] | e |] i2];
      cbn [fst snd] in *.
    + split; [intros a _; exact (Hret _ eq_refl) | exact Hext].
    + unfold bind, raise. destruct (getitem (content r) "message");
        (split; [intros ? Hreturns; discriminate Hreturns | exact Hext]).
    + split; [intros ? Hreturns; discriminate Hreturns | exact Hext].
    + split; [intros ? Hreturns; discriminate Hreturns | exact Hext].
  - unfold ret, bind, of_result, raise. destruct (getitem (content r) "message");
      not_stored.
Qed.

Lemma getProviderVDCDetails_stores (pvdcId : string) (isNSXTbacked : bool) :
  block_stores (facts_from (Write_getProviderVDCDetails pvdcId isNSXTbacked))
               (getProviderVDCDetails pvdcId isNSXTbacked).
Proof.
  intros i. cbn [facts_from]. unfold getProviderVDCDetails, next_response, doc_of.
  unfold_block.
  destruct (status_code (remote i (served i)) =? ok)%Z; cbn; [| not_stored].
  destruct (apiOutput i) as [data |] eqn:Hfile; cbn; [| not_stored].
  destruct (getitem (content (remote i (served i))) "ProviderVdc") as [providerVdc |];
    cbn; [| not_stored].
  destruct isNSXTbacked; destruct (getitem providerVdc "@name"); cbn; stored.
Qed.

Lemma validateVMPlacementPolicy_fetch_stores (sourceOrgVDCId : string) :
  block_stores (facts_from (Write_validateVMPlacementPolicy sourceOrgVDCId))
               (discard (validateVMPlacementPolicy_fetch sourceOrgVDCId)).
Proof.
  intros i. cbn [facts_from].
  unfold discard, validateVMPlacementPolicy_fetch, next_response, doc_of. unfold_block.
  destruct (apiOutput i) as [data |] eqn:Hfile; cbn; [| not_stored].
  destruct (status_code (remote i (served i)) =? ok)%Z; cbn; rewrite ?Hfile; cbn;
    [| nothing_stored].
  destruct (getitem (content (remote i (served i))) "VdcComputePolicyReferences")
    as [references |]; cbn; [| not_stored].
  destruct (getitem references "VdcComputePolicyReference"); cbn; [| not_stored].
  stored.
Qed.

Lemma getOrgVDCAffinityRules_try_stores (orgVDCId : string) :
  block_stores (facts_from (Write_getOrgVDCAffinityRules orgVDCId))
               (getOrgVDCAffinityRules_try orgVDCId).
Proof.
  intros i. cbn [facts_from]. unfold getOrgVDCAffinityRules_try, next_response, doc_of.
  unfold_block.
  destruct (status_code (remote i (served i)) =? ok)%Z; cbn; [| not_stored].
  destruct (apiOutput i) as [data |] eqn:Hfile; cbn; [| not_stored].
  destruct (getitem (content (remote i (served i))) "VmAffinityRules") as [affinity |];
    cbn; [| not_stored].
  destruct (dict_get affinity "VmAffinityRule") as [present |]; cbn; [| not_stored].
  destruct (truthy present); cbn.
  - destruct (getitem affinity "VmAffinityRule"); cbn; [| not_stored].
    stored.
  - stored.
Qed.

Lemma validateSingleEdgeGatewayExistForOrgVDC_try_stores (orgVDCId : string) :
  block_stores (facts_from (Write_validateSingleEdgeGatewayExistForOrgVDC orgVDCId))
               (validateSingleEdgeGatewayExistForOrgVDC_try orgVDCId).
Proof.
  intros i. cbn [facts_from].
  unfold validateSingleEdgeGatewayExistForOrgVDC_try, getOrgVDCEdgeGateway, next_response,
    doc_of.
  unfold_block.
  destruct (apiOutput i) as [data |] eqn:Hfile;
    destruct (status_code (remote i (served i)) =? ok)%Z; cbn;
    split_matches; cbn; read_file; first [not_stored | stored].
Qed.

(** The comprehension of [getOrgVDCNetworks], when no record makes it
    raise. *)
Lemma networks_of_returns (orgVDCId : string) (records : list json) :
  forall networks,
    networks_of orgVDCId records = Ok networks ->
    networks = List.filter (belongs_to orgVDCId) records.
Proof.
  induction records as [| record others IH]; intros networks; cbn [networks_of List.filter].
  - intros H. injection H as <-. reflexivity.
  - unfold belongs_to at 1.
    destruct (getitem record "orgVdc") as [orgVdc |]; cbn [and_then]; [| discriminate].
    destruct (getitem orgVdc "id") as [id |]; cbn [and_then]; [| discriminate].
    destruct (networks_of orgVDCId others) as [more |]; cbn [and_then]; [| discriminate].
    intros H. injection H as <-. rewrite <- (IH more eq_refl).
    destruct (eq_str id orgVDCId); reflexivity.
Qed.

Lemma getOrgVDCNetworks_try_stores (orgVDCId orgVDCNetworkType : string)
      (saveResponse : bool) :
  block_stores (facts_from (Write_getOrgVDCNetworks orgVDCId orgVDCNetworkType saveResponse))
               (getOrgVDCNetworks_try orgVDCId orgVDCNetworkType saveResponse).
Proof.
  intros i. cbn [facts_from].
  unfold getOrgVDCNetworks_try, next_response, records_of, doc_of. unfold_block.
  destruct (getitem (content (remote i (served i))) "values") as [values |]; cbn;
    [| not_stored].
  destruct (iter values) as [records |]; cbn; [| not_stored].
  destruct (networks_of orgVDCId records) as [networks |] eqn:Hnetworks; cbn;
    [| not_stored].
  rewrite <- (networks_of_returns orgVDCId records networks Hnetworks).
  destruct saveResponse; cbn; [| nothing_stored].
  destruct (apiOutput i) as [data |] eqn:Hfile; cbn; [stored | not_stored].
Qed.

Lemma getEdgeGatewayServices_save_stores (dhcp firewall nat routing dns : json) :
  block_stores (facts_from (Write_getEdgeGatewayServices dhcp firewall nat routing dns))
               (getEdgeGatewayServices_save dhcp firewall nat routing dns).
Proof.
  intros i. cbn [facts_from].
  remember (_ ++ _)%list as facts eqn:Hfacts.
  unfold getEdgeGatewayServices_save, doc_of. unfold_block.
  destruct (apiOutput i) as [data |] eqn:Hfile; cbn; [| not_stored].
  assert (Hdoc : (if truthy dns
                  then <[ "sourceEdgeGatewayDNS" := dns ]>
                         (<[ "sourceEdgeGatewayRouting" := routing ]>
                            (<[ "sourceEdgeGatewayNAT" := nat ]>
                               (<[ "sourceEdgeGatewayFirewall" := firewall ]>
                                  (<[ "sourceEdgeGatewayDHCP" := dhcp ]> data))))
                  else <[ "sourceEdgeGatewayRouting" := routing ]>
                         (<[ "sourceEdgeGatewayNAT" := nat ]>
                            (<[ "sourceEdgeGatewayFirewall" := firewall ]>
                               (<[ "sourceEdgeGatewayDHCP" := dhcp ]> data))))
                 = merged data facts).
  { subst facts. destruct (truthy dns); reflexivity. }
  rewrite Hdoc. split; [intros ? _; reflexivity | apply extends_merged].
Qed.

(** The function under the decorator returns only when its block does:
    the [except] clause re-raises. *)
Lemma try_block_returned {A} (m : method) (block : SE io A) (w : vcd) (a : A) :
  fst (try_except_reraise (lift block) (except_clause m) w) = Returns a ->
  fst (block (world w)) = Returns a.
Proof.
  unfold try_except_reraise, lift.
  destruct (block (world w)) as [[a' | e |] i']; cbn [fst snd]; try discriminate.
  - intros H. exact H.
  - set (w1 := Vcd _ _ _ _).
    destruct (except_clause_spec m w1) as (w' & Hrun & _).
    rewrite Hrun. discriminate.
Qed.

(** A decorated method stores what its block stores from the state the
    decorator leaves: neither the decorator nor an [except] clause
    touches the file. *)
Lemma method_of_stores {A} (facts : io -> list (string * json)) (m : method)
      (block : SE io A) (w : vcd) :
  block_stores facts block ->
  decorated m = true ->
  let run := method_of m block w in
  (forall a, fst run = Returns a ->
             document (snd run) = merged (document w) (facts (world (guard_leaves w)))) /\
  extends (map fst (facts (world (guard_leaves w)))) (document w) (document (snd run)).
Proof.
  intros Hblock Hdecorated run. subst run. unfold method_of. rewrite Hdecorated.
  destruct (guard_leaves_spec w) as (_ & _ & _ & _ & Hdoc & _).
  assert (Hdocument : forall x, document x = doc_of (world x)) by reflexivity.
  assert (Hsame : doc_of (world w) = doc_of (world (guard_leaves w))).
  { unfold doc_of. rewrite Hdoc. reflexivity. }
  rewrite !Hdocument, Hsame.
  destruct (guard_passes_or_raises w) as [Hpass | (Hno & e & Hlogin)].
  - rewrite (guard_passes_run _ w Hpass).
    destruct (try_block_spec m block (guard_leaves w)) as (_ & _ & Hworld & _).
    destruct (Hblock (world (guard_leaves w))) as [Hret Hext].
    rewrite Hworld. split; [| exact Hext].
    intros a Ha. apply (Hret a). eapply try_block_returned. exact Ha.
  - destruct (guard_run (try_except_reraise (lift block) (except_clause m)) w)
      as (_ & _ & Hraise).
    rewrite (Hraise Hno e Hlogin). cbn [fst snd].
    split; [intros a Ha; discriminate Ha | apply extends_refl].
Qed.

Lemma lift_stores {A} (facts : io -> list (string * json)) (block : SE io A) (w : vcd) :
  block_stores facts block ->
  (forall a, fst (lift block w) = Returns a ->
             document (snd (lift block w)) = merged (document w) (facts (world w))) /\
  extends (map fst (facts (world w))) (document w) (document (snd (lift block w))).
Proof.
  intros Hblock. destruct (lift_world block w) as [Hworld Hfst].
  destruct (Hblock (world w)) as [Hret Hext].
  assert (Hdocument : forall x, document x = doc_of (world x)) by reflexivity.
  rewrite !Hdocument, Hworld, Hfst. exact (conj Hret Hext).
Qed.

Lemma discard_stores {A} (facts : io -> list (string * json)) (block : SE io A) :
  block_stores facts block -> block_stores facts (discard block).
Proof.
  intros Hblock i. destruct (Hblock i) as [Hret Hext]. unfold discard. rewrite bind_run.
  destruct (block i) as [[a | e |] i1]; cbn [fst snd] in *.
  - split; [intros ? _; exact (Hret a eq_refl) | exact Hext].
  - split; [intros ? Hreturns; discriminate Hreturns | exact Hext].
  - split; [intros ? Hreturns; discriminate Hreturns | exact Hext].
Qed.

Lemma discard_state {A} (m : M A) (w : vcd) : snd (discard m w) = snd (m w).
Proof. unfold discard, bind, ret. destruct (m w) as [[a | e |] w1]; reflexivity. Qed.

(** A result thrown away. *)
Lemma discard_returned {A} (m : M A) (w : vcd) :
  fst (discard m w) = Returns tt -> exists a, fst (m w) = Returns a.
Proof.
  unfold discard. rewrite bind_run.
  destruct (m w) as [[a | e |] w1]; cbn [fst]; try discriminate.
  intros _. exists a. reflexivity.
Qed.

(** Every place that writes the file stores its facts when it returns,
    and leaves every other key as it was, whatever it does. *)
Lemma run_writer_stores (s : writer) (w : vcd) :
  (fst (run_writer s w) = Returns tt ->
   document (snd (run_writer s w)) = merged (document w) (stores s w)) /\
  extends (map fst (stores s w)) (document w) (document (snd (run_writer s w))).
Proof.
  unfold stores, writer_start.
  destruct s; cbn [run_writer guarded]; rewrite ?discard_state.
  - destruct (lift_stores _ _ w (discard_stores _ _ (getOrgVDCUrl_stores
                orgUrl orgVDCName saveResponse))) as [Hret Hext].
    split; [apply Hret | exact Hext].
  - destruct (lift_stores _ _ w (discard_stores _ _ (getOrgVDCDetails_stores
                orgUrl orgVDCName orgVDCType saveResponse))) as [Hret Hext].
    split; [apply Hret | exact Hext].
  - destruct (method_of_stores _ (GetExternalNetwork provider isDummyNetwork) _ w
                (getExternalNetwork_try_stores provider networkName isDummyNetwork)
                eq_refl) as [Hret Hext].
    split; [| exact Hext].
    intros Hreturns. destruct (discard_returned _ _ Hreturns) as (a & Ha).
    exact (Hret a Ha).
  - destruct (lift_stores _ _ w (getProviderVDCDetails_stores pvdcId isNSXTbacked))
      as [Hret Hext].
    split; [apply Hret | exact Hext].
  - destruct (method_of_stores _ ValidateVMPlacementPolicy _ w
                (validateVMPlacementPolicy_fetch_stores sourceOrgVDCId) eq_refl)
      as [Hret Hext].
    split; [apply Hret | exact Hext].
  - destruct (method_of_stores _ GetOrgVDCAffinityRules _ w
                (getOrgVDCAffinityRules_try_stores orgVDCId) eq_refl) as [Hret Hext].
    split; [apply Hret | exact Hext].
  - destruct (method_of_stores _ ValidateSingleEdgeGatewayExistForOrgVDC _ w
                (validateSingleEdgeGatewayExistForOrgVDC_try_stores orgVDCId) eq_refl)
      as [Hret Hext].
    split; [| exact Hext].
    intros Hreturns. destruct (discard_returned _ _ Hreturns) as (a & Ha).
    exact (Hret a Ha).
  - destruct (method_of_stores _ GetOrgVDCNetworks _ w
                (getOrgVDCNetworks_try_stores orgVDCId orgVDCNetworkType saveResponse)
                eq_refl) as [Hret Hext].
    split; [| exact Hext].
    intros Hreturns. destruct (discard_returned _ _ Hreturns) as (a & Ha).
    exact (Hret a Ha).
  - destruct (method_of_stores _ GetEdgeGatewayServices _ w
                (getEdgeGatewayServices_save_stores dhcp firewall nat routing dns) eq_refl)
      as [Hret Hext].
    split; [apply Hret | exact Hext].
Qed.

(** C7.  Take any place of the source that writes [apiOutput.json], any
    state of [self], of the file and of the remote system.  [stores s w]
    lists the facts the call is to store, key and value, read off the
    arguments, the file as it was and the answers to the requests of the
    call.  When the call returns, the file is the document it held
    before with exactly these facts written into it, in order.  Whether
    the call returns or raises, every key that is not the key of one of
    these facts keeps the value it had, or stays absent.  When the call
    returns and the keys of its facts are distinct, each fact is in the
    file under its key. *)
Theorem apiOutput_write_keeps_other_keys (s : writer) (w : vcd) :
  let before := document w in
  let after := document (snd (run_writer s w)) in
  (fst (run_writer s w) = Returns tt -> after = merged before (stores s w)) /\
  (forall k, k ∉ map fst (stores s w) -> after !! k = before !! k) /\
  (fst (run_writer s w) = Returns tt ->
   NoDup (map fst (stores s w)) ->
   forall k v, (k, v) ∈ stores s w -> after !! k = Some v).
Proof.
  intros before after. subst before after.
  destruct (run_writer_stores s w) as [Hret (facts & Hkeys & Hdoc)].
  split; [exact Hret |]. split.
  - intros k Hk. rewrite Hdoc. eapply merged_frame; eassumption.
  - intros Hreturns Hdistinct k v Hin. rewrite (Hret Hreturns).
    apply merged_lookup; assumption.
Qed.

(** [getProviderVDCDetails] of the target provider VDC on a document
    with two facts: the provider VDC is added under [targetProviderVDC],
    the two facts stay, and nothing is stored under
    [sourceProviderVDC]. *)
Lemma getProviderVDCDetails_keeps_two_facts :
  let s := Write_getProviderVDCDetails "urn:vcloud:providervdc:9" true in
  let w := with_file two_facts (fun _ => provider_vdc_answer) in
  let w' := snd (run_writer s w) in
  let pvdc := JObj [("@name", JStr "pvdc-t"); ("IsEnabled", JStr "true")] in
  fst (run_writer s w) = Returns tt /\
  stores s w = [("targetProviderVDC", pvdc)] /\
  document w' = <[ "targetProviderVDC" := pvdc ]> two_facts /\
  document w' !! "sourceOrgVDC" = two_facts !! "sourceOrgVDC" /\
  document w' !! "sourceProviderVDC" = None /\
  document w' !! "targetProviderVDC" = Some pvdc.
Proof.
  intros s w w' pvdc.
  assert (Hreturns : fst (run_writer s w) = Returns tt) by (vm_compute; reflexivity).
  assert (Hstores : stores s w = [("targetProviderVDC", pvdc)])
    by (vm_compute; reflexivity).
  destruct (apiOutput_write_keeps_other_keys s w) as (Hdoc & Hframe & Hfacts).
  split; [exact Hreturns |]. split; [exact Hstores |]. split; [| split; [| split]].
  - subst w'. rewrite (Hdoc Hreturns), Hstores. reflexivity.
  - apply (Hframe "sourceOrgVDC"). rewrite Hstores. cbn [map fst].
    intros H. apply list_elem_of_In in H. cbn [In] in H.
    destruct H as [H | H]; [discriminate H | exact H].
  - transitivity (document w !! "sourceProviderVDC"); [| vm_compute; reflexivity].
    apply (Hframe "sourceProviderVDC"). rewrite Hstores. cbn [map fst].
    intros H. apply list_elem_of_In in H. cbn [In] in H.
    destruct H as [H | H]; [discriminate H | exact H].
  - apply (Hfacts Hreturns).
    + rewrite Hstores. cbn [map fst]. apply NoDup_singleton.
    + rewrite Hstores. apply list_elem_of_In. left. reflexivity.
Defined.

(** ** Collections that may come as a bare record *)

Lemma listify_dict_bare (record : json) :
  is_dict record = true -> listify_dict record = listify_dict (JArr [record]).
Proof. unfold listify_dict. intros ->. reflexivity. Qed.

(** [validateStorageProfiles] treats a bare source profile as a list of
    one profile. *)
Lemma validateStorageProfiles_normalizes (record target : json) :
  is_dict record = true ->
  fst (validateStorageProfiles_try (with_document (storage_profiles record target))) =
  fst (validateStorageProfiles_try (with_document (storage_profiles (JArr [record]) target))).
Proof.
  intros Hdict. unfold validateStorageProfiles_try, with_document, storage_profiles.
  unfold bind, json_load, of_result, item, and_then. cbn [apiOutput].
  rewrite !lookup_insert_eq.
  rewrite !lookup_insert_ne by discriminate. rewrite !lookup_singleton_eq.
  cbn [getitem assoc String.eqb Ascii.eqb Bool.eqb fst snd].
  rewrite <- (listify_dict_bare record Hdict).
  unfold raise, ret. split_matches; reflexivity.
Qed.

(** [getOrgVDCUrl] treats a bare Vdc record as a list of one record. *)
Lemma getOrgVDCUrl_normalizes (record : json) (orgUrl orgVDCName : string)
      (file : option (gmap string json)) :
  is_dict record = true ->
  fst (getOrgVDCUrl orgUrl orgVDCName false
         (Io true "10.0.0.1" "Bearer token" file (fun _ => organization_answer record) 0 [])) =
  fst (getOrgVDCUrl orgUrl orgVDCName false
         (Io true "10.0.0.1" "Bearer token" file
             (fun _ => organization_answer (JArr [record])) 0 [])).
Proof.
  intros Hdict. unfold getOrgVDCUrl, organization_answer.
  unfold bind, rest, path_exists, json_load, of_result, ret, raise, and_then.
  cbn [status_code content remote served apiOutput fst snd Z.eqb ok Pos.eqb
       getitem assoc String.eqb Ascii.eqb Bool.eqb].
  rewrite <- (listify_dict_bare record Hdict).
  destruct file as [data |]; cbn [fst snd apiOutput];
    rewrite ?andb_false_r; cbn [fst snd apiOutput];
    destruct (iter (listify_dict record)) as [records |]; cbn [fst snd];
      try reflexivity;
    destruct (find_href orgVDCName records (JStr EmptyString)) as [href |]; cbn [fst snd];
      try reflexivity;
    destruct (negb (truthy href)); reflexivity.
Qed.

(** C8 fails in [validateHardwareVersion].  With one supported hardware
    version on the source provider VDC, the check raises a [TypeError]
    when the version comes as a bare record and passes when the same
    version comes as a list of one record: the [for] statement runs over
    the keys of the record. *)
Theorem validateHardwareVersion_bare_record_not_normalized :
  let target := JArr [hardware_version "vmx-14"; hardware_version "vmx-15"] in
  fst (validateHardwareVersion
         (with_document (provider_vdcs (hardware_version "vmx-14") target)))
  = Raises (TypeError "string indices must be integers") /\
  fst (validateHardwareVersion
         (with_document (provider_vdcs (JArr [hardware_version "vmx-14"]) target)))
  = Returns tt.
Proof. vm_compute. split; reflexivity. Qed.

(** ** The hardware versions *)

(** Whenever the highest source version exceeds the highest target
    version, what [validateHardwareVersion] raises is the [TypeError] of
    a [raise] statement given a string. *)
Lemma validateHardwareVersion_incompatible (i : io) (data : gmap string json)
      (sourceVersions targetVersions : list json)
      (highestSource highestTarget : Z) (sourceName targetName : string) :
  apiOutput i = Some data ->
  supported_versions data "sourceProviderVDC" = Ok sourceVersions ->
  highest_version sourceVersions 0 EmptyString = Ok (highestSource, sourceName) ->
  supported_versions data "targetProviderVDC" = Ok targetVersions ->
  highest_version targetVersions 0 EmptyString = Ok (highestTarget, targetName) ->
  (highestTarget < highestSource)%Z ->
  validateHardwareVersion i
  = (Raises (TypeError "exceptions must derive from BaseException"), i).
Proof.
  intros Hfile Hsv Hs Htv Ht Hlt.
  unfold validateHardwareVersion, bind, path_exists, json_load, of_result, raise_str, raise.
  rewrite Hfile. cbn [fst snd]. rewrite Hfile, Hsv, Hs, Htv, Ht.
  destruct (Z.ltb_spec highestTarget highestSource); [reflexivity | lia].
Qed.

(** C9 fails.  The source provider VDC supports [vmx-15], the target at
    most [vmx-14]: [validateHardwareVersion] does not complete, but what
    it raises is Python's [TypeError] about the [raise] statement, which
    names no hardware version, in place of the descriptive error. *)
Theorem validateHardwareVersion_newer_source_raises_TypeError :
  fst (validateHardwareVersion
         (with_document
            (provider_vdcs (JArr [hardware_version "vmx-14"; hardware_version "vmx-15"])
                           (JArr [hardware_version "vmx-13"; hardware_version "vmx-14"]))))
  = Raises (TypeError "exceptions must derive from BaseException").
Proof. vm_compute. reflexivity. Qed.

(** ** The enabled state of the source Org VDC *)

Lemma recorded_IsEnabled_false_not_true (i : io) :
  recorded_IsEnabled "false" i -> ~ recorded_IsEnabled "true" i.
Proof.
  intros (data & v & Hfile & Hfield & Hv) (data' & v' & Hfile' & Hfield' & Hv').
  rewrite Hfile in Hfile'. injection Hfile' as <-.
  rewrite Hfield in Hfield'. injection Hfield' as <-.
  destruct v; simpl in *; try discriminate.
  apply String.eqb_eq in Hv. subst s. discriminate.
Qed.

(** [enableSourceOrgVdc] sends its request only when the document
    records that the source Org VDC was enabled. *)
Lemma enableSourceOrgVdc_try_cases (id : json) (i : io) :
  recorded_IsEnabled "true" i \/ snd (enableSourceOrgVdc_try id i) = i.
Proof.
  unfold enableSourceOrgVdc_try, bind, json_load, of_result, ret.
  destruct (apiOutput i) as [data |] eqn:Hfile; [| right; reflexivity].
  cbn [fst snd].
  destruct (sourceOrgVDC_field data "IsEnabled") as [v |] eqn:Hfield;
    [| right; reflexivity].
  destruct (eq_str v "true") eqn:Hv; [| right; reflexivity].
  left. exists data, v. auto.
Qed.

(** [disableOrgVDC] sends nothing when the document records that the
    source Org VDC was already disabled. *)
Lemma disableOrgVDC_try_skips (id : json) (i : io) :
  recorded_IsEnabled "false" i -> snd (disableOrgVDC_try id true i) = i.
Proof.
  intros (data & v & Hfile & Hfield & Hv).
  unfold disableOrgVDC_try, bind, json_load, of_result, ret.
  rewrite Hfile. cbn [fst snd]. rewrite Hfield.
  destruct (sourceOrgVDC_field data "@name") as [name |]; [| reflexivity].
  rewrite Hv. reflexivity.
Qed.

(** C10.  [enableSourceOrgVdc] either finds [IsEnabled == "true"] in the
    document or leaves the world as it was, sending no request.  When
    the document records that the source Org VDC was disabled at
    discovery, [disableOrgVDC] sends the requests of its guard and no
    other, and neither [enableSourceOrgVdc] nor the first statement of
    the rollback sends anything: the Org VDC is not enabled by the
    rollback. *)
Theorem rollback_keeps_disabled_source_org_vdc_disabled (id : json) (w : vcd) :
  (recorded_IsEnabled "true" (world w) \/
   world (snd (enableSourceOrgVdc id w)) = world w) /\
  (recorded_IsEnabled "false" (world w) ->
   trace (world (snd (disableOrgVDC id true w))) =
     (trace (world w) ++
      Request GET SESSION ::
        (if (status_code (next_response (world w)) =? ok)%Z
         then [] else [Request POST LOGIN_URL]))%list /\
   world (snd (enableSourceOrgVdc id w)) = world w /\
   world (snd (rollback_source_org_vdc (Some id) w)) = world w).
Proof.
  assert (Henable : forall w0 : vcd,
             recorded_IsEnabled "true" (world w0) \/
             world (snd (enableSourceOrgVdc id w0)) = world w0).
  { intros w0. rewrite enableSourceOrgVdc_unfold.
    destruct (lift_world (enableSourceOrgVdc_try id) w0) as [Hworld _].
    rewrite Hworld. apply enableSourceOrgVdc_try_cases. }
  split; [apply Henable |].
  intros Hdisabled.
  pose proof (recorded_IsEnabled_false_not_true _ Hdisabled) as Hnot.
  split; [| split].
  - change (disableOrgVDC id true w)
      with (_isSessionExpired
              (try_except_reraise (lift (disableOrgVDC_try id true))
                                  (except_clause DisableOrgVDC)) w).
    destruct (guard_cases
                (try_except_reraise (lift (disableOrgVDC_try id true))
                                    (except_clause DisableOrgVDC)) w)
      as (w' & Htrace & _ & _ & _ & Hdoc & _ & _ & [Hrun | (_ & e & _ & Hrun)]);
      rewrite Hrun.
    + destruct (try_block_spec DisableOrgVDC (disableOrgVDC_try id true) w')
        as (_ & _ & Hworld & _).
      rewrite Hworld, disableOrgVDC_try_skips; [exact Htrace |].
      destruct Hdisabled as (data & v & Hfile & Hrest).
      exists data, v. split; [congruence | exact Hrest].
    + exact Htrace.
  - destruct (Henable w) as [Htrue | Hsame]; [contradiction | exact Hsame].
  - unfold rollback_source_org_vdc, bind, get_ENABLE_SOURCE_ORG_VDC, of_result, local,
      calling, ret.
    cbn [fst snd].
    destruct (ENABLE_SOURCE_ORG_VDC w); [| reflexivity].
    set (w1 := Vcd _ _ _ _).
    destruct (Henable w1) as [Htrue | Hsame]; [contradiction |].
    destruct (enableSourceOrgVdc id w1) as [[u | e |] w2]; exact Hsame.
Qed.

(** The document records a source Org VDC that was disabled when it was
    discovered: with the flag set, the rollback sends nothing. *)
Lemma rollback_leaves_disabled_source_org_vdc :
  let w := Vcd true false [] (with_document discovered_disabled) in
  recorded_IsEnabled "false" (world w) /\
  world (snd (rollback_source_org_vdc (Some (JStr "urn:vcloud:vdc:42")) w)) = world w /\
  trace (world (snd (disableOrgVDC (JStr "urn:vcloud:vdc:42") true w))) = [Request GET SESSION].
Proof.
  intros w.
  assert (Hdisabled : recorded_IsEnabled "false" (world w)).
  { exists discovered_disabled, (JStr "false"). repeat split; reflexivity. }
  destruct (rollback_keeps_disabled_source_org_vdc_disabled (JStr "urn:vcloud:vdc:42") w)
    as [_ Hkeep].
  destruct (Hkeep Hdisabled) as (Hdisable & _ & Hrollback).
  split; [exact Hdisabled |]. split; [exact Hrollback |].
  rewrite Hdisable. reflexivity.
Defined.

(* ===================================================================== *)
(** * Further properties of the checks *)
(* ===================================================================== *)

(** ** Decorated methods under a valid session *)

Lemma guard_valid {A} (func : M A) (w : vcd) :
  status_code (next_response (world w)) = ok ->
  _isSessionExpired func w = func (after_probe w).
Proof.
  intros Hok. destruct (after_probe_spec w) as (Hrun & _).
  unfold _isSessionExpired, bind. rewrite Hrun, Hok. reflexivity.
Qed.

Lemma try_block_returns {A} (m : method) (block : SE io A) (w : vcd) (a : A) (i' : io) :
  block (world w) = (Returns a, i') ->
  try_except_reraise (lift block) (except_clause m) w =
  (Returns a, Vcd (ENABLE_SOURCE_ORG_VDC w) (ENABLE_AFFINITY_RULES_IN_SOURCE_VAPP w)
                  (calls w) i').
Proof. intros H. unfold try_except_reraise, lift. rewrite H. reflexivity. Qed.

Lemma try_block_raises {A} (m : method) (block : SE io A) (w : vcd) (e : exn) (i' : io) :
  block (world w) = (Raises e, i') ->
  exists w',
    try_except_reraise (lift block) (except_clause m) w = (Raises e, w') /\
    except_clause m (Vcd (ENABLE_SOURCE_ORG_VDC w) (ENABLE_AFFINITY_RULES_IN_SOURCE_VAPP w)
                         (calls w) i') = (Returns tt, w') /\
    world w' = i' /\ calls w' = calls w.
Proof.
  intros H. unfold try_except_reraise, lift. rewrite H.
  set (w1 := Vcd _ _ _ _).
  destruct (except_clause_spec m w1) as (w' & Hrun & Hc & Hw & _).
  exists w'. rewrite Hrun. repeat split; auto.
Qed.

(** ** Checks that only read the document *)

(** X1.  The blocks of the eight checks that work from [apiOutput.json]
    alone leave the state as it is, whatever the document holds and
    whether they pass or raise: no request is sent, nothing is written,
    the session attributes are not assigned. *)
Theorem document_checks_leave_the_state (r : reader) (i : io) :
  snd (run_reader r i) = i.
Proof.
  destruct r; cbn [run_reader];
    unfold validateOrgVDCFastProvisioned_try, validateTargetProviderVdc_try,
      validateOrgVDCNSXVbacked, validateNoTargetOrgVDCExists, validateStorageProfiles_try,
      validateHardwareVersion, validateOrgVDCNetworkShared_try,
      validateOrgVDCNetworkDirect_try, raise_str;
    unfold bind, ret, raise, of_result, json_load, path_exists;
    destruct (apiOutput i); cbn [fst snd];
    split_matches; reflexivity.
Qed.

(** ** Looking a record up by name *)

Section Lookups.

Variable XML_ADMIN_API_URL : url.

Lemma first_href_first (orgName : string) (before after : list json)
      (record href : json) :
  Forall (named_otherwise "@name" orgName) before ->
  named "@name" orgName record ->
  getitem record "@href" = Ok href ->
  first_href orgName (before ++ record :: after) = Ok (Some href).
Proof.
  intros Hbefore (v & Hv & Heq) Hhref.
  induction Hbefore as [| r before (u & Hu & Hne) _ IH]; simpl.
  - rewrite Hv. simpl. rewrite Heq, Hhref. reflexivity.
  - rewrite Hu. simpl. rewrite Hne. exact IH.
Qed.

(** X2.  [getOrgUrl] returns the URL of the first organization record
    that carries the name: the records before it have other names, and
    the records after it are not looked at, so they may be anything. *)
Theorem getOrgUrl_returns_first_match
        (orgName : string) (i : io) (vcloud references reference : json)
        (before after : list json) (record href : json) :
  status_code (next_response i) = ok ->
  getitem (content (next_response i)) "VCloud" = Ok vcloud ->
  getitem vcloud "OrganizationReferences" = Ok references ->
  getitem references "OrganizationReference" = Ok reference ->
  iter (listify_dict reference) = Ok (before ++ record :: after)%list ->
  Forall (named_otherwise "@name" orgName) before ->
  named "@name" orgName record ->
  getitem record "@href" = Ok href ->
  fst (getOrgUrl XML_ADMIN_API_URL orgName i) = Returns href.
Proof.
  intros Hok Hv Hrs Hr Hiter Hbefore Hnamed Hhref.
  unfold next_response in *.
  unfold getOrgUrl, bind, rest, of_result, ret, and_then. cbn [fst snd].
  rewrite Hok. cbn [Z.eqb ok Pos.eqb]. rewrite Hv, Hrs, Hr, Hiter.
  rewrite (first_href_first orgName before after record href Hbefore Hnamed Hhref).
  reflexivity.
Qed.

Lemma find_href_last (orgVDCName : string) (before after : list json)
      (record href : json) :
  forall init,
    Forall (href_if_named orgVDCName) before ->
    named "@name" orgVDCName record ->
    getitem record "@href" = Ok href ->
    Forall (named_otherwise "@name" orgVDCName) after ->
    find_href orgVDCName (before ++ record :: after) init = Ok href.
Proof.
  intros init Hbefore (v & Hv & Heq) Hhref Hafter. revert init.
  induction Hbefore as [| r before Hr _ IH]; intros init; simpl.
  - rewrite Hv. simpl. rewrite Heq, Hhref. simpl.
    clear Hv Hhref. induction Hafter as [| a after (u & Hu & Hne) _ IHa]; simpl.
    + reflexivity.
    + rewrite Hu. simpl. rewrite Hne. exact IHa.
  - destruct Hr as [(u & Hu & Hne) | [(u & Hu & Hy) (h & Hh)]]; rewrite Hu; simpl.
    + rewrite Hne. apply IH.
    + rewrite Hy, Hh. simpl. apply IH.
Qed.

(** X3.  [getOrgVDCUrl] goes through all the Vdc records and returns the
    URL of the last one that carries the name, where [getOrgUrl] stops
    at the first: every record is read, so each one must have a name,
    and a URL when the name is the one looked for. *)
Theorem getOrgVDCUrl_returns_last_match
        (orgUrl orgVDCName : string) (saveResponse : bool) (i : io)
        (adminOrg vdcs vdc : json) (before after : list json) (record href : json) :
  status_code (next_response i) = ok ->
  getitem (content (next_response i)) "AdminOrg" = Ok adminOrg ->
  getitem adminOrg "Vdcs" = Ok vdcs ->
  getitem vdcs "Vdc" = Ok vdc ->
  iter (listify_dict vdc) = Ok (before ++ record :: after)%list ->
  Forall (href_if_named orgVDCName) before ->
  named "@name" orgVDCName record ->
  getitem record "@href" = Ok href ->
  truthy href = true ->
  Forall (named_otherwise "@name" orgVDCName) after ->
  fst (getOrgVDCUrl orgUrl orgVDCName saveResponse i) = Returns href.
Proof.
  intros Hok Ha Hvs Hv Hiter Hbefore Hnamed Hhref Htruthy Hafter.
  unfold next_response in *.
  unfold getOrgVDCUrl, bind, rest, of_result, ret, raise, and_then, path_exists,
    json_load, json_dump.
  cbn [fst snd apiOutput served remote].
  rewrite Hok. cbn [Z.eqb ok Pos.eqb].
  assert (Hfind := find_href_last orgVDCName before after record href (JStr EmptyString)
                                  Hbefore Hnamed Hhref Hafter).
  destruct (apiOutput i) as [data |]; cbn [fst snd apiOutput served remote];
    destruct (_ && saveResponse)%bool; cbn [fst snd apiOutput served remote];
    rewrite ?Ha; cbn [fst snd apiOutput served remote];
    rewrite ?Ha, Hvs, Hv, Hiter, Hfind, Htruthy; reflexivity.
Qed.

End Lookups.

(** An organization with two Org VDCs of the same name: the URL of the
    second one is returned. *)
Lemma getOrgVDCUrl_two_records_same_name :
  fst (getOrgVDCUrl "https://vcd/api/admin/org/1" "vdc-a" false
         (fresh_io (fun _ => organization_answer
            (JArr [JObj [("@name", JStr "vdc-a"); ("@href", JStr "https://vcd/vdc/1")];
                   JObj [("@name", JStr "vdc-a"); ("@href", JStr "https://vcd/vdc/2")];
                   JObj [("@name", JStr "vdc-b"); ("@href", JStr "https://vcd/vdc/3")]]))))
  = Returns (JStr "https://vcd/vdc/2").
Proof.
  eapply (getOrgVDCUrl_returns_last_match _ "vdc-a" false _ _ _ _
            [JObj [("@name", JStr "vdc-a"); ("@href", JStr "https://vcd/vdc/1")]]
            [JObj [("@name", JStr "vdc-b"); ("@href", JStr "https://vcd/vdc/3")]]).
  - reflexivity.
  - reflexivity.
  - reflexivity.
  - reflexivity.
  - reflexivity.
  - constructor; [| constructor]. right. split.
    + eexists. split; reflexivity.
    + eexists. reflexivity.
  - eexists. split; reflexivity.
  - reflexivity.
  - reflexivity.
  - constructor; [| constructor]. eexists. split; reflexivity.
Defined.

(** Two organizations of the same name, then a value that is not a
    record: the URL of the first one is returned. *)
Lemma getOrgUrl_two_records_same_name :
  fst (getOrgUrl (Href "https://10.0.0.1/api/admin/") "org-a"
         (fresh_io (fun _ => Response 200
            (JObj [("VCloud", JObj [("OrganizationReferences",
               JObj [("OrganizationReference",
                  JArr [JObj [("@name", JStr "org-b"); ("@href", JStr "https://vcd/org/1")];
                        JObj [("@name", JStr "org-a"); ("@href", JStr "https://vcd/org/2")];
                        JObj [("@name", JStr "org-a"); ("@href", JStr "https://vcd/org/3")];
                        JNull])])])]) [])))
  = Returns (JStr "https://vcd/org/2").
Proof.
  eapply (getOrgUrl_returns_first_match (Href "https://10.0.0.1/api/admin/") "org-a" _ _ _ _
            [JObj [("@name", JStr "org-b"); ("@href", JStr "https://vcd/org/1")]]
            [JObj [("@name", JStr "org-a"); ("@href", JStr "https://vcd/org/3")]; JNull]).
  - reflexivity.
  - reflexivity.
  - reflexivity.
  - reflexivity.
  - reflexivity.
  - constructor; [| constructor]. eexists. split; reflexivity.
  - eexists. split; reflexivity.
  - reflexivity.
Defined.

(** ** Scanning a collection for an offending record *)

Lemma named_exclusive (key text : string) (record : json) :
  named key text record -> named_otherwise key text record -> False.
Proof. intros (v & Hv & Hy) (u & Hu & Hn). congruence. Qed.

Lemma no_vdc_named_cases (target sourceOrgVDCName : string) (orgVDCsList : list json) :
  Forall (fun orgVDC => exists v, getitem orgVDC "@name" = Ok v) orgVDCsList ->
  (no_vdc_named target sourceOrgVDCName orgVDCsList = Ok tt /\
   Forall (named_otherwise "@name" target) orgVDCsList) \/
  (no_vdc_named target sourceOrgVDCName orgVDCsList =
     Raise (Exception "Target Org VDC '{}-t' already exists" [JStr sourceOrgVDCName]) /\
   Exists (named "@name" target) orgVDCsList).
Proof.
  induction 1 as [| orgVDC rest (v & Hv) _ IH]; simpl.
  - left. split; [reflexivity | constructor].
  - rewrite Hv. simpl. destruct (eq_str v target) eqn:Heq.
    + right. split; [reflexivity |]. apply Exists_cons_hd. exists v. auto.
    + destruct IH as [[Hrun Hall] | [Hrun Hex]].
      * left. split; [exact Hrun |]. constructor; [exists v; auto | exact Hall].
      * right. split; [exact Hrun |]. apply Exists_cons_tl. exact Hex.
Qed.

(** X4.  [validateNoTargetOrgVDCExists] passes exactly when no Org VDC
    of the organization is named as the source Org VDC with [-t]
    appended, and otherwise raises the error that names the source Org
    VDC; a bare Vdc record counts as a list of one record. *)
Theorem validateNoTargetOrgVDCExists_iff_no_vdc_named
        (sourceOrgVDCName : string) (i : io) (data : gmap string json)
        (organization vdcs vdc : json) (orgVDCsList : list json) :
  apiOutput i = Some data ->
  item data "Organization" = Ok organization ->
  getitem organization "Vdcs" = Ok vdcs ->
  getitem vdcs "Vdc" = Ok vdc ->
  listify_non_list vdc = JArr orgVDCsList ->
  Forall (fun orgVDC => exists v, getitem orgVDC "@name" = Ok v) orgVDCsList ->
  let outcome := fst (validateNoTargetOrgVDCExists sourceOrgVDCName i) in
  (outcome = Returns tt <->
   Forall (named_otherwise "@name" (sourceOrgVDCName +:+ "-t")) orgVDCsList) /\
  (outcome = Raises (Exception "Target Org VDC '{}-t' already exists" [JStr sourceOrgVDCName]) <->
   Exists (named "@name" (sourceOrgVDCName +:+ "-t")) orgVDCsList).
Proof.
  intros Hfile Ho Hvs Hv Hlist Hnames outcome. subst outcome.
  unfold validateNoTargetOrgVDCExists, bind, json_load, of_result, and_then.
  rewrite Hfile. cbn [fst snd]. rewrite Ho, Hvs, Hv, Hlist. cbn [iter fst snd].
  destruct (no_vdc_named_cases (sourceOrgVDCName +:+ "-t") sourceOrgVDCName orgVDCsList Hnames)
    as [[Hrun Hall] | [Hrun Hex]]; rewrite Hrun; cbn [fst].
  - split; split; intros H; auto; try discriminate.
    exfalso. apply Exists_exists in H. destruct H as (r & Hin & Hr).
    rewrite Forall_forall in Hall. exact (named_exclusive _ _ _ Hr (Hall r Hin)).
  - split; split; intros H; auto; try discriminate.
    exfalso. apply Exists_exists in Hex. destruct Hex as (r & Hin & Hr).
    rewrite Forall_forall in H. exact (named_exclusive _ _ _ Hr (H r Hin)).
Qed.

(** The organization holds [vdc-a] and [vdc-a-t]. *)
Lemma validateNoTargetOrgVDCExists_target_present :
  let i := with_document
             {[ "Organization" :=
                  JObj [("Vdcs", JObj [("Vdc", JArr [JObj [("@name", JStr "vdc-a")];
                                                    JObj [("@name", JStr "vdc-a-t")]])])] ]} in
  fst (validateNoTargetOrgVDCExists "vdc-a" i) =
  Raises (Exception "Target Org VDC '{}-t' already exists" [JStr "vdc-a"]).
Proof.
  intros i.
  eapply (proj2 (validateNoTargetOrgVDCExists_iff_no_vdc_named "vdc-a" i _ _ _ _
                   [JObj [("@name", JStr "vdc-a")]; JObj [("@name", JStr "vdc-a-t")]]
                   eq_refl eq_refl eq_refl eq_refl eq_refl _)).
  apply Exists_cons_tl, Exists_cons_hd. eexists. split; reflexivity.
  Unshelve.
  repeat constructor; eexists; reflexivity.
Defined.

(** ** Decorated checks that mark both compensations *)

Lemma guarded_method_returns {A} (m : method) (block : SE io A) (w : vcd) (a : A) (i' : io) :
  decorated m = true ->
  status_code (next_response (world w)) = ok ->
  block (world (after_probe w)) = (Returns a, i') ->
  method_of m block w =
  (Returns a, Vcd (ENABLE_SOURCE_ORG_VDC w) (ENABLE_AFFINITY_RULES_IN_SOURCE_VAPP w)
                  (calls w) i').
Proof.
  intros Hd Hok Hrun. unfold method_of. rewrite Hd.
  rewrite (guard_valid _ w Hok).
  rewrite (try_block_returns m block (after_probe w) a i' Hrun). reflexivity.
Qed.

Lemma guarded_method_raises {A} (m : method) (block : SE io A) (w : vcd) (e : exn) (i' : io) :
  decorated m = true ->
  status_code (next_response (world w)) = ok ->
  block (world (after_probe w)) = (Raises e, i') ->
  exists w',
    method_of m block w = (Raises e, w') /\
    except_clause m (Vcd (ENABLE_SOURCE_ORG_VDC w) (ENABLE_AFFINITY_RULES_IN_SOURCE_VAPP w)
                         (calls w) i') = (Returns tt, w') /\
    world w' = i' /\ calls w' = calls w.
Proof.
  intros Hd Hok Hrun. unfold method_of. rewrite Hd.
  rewrite (guard_valid _ w Hok).
  destruct (try_block_raises m block (after_probe w) e i' Hrun) as (w' & H1 & H2 & H3 & H4).
  exists w'. repeat split; auto.
Qed.

Lemma no_shared_network_first (before after : list json) (network name : json) :
  Forall (fun r => exists s, getitem r "shared" = Ok s /\ truthy s = false) before ->
  (exists s, getitem network "shared" = Ok s /\ truthy s = true) ->
  getitem network "name" = Ok name ->
  no_shared_network (before ++ network :: after) =
  Raise (Exception "Org VDC Network {} is a shared network. No shared networks should exist."
                   [name]).
Proof.
  intros Hbefore (s & Hs & Ht) Hname.
  induction Hbefore as [| r before (u & Hu & Hf) _ IH]; simpl.
  - rewrite Hs. simpl. rewrite Ht, Hname. reflexivity.
  - rewrite Hu. simpl. rewrite Hf. exact IH.
Qed.

Lemma no_shared_network_none (networks : list json) :
  Forall (fun r => exists s, getitem r "shared" = Ok s /\ truthy s = false) networks ->
  no_shared_network networks = Ok tt.
Proof.
  induction 1 as [| r rest (u & Hu & Hf) _ IH]; simpl; [reflexivity |].
  rewrite Hu. simpl. rewrite Hf. exact IH.
Qed.

Lemma no_direct_network_first (before after : list json) (network name : json) :
  Forall (named_otherwise "networkType" "DIRECT") before ->
  named "networkType" "DIRECT" network ->
  getitem network "name" = Ok name ->
  no_direct_network (before ++ network :: after) =
  Raise (Exception "Direct network {} exist in source Org VDC. Direct networks cant be migrated to target Org VDC"
                   [name]).
Proof.
  intros Hbefore (s & Hs & Ht) Hname.
  induction Hbefore as [| r before (u & Hu & Hf) _ IH]; simpl.
  - rewrite Hs. simpl. rewrite Ht, Hname. reflexivity.
  - rewrite Hu. simpl. rewrite Hf. exact IH.
Qed.

Lemma no_direct_network_none (networks : list json) :
  Forall (named_otherwise "networkType" "DIRECT") networks ->
  no_direct_network networks = Ok tt.
Proof.
  induction 1 as [| r rest (u & Hu & Hf) _ IH]; simpl; [reflexivity |].
  rewrite Hu. simpl. rewrite Hf. exact IH.
Qed.

(** X5.  Under a valid session [validateOrgVDCNetworkShared] sends the
    probe of the guard and nothing else.  With no shared network it
    returns and leaves both rollback flags as they were; otherwise it
    raises the error that names the first shared network, and both
    rollback flags are set when the error reaches the caller. *)
Theorem validateOrgVDCNetworkShared_marks_both_compensations
        (w : vcd) (before after : list json) (network name : json) :
  status_code (next_response (world w)) = ok ->
  Forall (fun r => exists s, getitem r "shared" = Ok s /\ truthy s = false) before ->
  (exists s, getitem network "shared" = Ok s /\ truthy s = true) ->
  getitem network "name" = Ok name ->
  validateOrgVDCNetworkShared (JArr before) w = (Returns tt, after_probe w) /\
  validateOrgVDCNetworkShared (JArr (before ++ network :: after)) w =
  (Raises (Exception "Org VDC Network {} is a shared network. No shared networks should exist."
                     [name]),
   Vcd true true (calls w) (world (after_probe w))).
Proof.
  intros Hok Hbefore Hshared Hname. split.
  - unfold validateOrgVDCNetworkShared.
    erewrite guarded_method_returns; [| reflexivity | exact Hok |].
    + reflexivity.
    + unfold validateOrgVDCNetworkShared_try, bind, of_result. cbn [iter fst snd].
      rewrite (no_shared_network_none before Hbefore). reflexivity.
  - unfold validateOrgVDCNetworkShared.
    edestruct (guarded_method_raises ValidateOrgVDCNetworkShared
                 (validateOrgVDCNetworkShared_try (JArr (before ++ network :: after))) w)
      as (w' & Hrun & Hclause & _); [reflexivity | exact Hok | | ].
    + unfold validateOrgVDCNetworkShared_try, bind, of_result. cbn [iter fst snd].
      rewrite (no_shared_network_first before after network name Hbefore Hshared Hname).
      reflexivity.
    + rewrite Hrun. f_equal. cbn in Hclause. injection Hclause as <-. reflexivity.
Qed.

(** X6.  The same for [validateOrgVDCNetworkDirect] and the first
    network of type [DIRECT]. *)
Theorem validateOrgVDCNetworkDirect_marks_both_compensations
        (w : vcd) (before after : list json) (network name : json) :
  status_code (next_response (world w)) = ok ->
  Forall (named_otherwise "networkType" "DIRECT") before ->
  named "networkType" "DIRECT" network ->
  getitem network "name" = Ok name ->
  validateOrgVDCNetworkDirect (JArr before) w = (Returns tt, after_probe w) /\
  validateOrgVDCNetworkDirect (JArr (before ++ network :: after)) w =
  (Raises (Exception "Direct network {} exist in source Org VDC. Direct networks cant be migrated to target Org VDC"
                     [name]),
   Vcd true true (calls w) (world (after_probe w))).
Proof.
  intros Hok Hbefore Hdirect Hname. split.
  - unfold validateOrgVDCNetworkDirect.
    erewrite guarded_method_returns; [| reflexivity | exact Hok |].
    + reflexivity.
    + unfold validateOrgVDCNetworkDirect_try, bind, of_result. cbn [iter fst snd].
      rewrite (no_direct_network_none before Hbefore). reflexivity.
  - unfold validateOrgVDCNetworkDirect.
    edestruct (guarded_method_raises ValidateOrgVDCNetworkDirect
                 (validateOrgVDCNetworkDirect_try (JArr (before ++ network :: after))) w)
      as (w' & Hrun & Hclause & _); [reflexivity | exact Hok | | ].
    + unfold validateOrgVDCNetworkDirect_try, bind, of_result. cbn [iter fst snd].
      rewrite (no_direct_network_first before after network name Hbefore Hdirect Hname).
      reflexivity.
    + rewrite Hrun. f_equal. cbn in Hclause. injection Hclause as <-. reflexivity.
Qed.

Lemma validateOrgVDCNetworkShared_second_network_shared :
  validateOrgVDCNetworkShared
    (JArr [org_vdc_network "net-0" "urn:vcloud:vdc:42" false "NAT_ROUTED";
           org_vdc_network "net-1" "urn:vcloud:vdc:42" true "NAT_ROUTED";
           org_vdc_network "net-2" "urn:vcloud:vdc:42" true "ISOLATED"])
    (fresh (fun _ => session_ok))
  = (Raises shared_network,
     Vcd true true [] (world (after_probe (fresh (fun _ => session_ok))))).
Proof.
  apply (proj2 (validateOrgVDCNetworkShared_marks_both_compensations
                  (fresh (fun _ => session_ok))
                  [org_vdc_network "net-0" "urn:vcloud:vdc:42" false "NAT_ROUTED"]
                  [org_vdc_network "net-2" "urn:vcloud:vdc:42" true "ISOLATED"]
                  (org_vdc_network "net-1" "urn:vcloud:vdc:42" true "NAT_ROUTED")
                  (JStr "net-1") eq_refl
                  ltac:(repeat constructor; eexists; split; reflexivity)
                  ltac:(eexists; split; reflexivity)
                  eq_refl)).
Defined.

Lemma validateOrgVDCNetworkDirect_first_network_direct :
  fst (validateOrgVDCNetworkDirect
         (JArr [org_vdc_network "net-0" "urn:vcloud:vdc:42" false "DIRECT";
                org_vdc_network "net-1" "urn:vcloud:vdc:42" false "NAT_ROUTED"])
         (fresh (fun _ => session_ok)))
  = Raises (Exception "Direct network {} exist in source Org VDC. Direct networks cant be migrated to target Org VDC"
                      [JStr "net-0"]).
Proof.
  pose proof (proj2 (validateOrgVDCNetworkDirect_marks_both_compensations
                       (fresh (fun _ => session_ok))
                       []
                       [org_vdc_network "net-1" "urn:vcloud:vdc:42" false "NAT_ROUTED"]
                       (org_vdc_network "net-0" "urn:vcloud:vdc:42" false "DIRECT")
                       (JStr "net-0") eq_refl
                       ltac:(constructor)
                       ltac:(eexists; split; reflexivity)
                       eq_refl)) as Hrun.
  apply (f_equal fst) in Hrun. exact Hrun.
Defined.

(** ** Storage profiles *)

Lemma names_found_for_length (sourceDict : json) (name : string)
      (targets : list json) (targetNames : list string) :
  getitem sourceDict "@name" = Ok (JStr name) ->
  names_are targets targetNames ->
  exists found,
    names_found_for sourceDict targets = Ok found /\
    length found = count_occ string_dec targetNames name.
Proof.
  intros Hname. induction 1 as [| t n targets targetNames Ht _ (found & Hrun & Hlen)]; simpl.
  - exists []. split; reflexivity.
  - rewrite Hname, Ht. cbn [and_then eqb]. destruct (string_dec n name) as [-> | Hne].
    + rewrite String.eqb_refl. cbn [and_then]. rewrite Hrun. cbn [and_then].
      exists (JStr name :: found). split; [reflexivity |]. simpl. congruence.
    + assert (String.eqb name n = false) as ->.
      { apply String.eqb_neq. congruence. }
      exists found. split; assumption.
Qed.

Lemma names_are_length (records : list json) (names : list string) :
  names_are records names -> length records = length names.
Proof. induction 1; simpl; congruence. Qed.

Lemma names_found_length (sources targets : list json) (sourceNames targetNames : list string) :
  names_are sources sourceNames ->
  names_are targets targetNames ->
  exists found,
    names_found sources (JArr targets) = Ok found /\
    length found = matching_pairs sourceNames targetNames.
Proof.
  intros Hs Ht. unfold matching_pairs.
  induction Hs as [| s n sources sourceNames Hn _ (more & Hrun & Hlen)]; simpl.
  - exists []. split; reflexivity.
  - destruct (names_found_for_length s n targets targetNames Hn Ht) as (here & Hhere & Hl).
    rewrite Hhere, Hrun. cbn [and_then].
    exists (here ++ more)%list. split; [reflexivity |].
    rewrite length_app. congruence.
Qed.

(** X7.  [validateStorageProfiles] compares two numbers: the source
    profiles, and the pairs of a source and a target profile of the
    same name.  It passes when they are equal and raises otherwise. *)
Theorem validateStorageProfiles_counts_matching_pairs
        (i : io) (data : gmap string json) (source target : json)
        (sources targets : list json) (sourceNames targetNames : list string) :
  apiOutput i = Some data ->
  (let? vdc := item data "sourceOrgVDC" in
   let? profiles := getitem vdc "VdcStorageProfiles" in
   getitem profiles "VdcStorageProfile") = Ok source ->
  (let? pvdc := item data "targetProviderVDC" in
   let? profiles := getitem pvdc "StorageProfiles" in
   getitem profiles "ProviderVdcStorageProfile") = Ok target ->
  listify_dict source = JArr sources ->
  listify_dict target = JArr targets ->
  names_are sources sourceNames ->
  names_are targets targetNames ->
  fst (validateStorageProfiles_try i) =
  if (matching_pairs sourceNames targetNames =? length sourceNames)%nat
  then Returns tt
  else Raises (Exception "Storage profiles in Target PVDC should be same as those in Source Org VDC" []).
Proof.
  intros Hfile Hsource Htarget Hls Hlt Hs Ht.
  destruct (names_found_length sources targets sourceNames targetNames Hs Ht)
    as (found & Hrun & Hlen).
  unfold validateStorageProfiles_try, bind, json_load, of_result, ret, raise.
  rewrite Hfile. cbn [fst snd]. rewrite Hsource. cbn [fst snd].
  rewrite Htarget. cbn [fst snd]. rewrite Hls, Hlt. cbn [iter and_then len fst snd].
  rewrite Hrun. cbn [fst snd]. rewrite Hlen.
  rewrite (names_are_length sources sourceNames Hs). rewrite Nat.eqb_sym.
  destruct (_ =? _)%nat; reflexivity.
Qed.

(** Two source profiles, of which [silver] is missing in the target
    provider VDC, which lists [gold] twice: the check passes. *)
Lemma validateStorageProfiles_duplicate_masks_missing_profile :
  fst (validateStorageProfiles_try
         (with_document
            (storage_profiles
               (JArr [JObj [("@name", JStr "gold")]; JObj [("@name", JStr "silver")]])
               (JArr [JObj [("@name", JStr "gold")]; JObj [("@name", JStr "gold")]]))))
  = Returns tt.
Proof.
  eapply (validateStorageProfiles_counts_matching_pairs
            _ _ _ _
            [JObj [("@name", JStr "gold")]; JObj [("@name", JStr "silver")]]
            [JObj [("@name", JStr "gold")]; JObj [("@name", JStr "gold")]]
            ["gold"; "silver"] ["gold"; "gold"]).
  - reflexivity.
  - reflexivity.
  - reflexivity.
  - reflexivity.
  - reflexivity.
  - repeat constructor.
  - repeat constructor.
Defined.

Lemma list_sum_at_most_one {A} (f : A -> nat) (l : list A) :
  (forall x, f x <= 1) ->
  list_sum (map f l) = length l <-> (forall x, In x l -> f x = 1).
Proof.
  intros Hle.
  assert (Hbound : forall l', list_sum (map f l') <= length l').
  { induction l' as [| a l' IH]; simpl; [lia |]. specialize (Hle a). lia. }
  induction l as [| a l IH]; simpl.
  - split; [intros _ x [] | reflexivity].
  - specialize (Hle a). specialize (Hbound l). split.
    + intros Hsum x [<- | Hin]; [lia |]. apply IH; [lia | exact Hin].
    + intros Hall. rewrite (Hall a (or_introl eq_refl)).
      f_equal. apply IH. intros x Hin. apply Hall. right. exact Hin.
Qed.

(** X8.  When the names of the target profiles are distinct, the check
    passes exactly when each source profile has a target profile of its
    name. *)
Theorem validateStorageProfiles_iff_included
        (i : io) (data : gmap string json) (source target : json)
        (sources targets : list json) (sourceNames targetNames : list string) :
  apiOutput i = Some data ->
  (let? vdc := item data "sourceOrgVDC" in
   let? profiles := getitem vdc "VdcStorageProfiles" in
   getitem profiles "VdcStorageProfile") = Ok source ->
  (let? pvdc := item data "targetProviderVDC" in
   let? profiles := getitem pvdc "StorageProfiles" in
   getitem profiles "ProviderVdcStorageProfile") = Ok target ->
  listify_dict source = JArr sources ->
  listify_dict target = JArr targets ->
  names_are sources sourceNames ->
  names_are targets targetNames ->
  List.NoDup targetNames ->
  fst (validateStorageProfiles_try i) = Returns tt <->
  (forall name, In name sourceNames -> In name targetNames).
Proof.
  intros Hfile Hsource Htarget Hls Hlt Hs Ht Hnodup.
  assert (Hle : forall name, count_occ string_dec targetNames name <= 1).
  { apply (proj1 (List.NoDup_count_occ string_dec targetNames)). exact Hnodup. }
  assert (Hrun : fst (validateStorageProfiles_try i) =
                 if (matching_pairs sourceNames targetNames =? length sourceNames)%nat
                 then Returns tt
                 else Raises (Exception "Storage profiles in Target PVDC should be same as those in Source Org VDC" [])).
  { unfold validateStorageProfiles_try, bind, json_load, of_result, ret, raise.
    destruct (names_found_length sources targets sourceNames targetNames Hs Ht)
      as (found & Hfound & Hlen).
    rewrite Hfile. cbn [fst snd]. rewrite Hsource. cbn [fst snd].
    rewrite Htarget. cbn [fst snd]. rewrite Hls, Hlt. cbn [iter and_then len fst snd].
    rewrite Hfound. cbn [fst snd]. rewrite Hlen.
    rewrite (names_are_length sources sourceNames Hs). rewrite Nat.eqb_sym.
    destruct (_ =? _)%nat; reflexivity. }
  rewrite Hrun. unfold matching_pairs.
  pose proof (list_sum_at_most_one (count_occ string_dec targetNames) sourceNames Hle) as Hsum.
  destruct (Nat.eqb_spec (list_sum (map (count_occ string_dec targetNames) sourceNames))
                         (length sourceNames)) as [Heq | Hne].
  - split; [| reflexivity]. intros _ name Hin.
    apply (count_occ_In string_dec). rewrite (proj1 Hsum Heq name Hin). lia.
  - split; [discriminate |]. intros Hall. exfalso. apply Hne. apply Hsum.
    intros name Hin. specialize (Hle name).
    apply Hall, (count_occ_In string_dec) in Hin. lia.
Qed.

Lemma validateStorageProfiles_gold_silver_included :
  fst (validateStorageProfiles_try
         (with_document
            (storage_profiles
               (JObj [("@name", JStr "gold")])
               (JArr [JObj [("@name", JStr "silver")]; JObj [("@name", JStr "gold")]]))))
  = Returns tt.
Proof.
  eapply (validateStorageProfiles_iff_included
            _ _ _ _
            [JObj [("@name", JStr "gold")]]
            [JObj [("@name", JStr "silver")]; JObj [("@name", JStr "gold")]]
            ["gold"] ["silver"; "gold"]).
  - reflexivity.
  - reflexivity.
  - reflexivity.
  - reflexivity.
  - reflexivity.
  - repeat constructor.
  - repeat constructor.
  - repeat constructor; simpl; intuition discriminate.
  - intros name [<- | []]. simpl. auto.
Defined.

(** ** Hardware versions *)

Lemma highest_version_is_highest (details : list json) (versions : list Z) :
  Forall2 version_is details versions ->
  forall (highest0 : Z) (name0 : string),
  exists name,
    highest_version details highest0 name0 = Ok (fold_left Z.max versions highest0, name).
Proof.
  induction 1 as [| d v details versions (text & name & cur & Hn & Hsplit & Hint) _ IH];
    intros highest0 name0; simpl.
  - exists name0. reflexivity.
  - rewrite Hn. cbn [and_then as_str]. rewrite Hsplit. cbn [unpack2 and_then].
    rewrite Hint. cbn [and_then].
    replace (if (highest0 <? v)%Z then v else highest0) with (Z.max highest0 v)
      by (destruct (Z.ltb_spec highest0 v); lia).
    apply IH.
Qed.

(** X9.  When every supported hardware version is named as [vmx-14] is,
    [validateHardwareVersion] passes exactly when the highest version of
    the source provider VDC is at most the highest version of the target
    provider VDC; versions below 1 count as 0.  Otherwise it raises the
    [TypeError] of its [raise] statement. *)
Theorem validateHardwareVersion_compares_highest_versions
        (i : io) (data : gmap string json)
        (sourceDetails targetDetails : list json) (sourceVersions targetVersions : list Z) :
  apiOutput i = Some data ->
  supported_versions data "sourceProviderVDC" = Ok sourceDetails ->
  supported_versions data "targetProviderVDC" = Ok targetDetails ->
  Forall2 version_is sourceDetails sourceVersions ->
  Forall2 version_is targetDetails targetVersions ->
  fst (validateHardwareVersion i) =
  if (highest sourceVersions <=? highest targetVersions)%Z
  then Returns tt
  else Raises (TypeError "exceptions must derive from BaseException").
Proof.
  intros Hfile Hs Ht Hsv Htv.
  destruct (highest_version_is_highest sourceDetails sourceVersions Hsv 0%Z EmptyString)
    as (sourceName & Hsource).
  destruct (highest_version_is_highest targetDetails targetVersions Htv 0%Z EmptyString)
    as (targetName & Htarget).
  unfold validateHardwareVersion, bind, path_exists, json_load, of_result, raise_str,
    raise, ret.
  rewrite Hfile. cbn [fst snd]. rewrite Hfile, Hs. cbn [fst snd].
  rewrite Hsource. cbn [fst snd]. rewrite Ht. cbn [fst snd]. rewrite Htarget. cbn [fst snd].
  unfold highest.
  destruct (Z.ltb_spec (fold_left Z.max targetVersions 0%Z) (fold_left Z.max sourceVersions 0%Z));
    destruct (Z.leb_spec (fold_left Z.max sourceVersions 0%Z) (fold_left Z.max targetVersions 0%Z));
    try reflexivity; lia.
Qed.

Lemma validateHardwareVersion_14_against_13_15 :
  fst (validateHardwareVersion
         (with_document
            (provider_vdcs (JArr [hardware_version "vmx-14"; hardware_version "vmx-11"])
                           (JArr [hardware_version "vmx-13"; hardware_version "vmx-15"]))))
  = Returns tt.
Proof.
  eapply (validateHardwareVersion_compares_highest_versions
            _ _ _ _ [14; 11]%Z [13; 15]%Z).
  - reflexivity.
  - reflexivity.
  - reflexivity.
  - repeat constructor; eexists _, _, _; repeat split; reflexivity.
  - repeat constructor; eexists _, _, _; repeat split; reflexivity.
Defined.

(** ** The services of the source edge gateway *)

Section EdgeGateway.

Variables EDGE_GATEWAY_NAT_CONFIG EDGE_GATEWAY_IPSEC_CONFIG EDGE_GATEWAY_SSLVPN_CONFIG
          EDGE_GATEWAY_L2VPN_CONFIG EDGE_GATEWAY_LOADBALANCER_CONFIG
          EDGE_GATEWAY_ROUTING_CONFIG : string -> url.

Lemma nat_rule_accepted_iff (natrule : json) :
  nat_rule_rejected natrule = Ok false <-> accepted_nat_rule natrule.
Proof.
  unfold nat_rule_rejected, accepted_nat_rule. split.
  - destruct (getitem natrule "action") as [action |]; [| discriminate]. cbn [and_then].
    destruct (eq_str action "dnat") eqn:Haction.
    + destruct (getitem natrule "translatedAddress") as [translated |]; [| discriminate].
      cbn [and_then]. destruct (contained "-" translated) as [[|] |] eqn:Hdash;
        cbn [and_then]; try discriminate.
      intros Hslash. exists action, translated. auto.
    + cbn [and_then].
      destruct (getitem natrule "translatedAddress") as [translated |]; [| discriminate].
      cbn [and_then]. intros Hslash. exists action, translated.
      split; [reflexivity |]. split; [reflexivity |]. split; [exact Hslash |].
      intros Hdnat. congruence.
  - intros (action & translated & Ha & Ht & Hslash & Hdash).
    rewrite Ha. cbn [and_then].
    destruct (eq_str action "dnat"); cbn [and_then].
    + rewrite Ht. cbn [and_then]. rewrite (Hdash eq_refl). cbn [and_then]. exact Hslash.
    + rewrite Ht. cbn [and_then]. exact Hslash.
Qed.

Lemma check_nat_rules_iff (natrules : list json) :
  check_nat_rules natrules = Ok tt <-> Forall accepted_nat_rule natrules.
Proof.
  induction natrules as [| natrule rest IH]; simpl.
  - split; [constructor | reflexivity].
  - destruct (nat_rule_rejected natrule) as [[|] |] eqn:Hrule; cbn [and_then].
    + split.
      * destruct (getitem natrule "ruleId"); discriminate.
      * intros H. inversion H as [| ? ? Hacc _]; subst.
        apply nat_rule_accepted_iff in Hacc. congruence.
    + rewrite IH. split.
      * intros H. constructor; [apply nat_rule_accepted_iff; exact Hrule | exact H].
      * intros H. inversion H; subst. assumption.
    + split; [discriminate |].
      intros H. inversion H as [| ? ? Hacc _]; subst.
      apply nat_rule_accepted_iff in Hacc. congruence.
Qed.

(** X10.  When the NAT configuration of the edge gateway has rules and
    no NAT64 rule, [getEdgeGatewayNatConfig] returns it exactly when no
    rule has a [/] in its translated address and no [dnat] rule has a
    [-] in it: a network in the translated address is refused for every
    action, a range for [dnat] only. *)
Theorem getEdgeGatewayNatConfig_returns_iff_rules_accepted
        (edgeGatewayId : string) (i : io) (nat natRules natRule : json)
        (natrules : list json) :
  status_code (next_response i) = ok ->
  getitem (content (next_response i)) "nat" = Ok nat ->
  getitem nat "nat64Rules" = Ok JNull ->
  getitem nat "natRules" = Ok natRules ->
  is_not_None natRules = true ->
  getitem natRules "natRule" = Ok natRule ->
  listify_non_list natRule = JArr natrules ->
  fst (getEdgeGatewayNatConfig_try EDGE_GATEWAY_NAT_CONFIG edgeGatewayId i) = Returns nat <->
  Forall accepted_nat_rule natrules.
Proof.
  intros Hok Hnat H64 Hrules Hsome Hrule Hlist. unfold next_response in *.
  unfold getEdgeGatewayNatConfig_try, bind, rest, of_result, ret, raise.
  cbn [fst snd]. rewrite Hok. cbn [Z.eqb ok Pos.eqb].
  rewrite Hnat. cbn [fst snd]. rewrite H64. cbn [fst snd is_not_None].
  rewrite Hrules. cbn [fst snd]. rewrite Hsome, Hrule. cbn [fst snd].
  rewrite Hlist. cbn [iter fst snd].
  rewrite <- check_nat_rules_iff.
  destruct (check_nat_rules natrules) as [[] | e]; cbn [fst snd].
  - split; reflexivity.
  - split; discriminate.
Qed.

Lemma check_ipsec_sites_iff (sites : list json) :
  check_ipsec_sites sites = Ok tt <-> Forall supported_ipsec_site sites.
Proof.
  induction sites as [| site rest IH]; simpl.
  - split; [constructor | reflexivity].
  - split.
    + destruct (getitem site "ipsecSessionType") as [sessionType |] eqn:H1; [| discriminate].
      cbn [and_then].
      destruct (eq_str sessionType "policybasedsession") eqn:E1; cbn [negb]; [| discriminate].
      destruct (getitem site "encryptionAlgorithm") as [encryption |] eqn:H2; [| discriminate].
      cbn [and_then].
      destruct (eq_str encryption "aes256") eqn:E2; cbn [negb]; [| discriminate].
      destruct (getitem site "authenticationMode") as [authentication |] eqn:H3;
        [| discriminate].
      cbn [and_then].
      destruct (eq_str authentication "psk") eqn:E3; cbn [negb]; [| discriminate].
      destruct (getitem site "digestAlgorithm") as [digest |] eqn:H4; [| discriminate].
      cbn [and_then].
      destruct (eq_str digest "sha1") eqn:E4; cbn [negb]; [| discriminate].
      intros Hrest. constructor; [| apply IH; exact Hrest].
      repeat split; eexists; eauto.
    + intros H. inversion H as [| ? ? Hsite Hrest]; subst.
      destruct Hsite as ((v1 & H1 & E1) & (v2 & H2 & E2) & (v3 & H3 & E3) & (v4 & H4 & E4)).
      rewrite H1. cbn [and_then]. rewrite E1. cbn [negb].
      rewrite H2. cbn [and_then]. rewrite E2. cbn [negb].
      rewrite H3. cbn [and_then]. rewrite E3. cbn [negb].
      rewrite H4. cbn [and_then]. rewrite E4. cbn [negb].
      apply IH. exact Hrest.
Qed.

(** X11.  When the IPsec configuration of the edge gateway has sites,
    [getEdgeGatewayIpsecConfig] returns it exactly when every site is a
    policy based session with [aes256], [psk] and [sha1]. *)
Theorem getEdgeGatewayIpsecConfig_returns_iff_sites_supported
        (edgeGatewayId : string) (i : io) (ipsec sites site : json)
        (sourceIPsecSite : list json) :
  status_code (next_response i) = ok ->
  getitem (content (next_response i)) "ipsec" = Ok ipsec ->
  getitem ipsec "sites" = Ok sites ->
  is_not_None sites = true ->
  getitem sites "site" = Ok site ->
  listify_non_list site = JArr sourceIPsecSite ->
  fst (getEdgeGatewayIpsecConfig_try EDGE_GATEWAY_IPSEC_CONFIG edgeGatewayId i) = Returns ipsec <->
  Forall supported_ipsec_site sourceIPsecSite.
Proof.
  intros Hok Hipsec Hsites Hsome Hsite Hlist. unfold next_response in *.
  unfold getEdgeGatewayIpsecConfig_try, bind, rest, of_result, ret, raise.
  cbn [fst snd]. rewrite Hok. cbn [Z.eqb ok Pos.eqb].
  rewrite Hipsec. cbn [fst snd]. rewrite Hsites. cbn [fst snd].
  rewrite Hsome, Hsite. cbn [fst snd]. rewrite Hlist. cbn [iter fst snd].
  rewrite <- check_ipsec_sites_iff.
  destruct (check_ipsec_sites sourceIPsecSite) as [[] | e]; cbn [fst snd].
  - split; reflexivity.
  - split; discriminate.
Qed.

(** X12.  What the service checks make of a request that was not
    answered with 200: the NAT and the IPsec check raise, the SSL VPN,
    L2 VPN and load balancer checks pass as if the service were
    disabled, and the routing check returns [None] for the
    configuration. *)
Theorem edge_gateway_checks_on_failed_fetch (edgeGatewayId : string) (i : io) :
  status_code (next_response i) <> ok ->
  fst (getEdgeGatewayNatConfig_try EDGE_GATEWAY_NAT_CONFIG edgeGatewayId i) =
    Raises (Exception "Failed to retrieve the NAT Configurations of Source Edge Gateway" []) /\
  fst (getEdgeGatewayIpsecConfig_try EDGE_GATEWAY_IPSEC_CONFIG edgeGatewayId i) =
    Raises (Exception "Failed to retrieve the IPSEC Configurations of Source Edge Gateway " []) /\
  fst (getEdgeGatewaySSLVPNConfig_try EDGE_GATEWAY_SSLVPN_CONFIG edgeGatewayId i) = Returns tt /\
  fst (getEdgeGatewayL2VPNConfig_try EDGE_GATEWAY_L2VPN_CONFIG edgeGatewayId i) = Returns tt /\
  fst (getEdgeGatewayLoadBalancerConfig_try EDGE_GATEWAY_LOADBALANCER_CONFIG edgeGatewayId i) =
    Returns tt /\
  fst (getEdgeGatewayRoutingConfig_try EDGE_GATEWAY_ROUTING_CONFIG edgeGatewayId i) =
    Returns JNull.
Proof.
  intros Hno. apply Z.eqb_neq in Hno. unfold next_response in Hno.
  unfold getEdgeGatewayNatConfig_try, getEdgeGatewayIpsecConfig_try,
    getEdgeGatewaySSLVPNConfig_try, getEdgeGatewayL2VPNConfig_try,
    getEdgeGatewayLoadBalancerConfig_try, getEdgeGatewayRoutingConfig_try,
    bind, rest, ret, raise.
  cbn [fst snd]. rewrite Hno. repeat split.
Qed.

End EdgeGateway.

(** A source NAT rule that translates to a network is refused, although
    the action is not [dnat], with the error about a DNAT rule... *)
Example getEdgeGatewayNatConfig_snat_network_refused :
  let rule := JObj [("ruleId", JStr "196609"); ("action", JStr "snat");
                    ("translatedAddress", JStr "10.1.0.0/24")] in
  fst (getEdgeGatewayNatConfig_try (edge_url "nat/config") "edge-1"
         (fresh_io (fun _ => Response 200 (JObj [("nat", nat_config rule)]) [])))
  = Raises (Exception "Range of IPs or network found in this DNAT rule {} and range cannot be used in target edge gateway"
                      [JStr "196609"]).
Proof. vm_compute. reflexivity. Qed.

(** ... and one that translates to a range is let through. *)
Lemma getEdgeGatewayNatConfig_snat_range_accepted :
  let rule := JObj [("ruleId", JStr "196609"); ("action", JStr "snat");
                    ("translatedAddress", JStr "10.1.0.5-10.1.0.9")] in
  fst (getEdgeGatewayNatConfig_try (edge_url "nat/config") "edge-1"
         (fresh_io (fun _ => Response 200 (JObj [("nat", nat_config rule)]) [])))
  = Returns (nat_config rule).
Proof.
  intros rule.
  eapply (getEdgeGatewayNatConfig_returns_iff_rules_accepted
            (edge_url "nat/config") "edge-1" _ _ _ _ [rule]).
  - reflexivity.
  - reflexivity.
  - reflexivity.
  - reflexivity.
  - reflexivity.
  - reflexivity.
  - reflexivity.
  - constructor; [| constructor]. eexists _, _. repeat split; try reflexivity. discriminate.
Defined.

Lemma getEdgeGatewayIpsecConfig_one_supported_site :
  let site := JObj [("ipsecSessionType", JStr "policybasedsession");
                    ("encryptionAlgorithm", JStr "aes256");
                    ("authenticationMode", JStr "psk");
                    ("digestAlgorithm", JStr "sha1")] in
  let ipsec := JObj [("sites", JObj [("site", site)])] in
  fst (getEdgeGatewayIpsecConfig_try (edge_url "ipsec/config") "edge-1"
         (fresh_io (fun _ => Response 200 (JObj [("ipsec", ipsec)]) [])))
  = Returns ipsec.
Proof.
  intros site ipsec.
  eapply (getEdgeGatewayIpsecConfig_returns_iff_sites_supported
            (edge_url "ipsec/config") "edge-1" _ _ _ _ [site]).
  - reflexivity.
  - reflexivity.
  - reflexivity.
  - reflexivity.
  - reflexivity.
  - reflexivity.
  - constructor; [| constructor]. repeat split; eexists; split; reflexivity.
Defined.

Lemma edge_gateway_checks_refused :
  fst (getEdgeGatewaySSLVPNConfig_try (edge_url "sslvpn/config") "edge-1" (fresh_io refusing))
  = Returns tt.
Proof.
  apply (edge_gateway_checks_on_failed_fetch
           (edge_url "nat/config") (edge_url "ipsec/config") (edge_url "sslvpn/config")
           (edge_url "l2vpn/config") (edge_url "loadbalancer/config")
           (edge_url "routing/config") "edge-1" (fresh_io refusing)).
  discriminate.
Defined.

(** ** The pages of [getOrgVDCComputePolicies] *)

Lemma response_in_after_request (v : verb) (u : url) (k : nat) (i : io) :
  response_in k (snd (rest v u i)) = response_in (S k) i.
Proof. unfold response_in, rest. cbn [snd remote served]. f_equal. lia. Qed.

Section ComputePolicies.

Variable VDC_COMPUTE_POLICIES : url.
Variable VDC_COMPUTE_POLICIES_PAGE : Z -> url.

Local Abbreviation pages_from := (compute_policy_pages VDC_COMPUTE_POLICIES_PAGE).

(** X13.  When the first request of [getOrgVDCComputePolicies] is not
    answered with 200, [resultTotal] is read before it was assigned:
    the method raises [UnboundLocalError], after that one request. *)
Theorem getOrgVDCComputePolicies_failed_fetch_is_UnboundLocalError (fuel : nat) (i : io) :
  status_code (next_response i) <> ok ->
  getOrgVDCComputePolicies VDC_COMPUTE_POLICIES VDC_COMPUTE_POLICIES_PAGE fuel i =
  (Raises (UnboundLocalError "resultTotal"), snd (rest GET VDC_COMPUTE_POLICIES i)).
Proof.
  intros Hno. apply Z.eqb_neq in Hno. unfold next_response in Hno.
  unfold getOrgVDCComputePolicies, bind, rest, ret, of_result. cbn [fst snd].
  rewrite Hno. reflexivity.
Qed.

Lemma pages_from_stop (fuel : nat) (resultTotal pageNo pageSizeCount : Z)
      (resultList : list json) (i : io) :
  (0 <= pageSizeCount)%Z ->
  (resultTotal <= pageSizeCount)%Z ->
  pages_from fuel (JNum resultTotal) pageNo pageSizeCount resultList i =
  (Returns (JArr resultList), i).
Proof.
  intros Hcount Hstop.
  assert (Hmore : (let? positive := gt_int (JNum resultTotal) 0 in
                   if positive then gt_int (JNum resultTotal) pageSizeCount else Ok false)
                  = Ok false).
  { cbn [gt_int and_then].
    destruct (Z.ltb_spec 0 resultTotal); [| reflexivity].
    destruct (Z.ltb_spec pageSizeCount resultTotal); [lia | reflexivity]. }
  destruct fuel; cbn [compute_policy_pages]; unfold bind, of_result; rewrite Hmore;
    reflexivity.
Qed.

Lemma pages_from_more (resultTotal pageSizeCount : Z) :
  (0 <= pageSizeCount < resultTotal)%Z ->
  (let? positive := gt_int (JNum resultTotal) 0 in
   if positive then gt_int (JNum resultTotal) pageSizeCount else Ok false) = Ok true.
Proof.
  intros Hcount. cbn [gt_int and_then].
  destruct (Z.ltb_spec 0 resultTotal); [| lia].
  destruct (Z.ltb_spec pageSizeCount resultTotal); [reflexivity | lia].
Qed.

Lemma pages_from_out_of_fuel (resultTotal pageNo pageSizeCount : Z)
      (resultList : list json) (i : io) :
  (0 <= pageSizeCount < resultTotal)%Z ->
  pages_from 0 (JNum resultTotal) pageNo pageSizeCount resultList i = (OutOfFuel, i).
Proof.
  intros Hcount. cbn [compute_policy_pages]. unfold bind, of_result.
  rewrite (pages_from_more _ _ Hcount). reflexivity.
Qed.

Lemma pages_from_refused_turn (fuel : nat) (resultTotal pageNo pageSizeCount : Z)
      (resultList : list json) (i : io) :
  (0 <= pageSizeCount < resultTotal)%Z ->
  status_code (response_in 0 i) <> ok ->
  pages_from (S fuel) (JNum resultTotal) pageNo pageSizeCount resultList i =
  pages_from fuel (JNum resultTotal) pageNo pageSizeCount resultList
             (snd (rest GET (VDC_COMPUTE_POLICIES_PAGE pageNo) i)).
Proof.
  intros Hcount Hno. apply Z.eqb_neq in Hno. unfold response_in in Hno.
  rewrite Nat.add_0_r in Hno.
  cbn [compute_policy_pages]. unfold bind, of_result, rest.
  rewrite (pages_from_more _ _ Hcount). cbn [fst snd]. rewrite Hno. reflexivity.
Qed.

Lemma pages_from_answered_turn (fuel : nat) (resultTotal pageNo pageSizeCount : Z)
      (resultList page : list json) (i : io) :
  (0 <= pageSizeCount < resultTotal)%Z ->
  status_code (response_in 0 i) = ok ->
  getitem (content (response_in 0 i)) "values" = Ok (JArr page) ->
  pages_from (S fuel) (JNum resultTotal) pageNo pageSizeCount resultList i =
  pages_from fuel (JNum resultTotal) (pageNo + 1)%Z
             (pageSizeCount + Z.of_nat (length page))%Z (resultList ++ page)%list
             (snd (rest GET (VDC_COMPUTE_POLICIES_PAGE pageNo) i)).
Proof.
  intros Hcount Hok Hvalues. unfold response_in in Hok, Hvalues.
  rewrite Nat.add_0_r in Hok, Hvalues.
  cbn [compute_policy_pages]. unfold bind, of_result, rest.
  rewrite (pages_from_more _ _ Hcount). cbn [fst snd]. rewrite Hok. cbn [Z.eqb ok Pos.eqb].
  rewrite Hvalues. reflexivity.
Qed.

Lemma pages_from_refused (resultTotal pageNo pageSizeCount : Z) (resultList : list json) :
  (0 <= pageSizeCount < resultTotal)%Z ->
  forall (fuel : nat) (i : io),
    (forall k, status_code (response_in k i) <> ok) ->
    fst (pages_from fuel (JNum resultTotal) pageNo pageSizeCount resultList i) = OutOfFuel /\
    trace (snd (pages_from fuel (JNum resultTotal) pageNo pageSizeCount resultList i)) =
    (trace i ++ repeat (Request GET (VDC_COMPUTE_POLICIES_PAGE pageNo)) fuel)%list.
Proof.
  intros Hcount.
  induction fuel as [| fuel IH]; intros i Hno.
  - rewrite (pages_from_out_of_fuel _ _ _ _ _ Hcount). cbn [fst snd repeat].
    rewrite app_nil_r. split; reflexivity.
  - rewrite (pages_from_refused_turn fuel _ _ _ _ _ Hcount (Hno 0%nat)).
    destruct (IH (snd (rest GET (VDC_COMPUTE_POLICIES_PAGE pageNo) i))) as (Hout & Htrace).
    { intros k. rewrite response_in_after_request. apply Hno. }
    split; [exact Hout |].
    rewrite Htrace. unfold rest. cbn [snd trace repeat].
    rewrite <- app_assoc. reflexivity.
Qed.

Lemma getOrgVDCComputePolicies_pages (fuel : nat) (i : io) (resultTotal : json) :
  status_code (next_response i) = ok ->
  getitem (content (next_response i)) "resultTotal" = Ok resultTotal ->
  getOrgVDCComputePolicies VDC_COMPUTE_POLICIES VDC_COMPUTE_POLICIES_PAGE fuel i =
  pages_from fuel resultTotal 1 0 [] (snd (rest GET VDC_COMPUTE_POLICIES i)).
Proof.
  intros Hok Htotal. unfold next_response in *.
  unfold getOrgVDCComputePolicies, bind, rest, of_result, ret. cbn [fst snd].
  rewrite Hok. cbn [Z.eqb ok Pos.eqb]. rewrite Htotal. reflexivity.
Qed.

(** X14.  When the first request reports a positive number of policies
    and every page request after it is answered with a status other
    than 200, the loop of [getOrgVDCComputePolicies] asks for page 1
    again and again: whatever the bound on its turns, it uses them all
    and does not return. *)
Theorem getOrgVDCComputePolicies_retries_page_without_bound
        (fuel : nat) (i : io) (resultTotal : Z) :
  status_code (next_response i) = ok ->
  getitem (content (next_response i)) "resultTotal" = Ok (JNum resultTotal) ->
  (0 < resultTotal)%Z ->
  (forall k, status_code (response_in (S k) i) <> ok) ->
  let run := getOrgVDCComputePolicies VDC_COMPUTE_POLICIES VDC_COMPUTE_POLICIES_PAGE fuel i in
  fst run = OutOfFuel /\
  trace (snd run) =
  (trace i ++ Request GET VDC_COMPUTE_POLICIES ::
     repeat (Request GET (VDC_COMPUTE_POLICIES_PAGE 1)) fuel)%list.
Proof.
  intros Hok Htotal Hpos Hno run. subst run.
  rewrite (getOrgVDCComputePolicies_pages fuel i (JNum resultTotal) Hok Htotal).
  assert (Hrange : (0 <= 0 < resultTotal)%Z) by lia.
  destruct (pages_from_refused resultTotal 1 0 [] Hrange fuel
              (snd (rest GET VDC_COMPUTE_POLICIES i))) as (Hout & Htrace).
  { intros k. rewrite response_in_after_request. apply Hno. }
  split.
  - exact Hout.
  - rewrite Htrace. unfold rest. cbn [snd trace]. rewrite <- app_assoc. reflexivity.
Qed.

Lemma pages_from_answered (resultTotal : Z) (pages : list (list json)) :
  forall (fuel : nat) (i : io) (pageNo pageSizeCount : Z) (resultList : list json),
    (forall k page, pages !! k = Some page ->
                    status_code (response_in k i) = ok /\
                    getitem (content (response_in k i)) "values" = Ok (JArr page)) ->
    (forall k, k < length pages ->
               (pageSizeCount + Z.of_nat (length (concat (take k pages))) < resultTotal)%Z) ->
    (resultTotal <= pageSizeCount + Z.of_nat (length (concat pages)))%Z ->
    (0 <= pageSizeCount)%Z ->
    length pages <= fuel ->
    fst (pages_from fuel (JNum resultTotal) pageNo pageSizeCount resultList i) =
      Returns (JArr (resultList ++ concat pages)) /\
    trace (snd (pages_from fuel (JNum resultTotal) pageNo pageSizeCount resultList i)) =
      (trace i ++ page_requests VDC_COMPUTE_POLICIES_PAGE pageNo (length pages))%list.
Proof.
  induction pages as [| page pages IH];
    intros fuel i pageNo pageSizeCount resultList Hans Hbefore Hafter Hcount Hfuel.
  - cbn [concat length] in Hafter.
    rewrite pages_from_stop by lia.
    cbn [fst snd concat length page_requests]. rewrite !app_nil_r. split; reflexivity.
  - assert (Hlt : (pageSizeCount < resultTotal)%Z).
    { specialize (Hbefore 0%nat). cbn [take concat length] in Hbefore.
      specialize (Hbefore ltac:(lia)). lia. }
    destruct fuel as [| fuel]; [cbn [length] in Hfuel; lia |].
    destruct (Hans 0%nat page eq_refl) as (Hok & Hvalues).
    assert (Hrange : (0 <= pageSizeCount < resultTotal)%Z) by lia.
    rewrite (pages_from_answered_turn fuel _ pageNo _ resultList page _ Hrange Hok Hvalues).
    destruct (IH fuel (snd (rest GET (VDC_COMPUTE_POLICIES_PAGE pageNo) i))
                 (pageNo + 1)%Z (pageSizeCount + Z.of_nat (length page))%Z
                 (resultList ++ page)%list) as (Hout & Htrace).
    + intros k p Hk. rewrite response_in_after_request. apply (Hans (S k)). exact Hk.
    + intros k Hk. specialize (Hbefore (S k)). cbn [take concat length] in Hbefore.
      rewrite length_app in Hbefore. specialize (Hbefore ltac:(lia)). lia.
    + cbn [concat] in Hafter. rewrite length_app in Hafter. lia.
    + lia.
    + cbn [length] in Hfuel. lia.
    + split.
      * rewrite Hout. cbn [concat]. rewrite app_assoc. reflexivity.
      * rewrite Htrace. unfold rest. cbn [snd trace length page_requests].
        rewrite <- app_assoc. reflexivity.
Qed.

(** X15.  When the remote system serves the policies in pages, each
    request answered with 200, [getOrgVDCComputePolicies] asks for page
    1, 2, ... in turn as long as it has fewer policies than the total
    announced, then returns the policies of all the pages in order; a
    total of 0 gives the empty list after the first request. *)
Theorem getOrgVDCComputePolicies_collects_pages
        (fuel : nat) (i : io) (resultTotal : Z) (pages : list (list json)) :
  status_code (next_response i) = ok ->
  getitem (content (next_response i)) "resultTotal" = Ok (JNum resultTotal) ->
  (forall k page, pages !! k = Some page ->
                  status_code (response_in (S k) i) = ok /\
                  getitem (content (response_in (S k) i)) "values" = Ok (JArr page)) ->
  (forall k, k < length pages ->
             (Z.of_nat (length (concat (take k pages))) < resultTotal)%Z) ->
  (resultTotal <= Z.of_nat (length (concat pages)))%Z ->
  length pages <= fuel ->
  let run := getOrgVDCComputePolicies VDC_COMPUTE_POLICIES VDC_COMPUTE_POLICIES_PAGE fuel i in
  fst run = Returns (JArr (concat pages)) /\
  trace (snd run) =
  (trace i ++ Request GET VDC_COMPUTE_POLICIES ::
     page_requests VDC_COMPUTE_POLICIES_PAGE 1 (length pages))%list.
Proof.
  intros Hok Htotal Hans Hbefore Hafter Hfuel run. subst run.
  rewrite (getOrgVDCComputePolicies_pages fuel i (JNum resultTotal) Hok Htotal).
  destruct (pages_from_answered resultTotal pages fuel (snd (rest GET VDC_COMPUTE_POLICIES i))
                                1%Z 0%Z []) as (Hout & Htrace).
  - intros k p Hk. rewrite response_in_after_request. apply Hans. exact Hk.
  - intros k Hk. specialize (Hbefore k Hk). lia.
  - lia.
  - lia.
  - exact Hfuel.
  - split.
    + rewrite Hout. reflexivity.
    + rewrite Htrace. unfold rest. cbn [snd trace]. rewrite <- app_assoc. reflexivity.
Qed.

End ComputePolicies.

Lemma getOrgVDCComputePolicies_first_request_refused :
  fst (getOrgVDCComputePolicies policies_url policies_page_url 10 (fresh_io refusing)) =
  Raises (UnboundLocalError "resultTotal").
Proof.
  rewrite (getOrgVDCComputePolicies_failed_fetch_is_UnboundLocalError
             policies_url policies_page_url 10 (fresh_io refusing)).
  - reflexivity.
  - discriminate.
Defined.

Lemma getOrgVDCComputePolicies_pages_unavailable :
  let run := getOrgVDCComputePolicies policies_url policies_page_url 4
               (fresh_io pages_unavailable) in
  fst run = OutOfFuel /\
  trace (snd run) = [Request GET policies_url;
                     Request GET (policies_page_url 1); Request GET (policies_page_url 1);
                     Request GET (policies_page_url 1); Request GET (policies_page_url 1)].
Proof.
  apply (getOrgVDCComputePolicies_retries_page_without_bound
           policies_url policies_page_url 4 (fresh_io pages_unavailable) 3).
  - reflexivity.
  - reflexivity.
  - lia.
  - intros k. discriminate.
Defined.

Lemma getOrgVDCComputePolicies_three_policies_in_two_pages :
  let run := getOrgVDCComputePolicies policies_url policies_page_url 5
               (fresh_io three_policies_in_two_pages) in
  fst run = Returns (JArr [policy "small"; policy "medium"; policy "large"]) /\
  trace (snd run) = [Request GET policies_url;
                     Request GET (policies_page_url 1); Request GET (policies_page_url 2)].
Proof.
  apply (getOrgVDCComputePolicies_collects_pages
           policies_url policies_page_url 5 (fresh_io three_policies_in_two_pages) 3
           [[policy "small"; policy "medium"]; [policy "large"]]).
  - reflexivity.
  - reflexivity.
  - intros [| [| k]] page Hk; cbn in Hk; try discriminate; injection Hk as <-;
      split; reflexivity.
  - intros [| [| k]] Hk; cbn in *; lia.
  - cbn. lia.
  - cbn. lia.
Defined.

(** ** The vApps of the source Org VDC *)

Section VApps.

Variable TYPE_VAPP : string.

Lemma no_empty_vapp_turn (vApp : json) (others : list json) (href : string)
      (children : json) (i : io) :
  getitem vApp "@href" = Ok (JStr href) ->
  vapp_children (response_in 0 i) = Ok children ->
  truthy children = true ->
  no_empty_vapp (vApp :: others) i = no_empty_vapp others (snd (rest GET (Href href) i)).
Proof.
  intros Hhref Hchildren Htruthy. unfold response_in in Hchildren.
  rewrite Nat.add_0_r in Hchildren.
  cbn [no_empty_vapp]. unfold bind, of_result, rest. rewrite Hhref. cbn [as_url fst snd].
  rewrite Hchildren, Htruthy. reflexivity.
Qed.

Lemma no_empty_vapp_stops (vApp : json) (others : list json) (href : string) (i : io) :
  getitem vApp "@href" = Ok (JStr href) ->
  ~ has_children (response_in 0 i) ->
  fst (no_empty_vapp (vApp :: others) i) <> Returns tt.
Proof.
  intros Hhref Hnone. unfold has_children, response_in in Hnone.
  rewrite Nat.add_0_r in Hnone.
  cbn [no_empty_vapp]. unfold bind, of_result, rest, raise. rewrite Hhref.
  cbn [as_url fst snd].
  destruct (vapp_children (remote i (served i))) as [children |]; [| discriminate].
  destruct (truthy children) eqn:Htruthy.
  - exfalso. apply Hnone. exists children. auto.
  - cbn [negb]. destruct (getitem vApp "@name"); discriminate.
Qed.

Lemma no_empty_vapp_iff (sourceVappsList : list json) (hrefs : list string) :
  hrefs_are sourceVappsList hrefs ->
  forall i : io,
    (fst (no_empty_vapp sourceVappsList i) = Returns tt <->
     forall k, k < length sourceVappsList -> has_children (response_in k i)) /\
    (fst (no_empty_vapp sourceVappsList i) = Returns tt ->
     trace (snd (no_empty_vapp sourceVappsList i)) = (trace i ++ gets hrefs)%list).
Proof.
  induction 1 as [| vApp href others hrefs Hhref _ IH]; intros i.
  - cbn [no_empty_vapp ret fst snd gets map length]. rewrite app_nil_r. split; [| reflexivity].
    split; [intros _ k Hk; lia | reflexivity].
  - destruct (vapp_children (response_in 0 i)) as [children |] eqn:Hchildren.
    + destruct (truthy children) eqn:Htruthy.
      * rewrite (no_empty_vapp_turn vApp others href children i Hhref Hchildren Htruthy).
        destruct (IH (snd (rest GET (Href href) i))) as (Hiff & Htrace). split.
        -- rewrite Hiff. split.
           ++ intros Hall [| k] Hk.
              ** exists children. auto.
              ** rewrite <- response_in_after_request with (v := GET) (u := Href href).
                 apply Hall. cbn [length] in Hk. lia.
           ++ intros Hall k Hk. rewrite response_in_after_request.
              apply Hall. cbn [length]. lia.
        -- intros Hrun. rewrite (Htrace Hrun). unfold rest. cbn [snd trace gets map].
           rewrite <- app_assoc. reflexivity.
      * assert (Hnone : ~ has_children (response_in 0 i)).
        { intros (c & Hc & Ht). congruence. }
        split.
        -- split.
           ++ intros Hrun. exfalso.
              exact (no_empty_vapp_stops vApp others href i Hhref Hnone Hrun).
           ++ intros Hall. exfalso. apply Hnone, Hall. cbn [length]. lia.
        -- intros Hrun. exfalso.
           exact (no_empty_vapp_stops vApp others href i Hhref Hnone Hrun).
    + assert (Hnone : ~ has_children (response_in 0 i)).
      { intros (c & Hc & Ht). congruence. }
      split.
      * split.
        -- intros Hrun. exfalso.
           exact (no_empty_vapp_stops vApp others href i Hhref Hnone Hrun).
        -- intros Hall. exfalso. apply Hnone, Hall. cbn [length]. lia.
      * intros Hrun. exfalso.
        exact (no_empty_vapp_stops vApp others href i Hhref Hnone Hrun).
Qed.

(** X16.  [validateNoEmptyVappsExistInSourceOrgVDC] asks the remote
    system about the vApps of the source Org VDC one after the other,
    in the order of the document, and passes exactly when each answer
    lists children; when it passes it has sent one GET to the URL of
    each vApp and nothing else. *)
Theorem validateNoEmptyVapps_passes_iff_all_have_children
        (i : io) (data : gmap string json) (sourceVappsList : list json)
        (hrefs : list string) :
  apiOutput i = Some data ->
  source_vapps TYPE_VAPP data = Ok (Some sourceVappsList) ->
  hrefs_are sourceVappsList hrefs ->
  let run := validateNoEmptyVappsExistInSourceOrgVDC TYPE_VAPP i in
  (fst run = Returns tt <->
   forall k, k < length sourceVappsList -> has_children (response_in k i)) /\
  (fst run = Returns tt -> trace (snd run) = (trace i ++ gets hrefs)%list).
Proof.
  intros Hfile Hvapps Hhrefs run. subst run.
  unfold validateNoEmptyVappsExistInSourceOrgVDC, bind, json_load, of_result.
  rewrite Hfile. cbn [fst snd]. rewrite Hvapps.
  apply (no_empty_vapp_iff sourceVappsList hrefs Hhrefs i).
Qed.

(** X17.  When the source Org VDC lists no resource entity, the two
    checks of its vApps return at once: no request is sent. *)
Theorem vapp_checks_return_without_resource_entities
        (i : io) (data : gmap string json) (sourceOrgVDC entities : json) :
  apiOutput i = Some data ->
  item data "sourceOrgVDC" = Ok sourceOrgVDC ->
  dict_get sourceOrgVDC "ResourceEntities" = Ok entities ->
  truthy entities = false ->
  validateNoEmptyVappsExistInSourceOrgVDC TYPE_VAPP i = (Returns tt, i) /\
  validateSourceSuspendedVMsInVapp TYPE_VAPP i = (Returns tt, i).
Proof.
  intros Hfile Hvdc Hentities Hnone.
  unfold validateNoEmptyVappsExistInSourceOrgVDC, validateSourceSuspendedVMsInVapp,
    source_vapps, bind, json_load, of_result.
  rewrite Hfile. cbn [fst snd]. rewrite Hvdc. cbn [and_then]. rewrite Hentities.
  cbn [and_then]. rewrite Hnone. cbn [negb]. split; reflexivity.
Qed.

Lemma no_suspended_vm_iff (vmList : list json) :
  no_suspended_vm vmList = Ok tt <-> Forall (named_otherwise "@status" "3") vmList.
Proof.
  induction vmList as [| vm rest IH]; simpl.
  - split; [constructor | reflexivity].
  - destruct (getitem vm "@status") as [status |] eqn:Hstatus; cbn [and_then].
    + destruct (eq_str status "3") eqn:Heq.
      * split; [discriminate |]. intros H. inversion H as [| ? ? (v & Hv & Hn) _]; subst.
        congruence.
      * rewrite IH. split.
        -- intros H. constructor; [exists status; auto | exact H].
        -- intros H. inversion H; subst. assumption.
    + split; [discriminate |]. intros H. inversion H as [| ? ? (v & Hv & Hn) _]; subst.
      congruence.
Qed.

Lemma vapp_children_getitem (r : response) (children : json) :
  vapp_children r = Ok children ->
  truthy children = true ->
  exists vapp,
    getitem (content r) "VApp" = Ok vapp /\ getitem vapp "Children" = Ok children.
Proof.
  unfold vapp_children. intros Hchildren Htruthy.
  destruct (getitem (content r) "VApp") as [vapp |]; [| discriminate].
  cbn [and_then] in Hchildren. exists vapp. split; [reflexivity |].
  unfold dict_get in Hchildren. unfold getitem.
  destruct vapp as [| | | | | kvs]; try discriminate.
  destruct (assoc "Children" kvs) as [x |]; [congruence |].
  injection Hchildren as <-. discriminate.
Qed.

Lemma listify_non_list_iter (v : json) (items : list json) :
  iter (listify_non_list v) = Ok items <-> listify_non_list v = JArr items.
Proof.
  unfold listify_non_list. destruct (is_list v) eqn:Hl.
  - destruct v; try discriminate. cbn [iter]. split; congruence.
  - cbn [iter]. split; congruence.
Qed.

Lemma no_suspended_vapp_turn (vApp : json) (others : list json) (href : string) (i : io) :
  getitem vApp "@href" = Ok (JStr href) ->
  no_suspended_vm_in vApp (response_in 0 i) ->
  no_suspended_vapp (vApp :: others) i = no_suspended_vapp others (snd (rest GET (Href href) i)).
Proof.
  intros Hhref (children & Hchildren & Hcase). unfold response_in in *.
  rewrite Nat.add_0_r in *.
  cbn [no_suspended_vapp]. unfold bind, of_result, rest. rewrite Hhref.
  cbn [as_url fst snd]. rewrite Hchildren.
  destruct (truthy children) eqn:Htruthy; cbn [negb].
  - destruct Hcase as (vm & vmList & Hvm & Hlist & Hall).
    destruct (vapp_children_getitem _ _ Hchildren Htruthy) as (vapp & Hvapp & Hget).
    rewrite Hvapp. cbn [and_then]. rewrite Hget. cbn [and_then]. rewrite Hvm, Hlist.
    cbn [iter]. rewrite (proj2 (no_suspended_vm_iff vmList) Hall). reflexivity.
  - destruct Hcase as (name & ->). reflexivity.
Qed.

Lemma no_suspended_vapp_head (vApp : json) (others : list json) (href : string) (i : io) :
  getitem vApp "@href" = Ok (JStr href) ->
  fst (no_suspended_vapp (vApp :: others) i) = Returns tt ->
  no_suspended_vm_in vApp (response_in 0 i).
Proof.
  intros Hhref Hrun. unfold no_suspended_vm_in, response_in. rewrite Nat.add_0_r.
  cbn [no_suspended_vapp] in Hrun. unfold bind, of_result, rest in Hrun.
  rewrite Hhref in Hrun. cbn [as_url fst snd] in Hrun.
  destruct (vapp_children (remote i (served i))) as [children |] eqn:Hchildren;
    [| discriminate].
  exists children. split; [reflexivity |].
  destruct (truthy children) eqn:Htruthy; cbn [negb] in Hrun.
  - destruct (vapp_children_getitem _ _ Hchildren Htruthy) as (vapp & Hvapp & Hget).
    rewrite Hvapp in Hrun. cbn [and_then] in Hrun. rewrite Hget in Hrun.
    cbn [and_then] in Hrun.
    destruct (getitem children "Vm") as [vm |] eqn:Hvm; [| discriminate].
    destruct (iter (listify_non_list vm)) as [vmList |] eqn:Hiter; [| discriminate].
    destruct (no_suspended_vm vmList) as [[] | e] eqn:Hvms; [| discriminate].
    exists vm, vmList. repeat split.
    + apply listify_non_list_iter. exact Hiter.
    + apply no_suspended_vm_iff. exact Hvms.
  - destruct (getitem vApp "@name") as [name |] eqn:Hname; [| discriminate].
    exists name. reflexivity.
Qed.

Lemma no_suspended_vapp_iff (sourceVappsList : list json) (hrefs : list string) :
  hrefs_are sourceVappsList hrefs ->
  forall i : io,
    fst (no_suspended_vapp sourceVappsList i) = Returns tt <->
    forall k vApp, sourceVappsList !! k = Some vApp ->
                   no_suspended_vm_in vApp (response_in k i).
Proof.
  induction 1 as [| vApp href others hrefs Hhref _ IH]; intros i.
  - cbn [no_suspended_vapp ret fst]. split; [| reflexivity].
    intros _ k v Hk. discriminate.
  - split.
    + intros Hrun.
      pose proof (no_suspended_vapp_head vApp others href i Hhref Hrun) as H0.
      rewrite (no_suspended_vapp_turn vApp others href i Hhref H0) in Hrun.
      intros [| k] v Hk.
      * injection Hk as <-. exact H0.
      * rewrite <- response_in_after_request with (v := GET) (u := Href href).
        apply (proj1 (IH _) Hrun). exact Hk.
    + intros Hall.
      rewrite (no_suspended_vapp_turn vApp others href i Hhref (Hall 0 vApp eq_refl)).
      apply IH. intros k v Hk. rewrite response_in_after_request. apply (Hall (S k)). exact Hk.
Qed.

(** X18.  [validateSourceSuspendedVMsInVapp] passes exactly when, for
    each vApp of the source Org VDC, the answer of the remote system
    either lists no children or lists VMs of which none has the status
    3; a vApp without children is passed over here. *)
Theorem validateSourceSuspendedVMsInVapp_passes_iff_no_vm_suspended
        (i : io) (data : gmap string json) (sourceVappsList : list json)
        (hrefs : list string) :
  apiOutput i = Some data ->
  source_vapps TYPE_VAPP data = Ok (Some sourceVappsList) ->
  hrefs_are sourceVappsList hrefs ->
  fst (validateSourceSuspendedVMsInVapp TYPE_VAPP i) = Returns tt <->
  forall k vApp, sourceVappsList !! k = Some vApp ->
                 no_suspended_vm_in vApp (response_in k i).
Proof.
  intros Hfile Hvapps Hhrefs.
  unfold validateSourceSuspendedVMsInVapp, bind, json_load, of_result.
  rewrite Hfile. cbn [fst snd]. rewrite Hvapps.
  apply (no_suspended_vapp_iff sourceVappsList hrefs Hhrefs i).
Qed.

End VApps.

Lemma validateNoEmptyVapps_two_vapps_with_vms :
  fst (validateNoEmptyVappsExistInSourceOrgVDC type_vapp
         (world (with_file two_vapps
                   (answering [vapp_answer (Some (vm "4"));
                               vapp_answer (Some (JArr [vm "4"; vm "8"]))]))))
  = Returns tt.
Proof.
  set (i := world (with_file two_vapps _)).
  assert (Hhrefs : hrefs_are
                     [entity type_vapp "web" "https://10.0.0.1/api/vApp/vapp-1";
                      entity type_vapp "db" "https://10.0.0.1/api/vApp/vapp-2"]
                     ["https://10.0.0.1/api/vApp/vapp-1"; "https://10.0.0.1/api/vApp/vapp-2"])
    by (repeat constructor).
  apply (proj1 (validateNoEmptyVapps_passes_iff_all_have_children
                  type_vapp i two_vapps _ _ eq_refl eq_refl Hhrefs)).
  intros [| [| k]] Hk; [| | cbn in Hk; lia]; eexists; split; reflexivity.
Defined.

Lemma vapp_checks_without_resource_entities :
  validateNoEmptyVappsExistInSourceOrgVDC type_vapp (with_document discovered_enabled)
  = (Returns tt, with_document discovered_enabled).
Proof.
  apply (proj1 (vapp_checks_return_without_resource_entities
                  type_vapp (with_document discovered_enabled) discovered_enabled
                  (JObj [("@name", JStr "vdc-a"); ("IsEnabled", JStr "true")]) JNull
                  eq_refl eq_refl eq_refl eq_refl)).
Defined.

Lemma validateSourceSuspendedVMsInVapp_empty_vapp_passed_over :
  fst (validateSourceSuspendedVMsInVapp type_vapp
         (world (with_file two_vapps
                   (answering [vapp_answer None;
                               vapp_answer (Some (JArr [vm "4"; vm "8"]))]))))
  = Returns tt.
Proof.
  eapply (validateSourceSuspendedVMsInVapp_passes_iff_no_vm_suspended
            type_vapp _ _
            [entity type_vapp "web" "https://10.0.0.1/api/vApp/vapp-1";
             entity type_vapp "db" "https://10.0.0.1/api/vApp/vapp-2"]
            ["https://10.0.0.1/api/vApp/vapp-1"; "https://10.0.0.1/api/vApp/vapp-2"]).
  - reflexivity.
  - reflexivity.
  - repeat constructor.
  - intros [| [| k]] vApp Hk; cbn in Hk; try discriminate; injection Hk as <-.
    + eexists. split; [reflexivity |]. cbn. eexists. reflexivity.
    + eexists. split; [reflexivity |]. cbn. eexists _, _.
      split; [reflexivity |]. split; [reflexivity |].
      repeat constructor; eexists; split; reflexivity.
Defined.

(** ** The driver: runs that pass and failures that leave no mark *)

Lemma try_block_returns_flags {A} (m : method) (block : SE io A) (w w' : vcd) (a : A) :
  try_except_reraise (lift block) (except_clause m) w = (Returns a, w') ->
  ENABLE_SOURCE_ORG_VDC w' = ENABLE_SOURCE_ORG_VDC w /\
  ENABLE_AFFINITY_RULES_IN_SOURCE_VAPP w' = ENABLE_AFFINITY_RULES_IN_SOURCE_VAPP w.
Proof.
  unfold try_except_reraise.
  destruct (lift_keeps_self block w) as (H1 & H2 & _).
  destruct (lift block w) as [[v | e |] w1]; cbn [snd] in *.
  - intros H. injection H as <- <-. auto.
  - destruct (except_clause m w1) as [[u | e' |] w2]; discriminate.
  - discriminate.
Qed.

(** A method that returns leaves both rollback flags as they were. *)
Lemma method_of_returns_flags {A} (m : method) (block : SE io A) (w w' : vcd) (a : A) :
  method_of m block w = (Returns a, w') ->
  ENABLE_SOURCE_ORG_VDC w' = ENABLE_SOURCE_ORG_VDC w /\
  ENABLE_AFFINITY_RULES_IN_SOURCE_VAPP w' = ENABLE_AFFINITY_RULES_IN_SOURCE_VAPP w.
Proof.
  unfold method_of. destruct (decorated m).
  - destruct (guard_cases (try_except_reraise (lift block) (except_clause m)) w)
      as (w1 & _ & F1 & F2 & _ & _ & _ & _ & [Hrun | (_ & e & _ & Hrun)]); rewrite Hrun.
    + intros H. destruct (try_block_returns_flags m block w1 w' a H). split; congruence.
    + discriminate.
  - apply try_block_returns_flags.
Qed.

Section DriverRuns.

Variable block : method -> SE io json.

Lemma call_returns_flags (m : method) (w w' : vcd) (v : json) :
  call block m w = (Returns v, w') ->
  ENABLE_SOURCE_ORG_VDC w' = ENABLE_SOURCE_ORG_VDC w /\
  ENABLE_AFFINITY_RULES_IN_SOURCE_VAPP w' = ENABLE_AFFINITY_RULES_IN_SOURCE_VAPP w.
Proof.
  unfold call, bind, calling. cbn [fst snd]. intros H.
  apply method_of_returns_flags in H. exact H.
Qed.

Lemma run_steps_returns (steps : list method) :
  forall id w u id' wf,
    run_steps block steps id w = (Returns u, id', wf) ->
    calls wf = (calls w ++ steps)%list /\
    ENABLE_SOURCE_ORG_VDC wf = ENABLE_SOURCE_ORG_VDC w /\
    ENABLE_AFFINITY_RULES_IN_SOURCE_VAPP wf = ENABLE_AFFINITY_RULES_IN_SOURCE_VAPP w.
Proof.
  induction steps as [| m rest IH]; intros id w u id' wf Hrun; cbn [run_steps] in Hrun.
  - injection Hrun as _ _ <-. rewrite app_nil_r. auto.
  - destruct (call_spec block m w) as (Hcalls & _).
    destruct (call block m w) as [[v | e |] w1] eqn:Hcall; try discriminate.
    destruct (call_returns_flags m w w1 v Hcall) as (F1 & F2).
    destruct (IH _ _ _ _ _ Hrun) as (Hc & G1 & G2). cbn [snd] in Hcalls.
    rewrite Hc, Hcalls, <- app_assoc. repeat split; congruence.
Qed.

Lemma run_steps_raises (steps : list method) :
  forall id w err id' wf,
    run_steps block steps id w = (Raises err, id', wf) ->
    exists done m later,
      steps = (done ++ m :: later)%list /\
      calls wf = (calls w ++ done ++ [m])%list /\
      (silent m = true ->
       ENABLE_SOURCE_ORG_VDC wf = ENABLE_SOURCE_ORG_VDC w /\
       ENABLE_AFFINITY_RULES_IN_SOURCE_VAPP wf = ENABLE_AFFINITY_RULES_IN_SOURCE_VAPP w).
Proof.
  induction steps as [| m rest IH]; intros id w err id' wf Hrun; cbn [run_steps] in Hrun.
  - discriminate.
  - destruct (call_spec block m w) as (Hcalls & _ & Hsilent).
    destruct (call block m w) as [[v | e |] w1] eqn:Hcall; try discriminate.
    + destruct (call_returns_flags m w w1 v Hcall) as (F1 & F2).
      destruct (IH _ _ _ _ _ Hrun) as (done & m' & later & -> & Hc & Hs).
      exists (m :: done), m', later. cbn [snd] in Hcalls. split; [reflexivity |]. split.
      * rewrite Hc, Hcalls, <- app_assoc. reflexivity.
      * intros Hm. destruct (Hs Hm). split; congruence.
    + injection Hrun as _ _ <-. exists [], m, rest. cbn [snd] in *.
      split; [reflexivity |]. split; [exact Hcalls | exact Hsilent].
Qed.

Lemma rollback_never_returns (id : option json) (err : exn) (wf : vcd) (v : json) :
  fst (@rollback block json id err wf) <> Returns v.
Proof.
  rewrite rollback_unfold.
  destruct (rollback_source_org_vdc id wf) as [[u | e |] w1]; cbn [fst]; try discriminate.
  destruct (rollback_affinity_rules block id w1) as [[u' | e |] w2]; discriminate.
Qed.

(** X19.  A run of [preMigrationValidation] that returns has called the
    33 checks of its [try] block, each once and in the order of the
    source, and no compensation; both rollback flags are as they were
    before the run. *)
Theorem preMigrationValidation_returns_after_all_checks (w : vcd) (v : json) :
  fst (preMigrationValidation block w) = Returns v ->
  calls (snd (preMigrationValidation block w)) = (calls w ++ pipeline)%list /\
  ENABLE_SOURCE_ORG_VDC (snd (preMigrationValidation block w)) = ENABLE_SOURCE_ORG_VDC w /\
  ENABLE_AFFINITY_RULES_IN_SOURCE_VAPP (snd (preMigrationValidation block w)) =
  ENABLE_AFFINITY_RULES_IN_SOURCE_VAPP w.
Proof.
  rewrite preMigrationValidation_unfold.
  destruct (run_steps block pipeline None w) as [[[u | err |] id] wf] eqn:Hrun.
  - intros _. unfold of_result. cbn [snd].
    exact (run_steps_returns pipeline None w u id wf Hrun).
  - intros H. exfalso. exact (rollback_never_returns id err wf v H).
  - discriminate.
Qed.

(** X20.  When the check that fails is one whose [except] clause sets
    no flag, a run that started with both flags unset calls no
    compensation: the error reaches the caller from the state in which
    the check failed.  [disableOrgVDC] and [getOrgVDCNetworks] are such
    checks, and the source Org VDC is disabled by then. *)
Theorem preMigrationValidation_silent_failure_calls_no_compensation
        (w : vcd) (err : exn) (id : option json) (wf : vcd)
        (done : list method) (m : method) :
  ENABLE_SOURCE_ORG_VDC w = false ->
  ENABLE_AFFINITY_RULES_IN_SOURCE_VAPP w = false ->
  run_steps block pipeline None w = (Raises err, id, wf) ->
  calls wf = (calls w ++ done ++ [m])%list ->
  silent m = true ->
  preMigrationValidation block w = (Raises err, wf).
Proof.
  intros Hs0 Ha0 Hrun Hcalls Hsilent.
  destruct (run_steps_raises pipeline None w err id wf Hrun)
    as (done' & m' & later & _ & Hcalls' & Hflags).
  assert (m' = m) as ->.
  { rewrite Hcalls' in Hcalls. apply app_inv_head in Hcalls.
    apply app_inj_tail in Hcalls. apply Hcalls. }
  destruct (Hflags Hsilent) as (F1 & F2).
  rewrite preMigrationValidation_unfold, Hrun, rollback_unfold.
  pose proof (rollback_source_org_vdc_spec id wf) as (_ & _ & Hsource).
  rewrite F1, Hs0 in Hsource. cbv beta iota zeta in Hsource. rewrite Hsource.
  pose proof (rollback_affinity_rules_spec block id wf) as Haffinity.
  rewrite F2, Ha0 in Haffinity. cbv beta iota zeta in Haffinity. rewrite Haffinity.
  reflexivity.
Qed.

End DriverRuns.

Lemma preMigrationValidation_passing_run :
  calls (snd (preMigrationValidation blocks_passing (fresh (fun _ => session_ok)))) = pipeline.
Proof.
  apply (proj1 (preMigrationValidation_returns_after_all_checks
                  blocks_passing (fresh (fun _ => session_ok)) (JStr "urn:vcloud:vdc:42")
                  ltac:(vm_compute; reflexivity))).
Defined.

Lemma preMigrationValidation_networks_unreadable :
  fst (preMigrationValidation blocks_networks_unreadable (fresh (fun _ => session_ok))) =
  Raises (KeyError "values") /\
  calls (snd (preMigrationValidation blocks_networks_unreadable (fresh (fun _ => session_ok)))) =
  take 28 pipeline.
Proof.
  set (w := fresh (fun _ => session_ok)).
  destruct (run_steps blocks_networks_unreadable pipeline None w) as [[r id] wf] eqn:Hrun.
  assert (Hr : r = Raises (KeyError "values")).
  { apply (f_equal (fun x => fst (fst x))) in Hrun. symmetry. exact Hrun. }
  subst r.
  assert (Hcalls : calls wf = (calls w ++ take 27 pipeline ++ [GetOrgVDCNetworks])%list).
  { apply (f_equal (fun x => calls (snd x))) in Hrun. symmetry. exact Hrun. }
  rewrite (preMigrationValidation_silent_failure_calls_no_compensation
             blocks_networks_unreadable w (KeyError "values") id wf
             (take 27 pipeline) GetOrgVDCNetworks eq_refl eq_refl Hrun Hcalls eq_refl).
  split; [reflexivity | exact Hcalls].
Defined.

(** ** A task that fails *)

Section PollerFailure.

Variables T I : Z.

Lemma inspect_error (taskName : string) (returnOutput : bool) (details : json)
      (r : response) :
  matching_error taskName details r ->
  (returnOutput = true -> has_operation_text r) ->
  inspect taskName returnOutput r = Raise (Exception "{}" [details]).
Proof.
  intros (Hok & task & operationName & status & Htask & Hname & Hin & Hstatus & Hns & He & Hd)
         Htext.
  unfold inspect. rewrite Hok. cbn [Z.eqb ok Pos.eqb]. rewrite Htask. cbn [and_then].
  destruct returnOutput.
  - destruct (Htext eq_refl) as (task' & text & Htask' & Hop).
    assert (task' = task) as -> by congruence.
    rewrite Hop. cbn [and_then as_str].
    rewrite Hname. cbn [and_then]. rewrite Hin. cbn [and_then]. rewrite Hstatus.
    cbn [and_then]. rewrite Hns, He, Hd. reflexivity.
  - cbn [and_then]. rewrite Hname. cbn [and_then]. rewrite Hin. cbn [and_then].
    rewrite Hstatus. cbn [and_then]. rewrite Hns, He, Hd. reflexivity.
Qed.

Lemma wait_raises (k : nat) :
  (0 < I)%Z ->
  forall (fuel : nat) (timeout : Z) (taskUrl : url) (taskName : string)
         (returnOutput : bool) (i : io) (e : exn),
    (k < fuel)%nat ->
    (timeout + Z.of_nat k * I < T)%Z ->
    (forall j, (j < k)%nat -> inspect taskName returnOutput (response_in j i) = Ok None) ->
    inspect taskName returnOutput (response_in k i) = Raise e ->
    fst (wait T I fuel timeout taskUrl taskName returnOutput i) = Raises e /\
    served (snd (wait T I fuel timeout taskUrl taskName returnOutput i)) = S (served i + k).
Proof.
  intros HI. induction k as [| k IH];
    intros fuel timeout taskUrl taskName returnOutput i e Hfuel Hk Hbefore Hat;
    (destruct fuel as [| fuel]; [lia |]); rewrite wait_turn;
    (destruct (Z.ltb_spec timeout T) as [Hlt | Hge]; [| nia]).
  - unfold response_in in Hat. rewrite Nat.add_0_r in Hat. fold (next_response i) in Hat.
    rewrite Hat. cbn [fst snd rest served]. split; [reflexivity | lia].
  - assert (H0 : inspect taskName returnOutput (next_response i) = Ok None).
    { specialize (Hbefore 0%nat ltac:(lia)). unfold response_in in Hbefore.
      rewrite Nat.add_0_r in Hbefore. exact Hbefore. }
    rewrite H0.
    destruct (IH fuel (timeout + I)%Z taskUrl taskName returnOutput (slept I taskUrl i) e)
      as (Hrun & Hserved).
    + lia.
    + lia.
    + intros j Hj. rewrite response_in_slept. apply Hbefore. lia.
    + rewrite response_in_slept. exact Hat.
    + split; [exact Hrun |]. rewrite Hserved.
      destruct (slept_spec I taskUrl i) as [-> _]. lia.
Qed.

(** X21.  When the first record that ends the waiting is a record of the
    task with status [error], fetched before the deadline, the loop of
    [_checkTaskStatus] raises at once an exception that carries the
    details of the record: it does not wait for the deadline, and that
    record is the last one it fetches. *)
Theorem checkTaskStatus_raises_the_details_of_a_failed_task
        (fuel : nat) (taskUrl : url) (taskName : string) (returnOutput : bool)
        (i : io) (k : nat) (details : json) :
  (0 < I)%Z ->
  (k < fuel)%nat ->
  (Z.of_nat k * I < T)%Z ->
  (forall j, (j < k)%nat -> inspect taskName returnOutput (response_in j i) = Ok None) ->
  matching_error taskName details (response_in k i) ->
  (returnOutput = true -> has_operation_text (response_in k i)) ->
  let run := wait T I fuel 0 taskUrl taskName returnOutput i in
  fst run = Raises (Exception "{}" [details]) /\
  served (snd run) = S (served i + k).
Proof.
  intros HI Hfuel Hk Hbefore Herror Htext run. subst run.
  assert (Hk' : (0 + Z.of_nat k * I < T)%Z) by lia.
  apply (wait_raises k HI fuel 0%Z taskUrl taskName returnOutput i _ Hfuel Hk' Hbefore).
  apply inspect_error; assumption.
Qed.

End PollerFailure.

Lemma checkTaskStatus_failing_task :
  let run := wait 30 5 10 0 (Href "https://10.0.0.1/api/task/9") "vappUpdateVmAffinityRule"
               false (fresh_io failing_task) in
  fst run = Raises (Exception "{}" [JStr "rejected"]) /\ served (snd run) = 3.
Proof.
  apply (checkTaskStatus_raises_the_details_of_a_failed_task
           30 5 10 (Href "https://10.0.0.1/api/task/9") "vappUpdateVmAffinityRule" false
           (fresh_io failing_task) 2 (JStr "rejected")).
  - lia.
  - lia.
  - lia.
  - intros [| [| j]] Hj; [reflexivity | reflexivity | lia].
  - split; [reflexivity |]. eexists _, _, _. repeat split; reflexivity.
  - discriminate.
Defined.

(** ** A session that is renewed *)

(** X22.  When the probe of the guard is refused and the login that
    follows is answered with 200 and a token, the wrapped operation
    runs in a state whose session attributes hold the new token; the
    rollback flags, the call log and the document are as before, and
    the guard has sent the probe and the login and nothing else. *)
Theorem session_guard_runs_operation_with_renewed_token
        {A} (func : M A) (w : vcd) (token : string) :
  status_code (next_response (world w)) <> ok ->
  status_code (response_in 1 (world w)) = ok ->
  header (headers (response_in 1 (world w))) "X-VMWARE-VCLOUD-ACCESS-TOKEN" = Ok token ->
  _isSessionExpired func w =
  func (Vcd (ENABLE_SOURCE_ORG_VDC w) (ENABLE_AFFINITY_RULES_IN_SOURCE_VAPP w) (calls w)
            (Io true (ipAddress (world w)) ("Bearer " +:+ token) (apiOutput (world w))
                (remote (world w)) (S (S (served (world w))))
                (trace (world w) ++ [Request GET SESSION; Request POST LOGIN_URL]))).
Proof.
  intros Hno Hok Htoken. apply Z.eqb_neq in Hno. unfold next_response, response_in in *.
  replace (served (world w) + 1) with (S (served (world w))) in * by lia.
  unfold _isSessionExpired, vcdLogin, bind, lift, rest, of_result, store_session, ret.
  cbn [fst snd world served remote trace apiOutput ipAddress bearerToken VCD_SESSION_CREATED
       ENABLE_SOURCE_ORG_VDC ENABLE_AFFINITY_RULES_IN_SOURCE_VAPP calls].
  rewrite Hno. cbn [negb].
  cbn [fst snd world served remote trace apiOutput ipAddress bearerToken VCD_SESSION_CREATED
       ENABLE_SOURCE_ORG_VDC ENABLE_AFFINITY_RULES_IN_SOURCE_VAPP calls].
  rewrite Hok. cbn [Z.eqb ok Pos.eqb]. rewrite Htoken.
  cbn [fst snd world served remote trace apiOutput ipAddress bearerToken VCD_SESSION_CREATED
       ENABLE_SOURCE_ORG_VDC ENABLE_AFFINITY_RULES_IN_SOURCE_VAPP calls].
  rewrite <- app_assoc. reflexivity.
Qed.

Lemma session_guard_login_renewed :
  bearerToken (world (snd (_isSessionExpired (ret tt)
                             (Vcd false false []
                                  (Io true "10.0.0.1" "Bearer stale" None login_renewed 0 [])))))
  = "Bearer fresh-token".
Proof.
  rewrite (session_guard_runs_operation_with_renewed_token
             (ret tt) (Vcd false false [] (Io true "10.0.0.1" "Bearer stale" None login_renewed 0 []))
             "fresh-token").
  - reflexivity.
  - discriminate.
  - reflexivity.
  - reflexivity.
Defined.

(** ** The external network that is saved *)

Lemma save_network_first (networkName : string) (isDummyNetwork : bool)
      (before after : list json) (record backings values first backingType id : json)
      (data : gmap string json) :
  Forall (named_otherwise "name" networkName) before ->
  named "name" networkName record ->
  getitem record "networkBackings" = Ok backings ->
  getitem backings "values" = Ok values ->
  getfirst values = Ok first ->
  getitem first "backingType" = Ok backingType ->
  getitem record "id" = Ok id ->
  forall i : io,
    apiOutput i = Some data ->
    save_network networkName isDummyNetwork (before ++ record :: after) i =
    (Returns (Some id),
     Io (VCD_SESSION_CREATED i) (ipAddress i) (bearerToken i)
        (Some (<[ external_network_key isDummyNetwork backingType := record ]> data))
        (remote i) (served i) (trace i)).
Proof.
  intros Hbefore (v & Hv & Heq) Hb Hvs Hf Ht Hid i Hfile.
  induction Hbefore as [| r before (u & Hu & Hne) _ IH]; cbn [app save_network].
  - unfold bind, of_result, json_load, json_dump, ret. rewrite Hv. cbn [fst snd].
    rewrite Heq, Hb. cbn [and_then]. rewrite Hvs. cbn [and_then]. rewrite Hf.
    cbn [and_then]. rewrite Ht, Hfile. cbn [fst snd]. rewrite Hid.
    unfold external_network_key.
    destruct isDummyNetwork; destruct (eq_str backingType "NSXT_TIER0"); reflexivity.
  - unfold bind at 1, of_result at 1. rewrite Hu. cbv beta iota. rewrite Hne. exact IH.
Qed.

(** X23.  [getExternalNetwork] saves the first external network that
    carries the name and returns its id.  The key it is saved under is
    [dummyExternalNetwork] when the network is asked for as the dummy
    network, whatever its backing; otherwise [targetExternalNetwork]
    when its first backing is of type [NSXT_TIER0], and
    [sourceExternalNetwork] for any other type.  Nothing else in the
    document changes. *)
Theorem getExternalNetwork_saves_first_match_under_its_key
        (networkName : string) (isDummyNetwork : bool) (i : io)
        (data : gmap string json) (values : json) (before after : list json)
        (record backings backingValues first backingType id : json) :
  apiOutput i = Some data ->
  status_code (next_response i) = ok ->
  getitem (content (next_response i)) "values" = Ok values ->
  iter values = Ok (before ++ record :: after)%list ->
  Forall (named_otherwise "name" networkName) before ->
  named "name" networkName record ->
  getitem record "networkBackings" = Ok backings ->
  getitem backings "values" = Ok backingValues ->
  getfirst backingValues = Ok first ->
  getitem first "backingType" = Ok backingType ->
  getitem record "id" = Ok id ->
  let run := getExternalNetwork_try networkName isDummyNetwork i in
  fst run = Returns id /\
  apiOutput (snd run) =
  Some (<[ external_network_key isDummyNetwork backingType := record ]> data).
Proof.
  intros Hfile Hok Hvalues Hiter Hbefore Hnamed Hb Hvs Hf Ht Hid run. subst run.
  unfold next_response in *.
  pose proof (save_network_first networkName isDummyNetwork before after record backings
                backingValues first backingType id data Hbefore Hnamed Hb Hvs Hf Ht Hid
                (snd (rest GET ALL_EXTERNAL_NETWORKS i)) Hfile) as Hsave.
  unfold getExternalNetwork_try, bind, rest, of_result, ret in *.
  cbn [fst snd] in *. rewrite Hok. cbn [Z.eqb ok Pos.eqb]. rewrite Hvalues.
  cbn [and_then]. rewrite Hiter. rewrite Hsave. split; reflexivity.
Qed.

Lemma getExternalNetwork_dummy_overrides_backing :
  let networks := JArr [external_network "ext-v" "DV_PORTGROUP" "urn:1";
                        external_network "ext-t" "NSXT_TIER0" "urn:2";
                        external_network "ext-t" "NSXT_TIER0" "urn:3"] in
  let run := getExternalNetwork_try "ext-t" true
               (world (with_file two_facts
                         (fun _ => Response 200 (JObj [("values", networks)]) []))) in
  fst run = Returns (JStr "urn:2") /\
  apiOutput (snd run) =
  Some (<[ "dummyExternalNetwork" := external_network "ext-t" "NSXT_TIER0" "urn:2" ]> two_facts).
Proof.
  intros networks.
  apply (getExternalNetwork_saves_first_match_under_its_key
           "ext-t" true _ two_facts networks
           [external_network "ext-v" "DV_PORTGROUP" "urn:1"]
           [external_network "ext-t" "NSXT_TIER0" "urn:3"]
           (external_network "ext-t" "NSXT_TIER0" "urn:2")
           (JObj [("values", JArr [JObj [("backingType", JStr "NSXT_TIER0")]])])
           (JArr [JObj [("backingType", JStr "NSXT_TIER0")]])
           (JObj [("backingType", JStr "NSXT_TIER0")]) (JStr "NSXT_TIER0") (JStr "urn:2")).
  - reflexivity.
  - reflexivity.
  - reflexivity.
  - reflexivity.
  - constructor; [| constructor]. eexists. split; reflexivity.
  - eexists. split; reflexivity.
  - reflexivity.
  - reflexivity.
  - reflexivity.
  - reflexivity.
  - reflexivity.
Defined.

(** ** The edge gateway of the source Org VDC *)

(** X24.  When the request for the edge gateways is not answered with
    200, [validateSingleEdgeGatewayExistForOrgVDC] receives [None] from
    [getOrgVDCEdgeGateway] and subscripts it: under a valid session the
    caller gets a [TypeError], both rollback flags are set, and the
    document is as it was. *)
Theorem validateSingleEdgeGateway_failed_fetch_is_TypeError (orgVDCId : string) (w : vcd) :
  status_code (next_response (world w)) = ok ->
  status_code (response_in 1 (world w)) <> ok ->
  validateSingleEdgeGatewayExistForOrgVDC orgVDCId w =
  (Raises (TypeError "object is not subscriptable"),
   Vcd true true (calls w)
       (snd (rest GET (ALL_EDGE_GATEWAYS orgVDCId) (world (after_probe w))))).
Proof.
  intros Hok Hno. apply Z.eqb_neq in Hno. unfold response_in in Hno.
  replace (served (world w) + 1) with (S (served (world w))) in Hno by lia.
  unfold validateSingleEdgeGatewayExistForOrgVDC.
  edestruct (guarded_method_raises ValidateSingleEdgeGatewayExistForOrgVDC
               (validateSingleEdgeGatewayExistForOrgVDC_try orgVDCId) w)
    as (w' & Hrun & Hclause & _); [reflexivity | exact Hok | | ].
  - unfold validateSingleEdgeGatewayExistForOrgVDC_try, getOrgVDCEdgeGateway,
      bind, rest, of_result, ret.
    cbn [fst snd after_probe lift rest world served remote]. rewrite Hno. reflexivity.
  - rewrite Hrun. cbn in Hclause. injection Hclause as <-. reflexivity.
Qed.

Lemma validateSingleEdgeGateway_refused :
  fst (validateSingleEdgeGatewayExistForOrgVDC "urn:vcloud:vdc:42"
         (with_file discovered_enabled (answering [session_ok; forbidden])))
  = Raises (TypeError "object is not subscriptable").
Proof.
  rewrite (validateSingleEdgeGateway_failed_fetch_is_TypeError
             "urn:vcloud:vdc:42"
             (with_file discovered_enabled (answering [session_ok; forbidden]))).
  - reflexivity.
  - reflexivity.
  - discriminate.
Defined.

(** ** Independent disks *)

Section IndependentDisks.

Variable ORG_VDC_BY_ID : string -> url.
Variable INDEPENDENT_DISKS_EXIST_IN_ORG_VDC_TYPE : string.

Local Abbreviation validateIndependentDisks :=
  (validateIndependentDisksDoesNotExistsInOrgVDC
     ORG_VDC_BY_ID INDEPENDENT_DISKS_EXIST_IN_ORG_VDC_TYPE).

(** X25.  [validateIndependentDisksDoesNotExistsInOrgVDC] treats a
    single resource entity as a list of one entity: the outcome and the
    rollback flags it leaves are the same for both forms of the answer.
    When the entity is an independent disk it raises, and both flags
    are set. *)
Theorem validateIndependentDisks_normalizes (orgVDCId : string) (entity : json) :
  is_list entity = false ->
  let bare :=
    validateIndependentDisks (JStr orgVDCId) (fresh (fun _ => admin_vdc_answer entity)) in
  let listed :=
    validateIndependentDisks (JStr orgVDCId)
                             (fresh (fun _ => admin_vdc_answer (JArr [entity]))) in
  fst bare = fst listed /\
  ENABLE_SOURCE_ORG_VDC (snd bare) = ENABLE_SOURCE_ORG_VDC (snd listed) /\
  ENABLE_AFFINITY_RULES_IN_SOURCE_VAPP (snd bare) =
  ENABLE_AFFINITY_RULES_IN_SOURCE_VAPP (snd listed) /\
  (named "@type" INDEPENDENT_DISKS_EXIST_IN_ORG_VDC_TYPE entity ->
   fst bare = Raises independent_disks_exist /\
   ENABLE_SOURCE_ORG_VDC (snd bare) = true /\
   ENABLE_AFFINITY_RULES_IN_SOURCE_VAPP (snd bare) = true).
Proof.
  intros Hlist bare listed. subst bare listed.
  unfold validateIndependentDisksDoesNotExistsInOrgVDC, method_of.
  cbn [decorated except_clause].
  unfold try_except_reraise, lift, validateIndependentDisksDoesNotExistsInOrgVDC_try,
    bind, of_result, rest, ret, raise, fresh, fresh_io, admin_vdc_answer,
    set_ENABLE_SOURCE_ORG_VDC, set_ENABLE_AFFINITY_RULES_IN_SOURCE_VAPP.
  cbn [world fst snd served remote content as_str
       getitem assoc String.eqb Ascii.eqb Bool.eqb dict_get and_then truthy
       iter is_list no_independent_disk].
  rewrite Hlist.
  destruct (getitem entity "@type") as [type |] eqn:Htype; cbn [fst snd and_then].
  - destruct (eq_str type INDEPENDENT_DISKS_EXIST_IN_ORG_VDC_TYPE) eqn:Heq;
      cbn [fst snd ENABLE_SOURCE_ORG_VDC ENABLE_AFFINITY_RULES_IN_SOURCE_VAPP].
    + repeat split.
    + split; [reflexivity |]. split; [reflexivity |]. split; [reflexivity |].
      intros (v & Hv & Hy). congruence.
  - split; [reflexivity |]. split; [reflexivity |]. split; [reflexivity |].
    intros (v & Hv & Hy). congruence.
Qed.

End IndependentDisks.

(** An Org VDC whose one resource entity is an independent disk. *)
Lemma validateIndependentDisks_one_disk :
  let run := validateIndependentDisksDoesNotExistsInOrgVDC
               (edge_url "vdc") "application/vnd.vmware.vcloud.disk+xml"
               (JStr "urn:vcloud:vdc:42")
               (fresh (fun _ => admin_vdc_answer
                                  (entity "application/vnd.vmware.vcloud.disk+xml" "disk-1"
                                          "https://10.0.0.1/api/disk/1"))) in
  fst run = Raises independent_disks_exist /\
  ENABLE_SOURCE_ORG_VDC (snd run) = true /\
  ENABLE_AFFINITY_RULES_IN_SOURCE_VAPP (snd run) = true.
Proof.
  apply (validateIndependentDisks_normalizes
           (edge_url "vdc") "application/vnd.vmware.vcloud.disk+xml" "urn:vcloud:vdc:42"
           (entity "application/vnd.vmware.vcloud.disk+xml" "disk-1"
                   "https://10.0.0.1/api/disk/1") eq_refl).
  eexists. split; reflexivity.
Defined.

(** ** The networks of an Org VDC *)

Lemma networks_of_filter (orgVDCId : string) (records : list json) :
  Forall has_org_vdc_id records ->
  networks_of orgVDCId records = Ok (List.filter (belongs_to orgVDCId) records).
Proof.
  induction 1 as [| record rest (orgVdc & id & Ho & Hid) _ IH]; [reflexivity |].
  cbn [networks_of List.filter]. unfold belongs_to at 1.
  rewrite Ho. cbn [and_then]. rewrite Hid. cbn [and_then]. rewrite IH.
  cbn [and_then]. destruct (eq_str id orgVDCId); reflexivity.
Qed.

(** X26.  [getOrgVDCNetworks] returns the networks of the answer that
    belong to the Org VDC, in the order of the answer, and, when asked
    to save, records that same list under the key given, leaving the
    rest of the document alone.  The status of the answer plays no
    part. *)
Theorem getOrgVDCNetworks_returns_and_saves_the_networks_of_the_org_vdc
        (orgVDCId orgVDCNetworkType : string) (saveResponse : bool) (i : io)
        (data : gmap string json) (values : json) (records : list json) :
  apiOutput i = Some data ->
  getitem (content (next_response i)) "values" = Ok values ->
  iter values = Ok records ->
  Forall has_org_vdc_id records ->
  let run := getOrgVDCNetworks_try orgVDCId orgVDCNetworkType saveResponse i in
  let networks := JArr (List.filter (belongs_to orgVDCId) records) in
  fst run = Returns networks /\
  apiOutput (snd run) =
  Some (if saveResponse then <[ orgVDCNetworkType := networks ]> data else data).
Proof.
  intros Hfile Hvalues Hiter Hrecords run networks. subst run networks.
  unfold next_response in *.
  unfold getOrgVDCNetworks_try, bind, rest, of_result, ret, json_load, json_dump.
  cbn [fst snd apiOutput]. rewrite Hvalues. cbn [and_then]. rewrite Hiter.
  cbn [and_then]. rewrite (networks_of_filter orgVDCId records Hrecords).
  destruct saveResponse; cbn [fst snd apiOutput]; rewrite ?Hfile; split; reflexivity.
Qed.

Lemma getOrgVDCNetworks_of_vdc_42 :
  let records := [org_vdc_network "net-0" "urn:vcloud:vdc:42" false "NAT_ROUTED";
                  org_vdc_network "net-9" "urn:vcloud:vdc:7" false "ISOLATED";
                  org_vdc_network "net-1" "urn:vcloud:vdc:42" true "NAT_ROUTED"] in
  fst (getOrgVDCNetworks_try "urn:vcloud:vdc:42" "sourceOrgVDCNetworks" true
         (world (with_file two_facts
                   (fun _ => Response 403 (JObj [("values", JArr records)]) []))))
  = Returns (JArr [org_vdc_network "net-0" "urn:vcloud:vdc:42" false "NAT_ROUTED";
                   org_vdc_network "net-1" "urn:vcloud:vdc:42" true "NAT_ROUTED"]).
Proof.
  intros records.
  set (i := world (with_file two_facts _)).
  assert (Hrecords : Forall has_org_vdc_id records)
    by (repeat constructor; eexists _, _; split; reflexivity).
  apply (proj1 (getOrgVDCNetworks_returns_and_saves_the_networks_of_the_org_vdc
                  "urn:vcloud:vdc:42" "sourceOrgVDCNetworks" true i two_facts
                  (JArr records) records eq_refl eq_refl eq_refl Hrecords)).
Defined.

(** ** DHCP on isolated networks *)

Section IsolatedNetworks.

Variable DHCP_ENABLED_FOR_ORG_VDC_NETWORK_BY_ID : json -> url.

Local Abbreviation no_dhcp := (no_dhcp_on_isolated DHCP_ENABLED_FOR_ORG_VDC_NETWORK_BY_ID).

Lemma no_dhcp_passes_over (orgVdcNetwork : json) (others : list json) (i : io) :
  (exists networkType, getitem orgVdcNetwork "networkType" = Ok networkType) ->
  is_isolated orgVdcNetwork = false ->
  no_dhcp (orgVdcNetwork :: others) i = no_dhcp others i.
Proof.
  intros (networkType & Htype) Hiso. unfold is_isolated in Hiso. rewrite Htype in Hiso.
  cbn [no_dhcp_on_isolated]. unfold bind, of_result. rewrite Htype. cbn [fst snd].
  rewrite Hiso. reflexivity.
Qed.

Lemma no_dhcp_turn (orgVdcNetwork : json) (others : list json) (id : json) (i : io) :
  is_isolated orgVdcNetwork = true ->
  getitem orgVdcNetwork "id" = Ok id ->
  dhcp_disabled (response_in 0 i) ->
  no_dhcp (orgVdcNetwork :: others) i =
  no_dhcp others (snd (rest GET (DHCP_ENABLED_FOR_ORG_VDC_NETWORK_BY_ID id) i)).
Proof.
  intros Hiso Hid (enabled & Henabled & Hfalse). unfold is_isolated in Hiso.
  unfold response_in in Henabled. rewrite Nat.add_0_r in Henabled.
  destruct (getitem orgVdcNetwork "networkType") as [networkType |] eqn:Htype;
    [| discriminate].
  cbn [no_dhcp_on_isolated]. unfold bind, of_result, rest. rewrite Htype. cbn [fst snd].
  rewrite Hiso, Hid. cbn [fst snd]. rewrite Henabled, Hfalse. reflexivity.
Qed.

Lemma no_dhcp_head (orgVdcNetwork : json) (others : list json) (id : json) (i : io) :
  is_isolated orgVdcNetwork = true ->
  getitem orgVdcNetwork "id" = Ok id ->
  fst (no_dhcp (orgVdcNetwork :: others) i) = Returns tt ->
  dhcp_disabled (response_in 0 i).
Proof.
  intros Hiso Hid Hrun. unfold is_isolated in Hiso. unfold dhcp_disabled, response_in.
  rewrite Nat.add_0_r.
  destruct (getitem orgVdcNetwork "networkType") as [networkType |] eqn:Htype;
    [| discriminate].
  cbn [no_dhcp_on_isolated] in Hrun. unfold bind, of_result, rest in Hrun.
  rewrite Htype in Hrun. cbn [fst snd] in Hrun. rewrite Hiso, Hid in Hrun.
  cbn [fst snd] in Hrun.
  destruct (getitem (content (remote i (served i))) "enabled") as [enabled |];
    [| discriminate].
  exists enabled. split; [reflexivity |].
  destruct (truthy enabled); [| reflexivity].
  exfalso. unfold raise in Hrun. destruct (getitem orgVdcNetwork "name"); discriminate.
Qed.

Lemma no_dhcp_iff (networks : list json) :
  Forall (fun network => exists networkType, getitem network "networkType" = Ok networkType)
         networks ->
  forall (ids : list json) (i : io),
    ids_are (List.filter is_isolated networks) ids ->
    (fst (no_dhcp networks i) = Returns tt <->
     forall k, k < length ids -> dhcp_disabled (response_in k i)) /\
    (fst (no_dhcp networks i) = Returns tt ->
     trace (snd (no_dhcp networks i)) =
     (trace i ++ map (fun id => Request GET (DHCP_ENABLED_FOR_ORG_VDC_NETWORK_BY_ID id)) ids)%list).
Proof.
  induction 1 as [| network others Htype _ IH]; intros ids i Hids.
  - cbn [List.filter] in Hids. inversion Hids; subst.
    cbn [no_dhcp_on_isolated ret fst snd map length]. rewrite app_nil_r.
    split; [| reflexivity]. split; [intros _ k Hk; lia | reflexivity].
  - cbn [List.filter] in Hids. destruct (is_isolated network) eqn:Hiso.
    + inversion Hids as [| ? id ? ids' Hid Hrest]; subst.
      destruct (IH ids' (snd (rest GET (DHCP_ENABLED_FOR_ORG_VDC_NETWORK_BY_ID id) i)) Hrest)
        as (Hiff & Htrace).
      assert (Hstep : dhcp_disabled (response_in 0 i) ->
                      no_dhcp (network :: others) i =
                      no_dhcp others (snd (rest GET (DHCP_ENABLED_FOR_ORG_VDC_NETWORK_BY_ID id) i)))
        by (apply no_dhcp_turn; assumption).
      split; [split |].
      * intros Hrun. pose proof (no_dhcp_head network others id i Hiso Hid Hrun) as H0.
        rewrite (Hstep H0) in Hrun. intros [| k] Hk; [exact H0 |].
        rewrite <- response_in_after_request
          with (v := GET) (u := DHCP_ENABLED_FOR_ORG_VDC_NETWORK_BY_ID id).
        apply (proj1 Hiff Hrun). cbn [length] in Hk. lia.
      * intros Hall. rewrite (Hstep (Hall 0 ltac:(cbn [length]; lia))).
        apply Hiff. intros k Hk. rewrite response_in_after_request.
        apply Hall. cbn [length]. lia.
      * intros Hrun. pose proof (no_dhcp_head network others id i Hiso Hid Hrun) as H0.
        rewrite (Hstep H0) in Hrun |- *. rewrite (Htrace Hrun).
        unfold rest. cbn [snd trace map]. rewrite <- app_assoc. reflexivity.
    + rewrite (no_dhcp_passes_over network others i Htype Hiso). apply IH. exact Hids.
Qed.

(** X27.  [validateDHCPEnabledonIsolatedVdcNetworks] asks the remote
    system about the isolated networks of the list only, in the order of
    the list, and passes exactly when each answer reports DHCP as not
    enabled; when it passes it has sent, after the probe of its guard
    (the session being valid), one GET for each isolated network and
    nothing else, and the rollback flags are as they were. *)
Theorem validateDHCPEnabledonIsolatedVdcNetworks_asks_about_isolated_networks_only
        (w : vcd) (networks ids : list json) :
  status_code (next_response (world w)) = ok ->
  Forall (fun network => exists networkType, getitem network "networkType" = Ok networkType)
         networks ->
  ids_are (List.filter is_isolated networks) ids ->
  let run := validateDHCPEnabledonIsolatedVdcNetworks
               DHCP_ENABLED_FOR_ORG_VDC_NETWORK_BY_ID (JArr networks) w in
  (fst run = Returns tt <->
   forall k, k < length ids -> dhcp_disabled (response_in (S k) (world w))) /\
  (fst run = Returns tt ->
   trace (world (snd run)) =
   (trace (world w) ++ Request GET SESSION ::
      map (fun id => Request GET (DHCP_ENABLED_FOR_ORG_VDC_NETWORK_BY_ID id)) ids)%list /\
   ENABLE_SOURCE_ORG_VDC (snd run) = ENABLE_SOURCE_ORG_VDC w /\
   ENABLE_AFFINITY_RULES_IN_SOURCE_VAPP (snd run) = ENABLE_AFFINITY_RULES_IN_SOURCE_VAPP w).
Proof.
  intros Hok Htypes Hids run. subst run.
  destruct (no_dhcp_iff networks Htypes ids (world (after_probe w)) Hids) as (Hiff & Htrace).
  assert (Hshift : forall k, response_in k (world (after_probe w)) = response_in (S k) (world w)).
  { intros k. unfold after_probe, lift. cbn [snd world]. apply response_in_after_request. }
  assert (Hblock : validateDHCPEnabledonIsolatedVdcNetworks_try
                     DHCP_ENABLED_FOR_ORG_VDC_NETWORK_BY_ID (JArr networks)
                     (world (after_probe w)) =
                   no_dhcp networks (world (after_probe w))).
  { reflexivity. }
  unfold validateDHCPEnabledonIsolatedVdcNetworks.
  destruct (no_dhcp networks (world (after_probe w))) as [[[] | e |] i'] eqn:Hrun.
  - rewrite (guarded_method_returns ValidateDHCPEnabledonIsolatedVdcNetworks _ w tt i'
               eq_refl Hok Hblock).
    cbn [fst snd world ENABLE_SOURCE_ORG_VDC ENABLE_AFFINITY_RULES_IN_SOURCE_VAPP] in *.
    split.
    + split; [| reflexivity]. intros _ k Hk. rewrite <- Hshift. apply Hiff; auto.
    + intros _. rewrite (Htrace eq_refl).
      unfold after_probe, lift, rest. cbn [snd world trace]. rewrite <- app_assoc.
      repeat split.
  - destruct (guarded_method_raises ValidateDHCPEnabledonIsolatedVdcNetworks _ w e i'
                eq_refl Hok Hblock) as (w' & Hfull & _).
    rewrite Hfull. cbn [fst snd] in *. split.
    + split; [discriminate |]. intros Hall.
      assert (Hfalse : @Raises unit e = Returns tt); [| discriminate Hfalse].
      apply Hiff. intros k Hk. rewrite Hshift. apply Hall. exact Hk.
    + discriminate.
  - exfalso.
    assert (Hnever : forall l j, fst (no_dhcp l j) <> OutOfFuel).
    { clear. induction l as [| n l IH]; intros j; cbn [no_dhcp_on_isolated].
      - discriminate.
      - unfold bind, of_result, rest, raise.
        destruct (getitem n "networkType") as [t |]; cbn [fst snd]; [| discriminate].
        destruct (eq_str t "ISOLATED"); [| apply IH].
        destruct (getitem n "id") as [id |]; cbn [fst snd]; [| discriminate].
        destruct (getitem (content (remote j (served j))) "enabled") as [en |];
          cbn [fst snd]; [| discriminate].
        destruct (truthy en); [| apply IH].
        destruct (getitem n "name"); discriminate. }
    apply (Hnever networks (world (after_probe w))). rewrite Hrun. reflexivity.
Qed.

End IsolatedNetworks.

Lemma validateDHCPEnabledonIsolatedVdcNetworks_one_isolated_network :
  let run := validateDHCPEnabledonIsolatedVdcNetworks dhcp_url
               (JArr [routed_network "net-0" "urn:net:0";
                      isolated_network "net-1" "urn:net:1";
                      routed_network "net-2" "urn:net:2"])
               (fresh (answering [session_ok; dhcp_answer false])) in
  fst run = Returns tt.
Proof.
  apply (proj1 (validateDHCPEnabledonIsolatedVdcNetworks_asks_about_isolated_networks_only
                  dhcp_url (fresh (answering [session_ok; dhcp_answer false]))
                  [routed_network "net-0" "urn:net:0";
                   isolated_network "net-1" "urn:net:1";
                   routed_network "net-2" "urn:net:2"]
                  [JStr "urn:net:1"] eq_refl
                  ltac:(repeat constructor; eexists; reflexivity)
                  ltac:(repeat constructor))).
  intros [| k] Hk; [| cbn in Hk; lia]. eexists. split; reflexivity.
Defined.
